(** * eda_sdk.consumer: Kafka consumption, CloudEvent decoding, handler
      dispatch and output routing

    A shallow embedding of [sdks/python/eda_sdk/consumer.py] (with the
    data types of [eda_sdk/types.py] and the delegate interface of
    [eda_sdk/core.py]).

    The consumer talks to four collaborators: the Kafka client
    (consumer and producer), the policy delegate ([Core]), the user's
    handler and the logger.  Every call that leaves the SDK is a
    request [Req] answered by an oracle over an arbitrary world state;
    every call is also recorded, in program order, in a trace.  Python
    exceptions are values of [PyExc]; a computation either returns,
    raises, or (for the endless poll loop only) runs out of fuel. *)

From Stdlib Require Import ZArith String Ascii List Lia Bool.
From stdpp Require Import base gmap strings list.
From stdpp Require Import pretty.

Open Scope Z_scope.

(** ** Python values *)

Definition bytes := list Byte.byte.

(** A Python [str] is represented by its UTF-8 text, so that
    [s.encode("utf-8")] reads off the underlying bytes. *)
Definition encode_utf8 (s : string) : bytes := list_byte_of_string s.

(** The few Python values that travel through dict literals and
    logging extras. *)
Inductive pyvalue :=
  | PNone
  | PBool (b : bool)
  | PInt (z : Z)
  | PStr (s : string)
  | PBytes (b : bytes)
  | PObject (repr : string).

(** A dict literal, in insertion order. *)
Definition pydict := list (string * pyvalue).

(** [d[k] = v]: replaces the value of an existing key in place, appends
    a new key at the end. *)
Fixpoint dict_set (k : string) (v : pyvalue) (d : pydict) : pydict :=
  match d with
  | [] => [(k, v)]
  | (k', v') :: d' =>
      if String.eqb k k' then (k, v) :: d' else (k', v') :: dict_set k v d'
  end.

(** [pat in s] on strings. *)
Fixpoint str_contains (pat s : string) : bool :=
  String.prefix pat s ||
  match s with
  | EmptyString => false
  | String _ s' => str_contains pat s'
  end.

(** ** Exceptions *)

Record KafkaError := { code : Z; errstr : string }.

(** librdkafka's RD_KAFKA_RESP_ERR__PARTITION_EOF. *)
Definition _PARTITION_EOF : Z := -191.

Inductive PyExc :=
  | RuntimeError (msg : string)
  | KafkaException (err : KafkaError)
  | AttributeError (msg : string)
  | OtherException (cls msg : string)
  | KeyboardInterrupt
  | OtherBaseException (cls msg : string).

(** [isinstance(e, Exception)]: what [except Exception] catches. *)
Definition isinstance_Exception (e : PyExc) : bool :=
  match e with
  | KeyboardInterrupt | OtherBaseException _ _ => false
  | _ => true
  end.

Definition isinstance_KeyboardInterrupt (e : PyExc) : bool :=
  match e with
  | KeyboardInterrupt => true
  | _ => false
  end.

(** [str(e)]. *)
Definition str_exc (e : PyExc) : string :=
  match e with
  | RuntimeError m | AttributeError m
  | OtherException _ m | OtherBaseException _ m => m
  | KafkaException err => errstr err
  | KeyboardInterrupt => ""
  end.

(** ** types.py *)

Inductive DestinationType := KAFKA | RABBITMQ | HTTP | DISCARD.

Definition DestinationType_value (t : DestinationType) : Z :=
  match t with KAFKA => 0 | RABBITMQ => 1 | HTTP => 2 | DISCARD => 3 end.

Definition DestinationType_name (t : DestinationType) : string :=
  match t with
  | KAFKA => "KAFKA" | RABBITMQ => "RABBITMQ" | HTTP => "HTTP"
  | DISCARD => "DISCARD"
  end.

(** What the delegate hands back in [OutputDestination.type]: a member
    of the enumeration, or some other object, known by its integer
    value, its [name] attribute if it has one, and its [str()]. *)
Inductive DestTypeVal :=
  | Member (t : DestinationType)
  | Foreign (value : Z) (name : option string) (repr : string).

Definition dest_value (v : DestTypeVal) : Z :=
  match v with
  | Member t => DestinationType_value t
  | Foreign z _ _ => z
  end.

(** [v.name]; [None] stands for the AttributeError. *)
Definition dest_name (v : DestTypeVal) : option string :=
  match v with
  | Member t => Some (DestinationType_name t)
  | Foreign _ n _ => n
  end.

(** [str(v)]; an IntEnum member prints as its integer value. *)
Definition dest_str (v : DestTypeVal) : string :=
  match v with
  | Member KAFKA => "0" | Member RABBITMQ => "1"
  | Member HTTP => "2" | Member DISCARD => "3"
  | Foreign _ _ r => r
  end.

(** [v == DestinationType.X]: IntEnum members compare as integers. *)
Definition dest_eqb (v : DestTypeVal) (t : DestinationType) : bool :=
  dest_value v =? DestinationType_value t.

Record KafkaConfig := { broker : string; topic : string; group : string }.

Record OutputDestination := {
  d_type : DestTypeVal;
  d_target : string;
  d_cluster : option string
}.

(** ** CloudEvents and Kafka messages *)

(** The attributes the SDK reads from a [CloudEvent] with [event[k]]
    and [k in event]. *)
Record CloudEvent := {
  ce_specversion : string;
  ce_type : string;
  ce_source : string;
  ce_id : string;
  ce_time : option string;
  ce_datacontenttype : option string;
  ce_data : option pyvalue
}.

(** A header value as delivered by confluent_kafka. *)
Inductive HeaderVal :=
  | HNone
  | HStr (s : string)
  | HBytes (b : bytes)
  | HOther.

(** confluent_kafka's [Message], through its accessors [error()],
    [value()], [headers()] and [key()]. *)
Record Message := {
  m_error : option KafkaError;
  m_value : option bytes;
  m_headers : option (list (string * HeaderVal));
  m_key : option bytes
}.

(** cloudevents.kafka's [KafkaMessage]. *)
Record KafkaMessage := {
  km_headers : gmap string bytes;
  km_key : option bytes;
  km_value : bytes
}.

(** ** Handlers *)

(** A return annotation. *)
Inductive PyType :=
  | TNone
  | TClass (module qualname : string)
  | TOptional (t : PyType)
  | TString (s : string)
  | TOther (repr : string).

(** How [typing] prints a type argument. *)
Fixpoint type_repr (t : PyType) : string :=
  match t with
  | TNone => "NoneType"
  | TClass m q => m +:+ "." +:+ q
  | TOptional t' => "typing.Optional[" +:+ type_repr t' +:+ "]"
  | TString s => "ForwardRef('" +:+ s +:+ "')"
  | TOther r => r
  end.

(** [str(t)]. *)
Definition type_str (t : PyType) : string :=
  match t with
  | TNone => "None"
  | TClass m q => "<class '" +:+ m +:+ "." +:+ q +:+ "'>"
  | TOptional t' => "typing.Optional[" +:+ type_repr t' +:+ "]"
  | TString s => s
  | TOther r => r
  end.

(** The user's handler as the SDK sees it statically: its
    [__annotations__], if it has the attribute.  What it does when
    called is the world's business (request [RHandler]). *)
Record Handler := {
  h_annotations : option (gmap string PyType)
}.


(** ** Requests to the collaborators *)

Inductive Req :=
  | RGetKafkaConfig
  | RShouldRetry (error : string) (attempt : Z)
  | RCalculateBackoff (attempt : Z)
  | RGetOutputDestination (event_json : string)
  | RCoreClose
  | RNewKafkaConsumer (conf : pydict)
  | RSubscribe (topics : list string)
  | RPoll (timeout_ms : Z)
  | RConsumerClose
  | RNewProducer (conf : pydict)
  | RProduce (topic : string) (value key : bytes)
  | RFlush (timeout : option Z)
  | RHandler (event : CloudEvent).

Definition Resp (r : Req) : Type :=
  match r with
  | RGetKafkaConfig => KafkaConfig
  | RShouldRetry _ _ => bool
  | RCalculateBackoff _ => Z
  | RGetOutputDestination _ => OutputDestination
  | RPoll _ => option Message
  | RHandler _ => option CloudEvent
  | RCoreClose | RNewKafkaConsumer _ | RSubscribe _ | RConsumerClose
  | RNewProducer _ | RProduce _ _ _ | RFlush _ => unit
  end.

(** What a collaborator answers. *)
Inductive reply (A : Type) :=
  | Returns (a : A)
  | Raises (e : PyExc).
Arguments Returns {A} a.
Arguments Raises {A} e.

Inductive LogLevel := INFO | WARNING | ERROR.

(** ** Traces *)

Inductive event :=
  | ECall (r : Req)
  | EFromStructured (m : KafkaMessage)
  | EFromBinary (m : KafkaMessage)
  | EJsonDumps (d : pydict)
  | ELog (lvl : LogLevel) (msg : string) (extra : pydict)
  | ERaise (e : PyExc).

Definition trace := list event.

(** ** The monad: world state, trace output, exceptions, fuel *)

Inductive result (A : Type) :=
  | Ok (a : A)
  | Raise (e : PyExc)
  | OutOfFuel.
Arguments Ok {A} a.
Arguments Raise {A} e.
Arguments OutOfFuel {A}.

Definition M (W A : Type) : Type := W -> result A * W * trace.

Definition ret {W A} (a : A) : M W A := fun w => (Ok a, w, []).

Definition bind {W A B} (m : M W A) (k : A -> M W B) : M W B :=
  fun w =>
    match m w with
    | (Ok a, w1, t1) =>
        match k a w1 with
        | (r, w2, t2) => (r, w2, t1 ++ t2)
        end
    | (Raise e, w1, t1) => (Raise e, w1, t1)
    | (OutOfFuel, w1, t1) => (OutOfFuel, w1, t1)
    end.

Declare Scope py_scope.
Delimit Scope py_scope with py.
Notation "x <- m ;; k" := (bind m (fun x => k))
  (at level 100, m at next level, k at level 200, right associativity,
   only parsing) : py_scope.
Notation "m ;; k" := (bind m (fun _ => k))
  (at level 100, k at level 200, right associativity, only parsing) : py_scope.
Open Scope py_scope.

(** A [raise] statement of the SDK itself; it leaves a mark in the
    trace, which tells it apart from an exception of a collaborator. *)
Definition raise {W A} (e : PyExc) : M W A := fun w => (Raise e, w, [ERaise e]).

Definition out_of_fuel {W A} : M W A := fun w => (OutOfFuel, w, []).

Definition emit {W} (ev : event) : M W unit := fun w => (Ok tt, w, [ev]).

Definition of_reply {W A} (r : reply A) : M W A :=
  fun w => match r with
           | Returns a => (Ok a, w, [])
           | Raises e => (Raise e, w, [])
           end.

(** [try: m  except Exception as e: h e] *)
Definition try_except_Exception {W A} (m : M W A) (h : PyExc -> M W A) : M W A :=
  fun w =>
    match m w with
    | (Raise e, w1, t1) =>
        if isinstance_Exception e then
          match h e w1 with
          | (r, w2, t2) => (r, w2, t1 ++ t2)
          end
        else (Raise e, w1, t1)
    | other => other
    end.

(** [try: m  except KeyboardInterrupt: h] *)
Definition try_except_KeyboardInterrupt {W A} (m : M W A) (h : M W A) : M W A :=
  fun w =>
    match m w with
    | (Raise e, w1, t1) =>
        if isinstance_KeyboardInterrupt e then
          match h w1 with
          | (r, w2, t2) => (r, w2, t1 ++ t2)
          end
        else (Raise e, w1, t1)
    | other => other
    end.

(** [try: m  finally: f].  An exception of [f] replaces the pending
    one; running out of fuel means [m] is still running. *)
Definition try_finally {W A} (m : M W A) (f : M W unit) : M W A :=
  fun w =>
    match m w with
    | (OutOfFuel, w1, t1) => (OutOfFuel, w1, t1)
    | (r, w1, t1) =>
        match f w1 with
        | (Ok _, w2, t2) => (r, w2, t1 ++ t2)
        | (Raise e', w2, t2) => (Raise e', w2, t1 ++ t2)
        | (OutOfFuel, w2, t2) => (OutOfFuel, w2, t1 ++ t2)
        end
    end.

(** [while True: st = body st] *)
Fixpoint while_true {W St A} (fuel : nat) (body : St -> M W St) (st : St) : M W A :=
  match fuel with
  | O => out_of_fuel
  | S fuel' => st' <- body st ;; while_true fuel' body st'
  end.

(** [n] rounds of the loop body. *)
Fixpoint iterate {W St} (n : nat) (body : St -> M W St) (st : St) : M W St :=
  match n with
  | O => ret st
  | S n' => st' <- body st ;; iterate n' body st'
  end.

(** ** The Consumer object *)

(** The delegate behind the [Core] protocol. *)
Inductive Core := CoreHandle.

(** confluent_kafka's [Consumer] and [Producer], by the configuration
    they were created with. *)
Record KafkaConsumer := { kc_conf : pydict }.
Record Producer := { p_conf : pydict }.

(** The attributes set by [Consumer.__init__]; none is assigned again
    later.  [core] is typed [Core] and never [None]. *)
Record Consumer := {
  core : Core;
  handler : Handler;
  _consumer : option KafkaConsumer;
  _producer : option Producer;
  _is_output_handler : bool
}.

(** [Consumer._detect_output_handler] *)
Definition _detect_output_handler (handler : Handler) : bool :=
  match h_annotations handler with
  | Some annotations =>
      match annotations !! "return" with
      | None | Some TNone => false
      | Some return_type => str_contains "CloudEvent" (type_str return_type)
      end
  | None => false
  end.



(** The header loop of [_parse_cloud_event]: [None] values and values
    that are neither [str] nor [bytes] are dropped. *)
Fixpoint convert_headers (msg_headers : list (string * HeaderVal))
    (headers : gmap string bytes) : gmap string bytes :=
  match msg_headers with
  | [] => headers
  | (key, val) :: rest =>
      convert_headers rest
        (match val with
         | HStr s => <[key := encode_utf8 s]> headers
         | HBytes b => <[key := b]> headers
         | HNone | HOther => headers
         end)
  end.

Definition to_kafka_message (msg : Message) (value : bytes) : KafkaMessage :=
  {| km_headers := match m_headers msg with
                   | Some msg_headers => convert_headers msg_headers ∅
                   | None => ∅
                   end;
     km_key := m_key msg;
     km_value := value |}.

(** The dict both publish functions build from an output event. *)
Definition event_dict_of (event : CloudEvent) : pydict :=
  let event_dict :=
    [("specversion", PStr (ce_specversion event));
     ("type", PStr (ce_type event));
     ("source", PStr (ce_source event));
     ("id", PStr (ce_id event))] in
  let event_dict :=
    match ce_time event with
    | Some t => dict_set "time" (PStr t) event_dict
    | None => event_dict
    end in
  let event_dict :=
    match ce_datacontenttype event with
    | Some t => dict_set "datacontenttype" (PStr t) event_dict
    | None => event_dict
    end in
  match ce_data event with
  | Some d => dict_set "data" d event_dict
  | None => event_dict
  end.

Definition max_consecutive_errors : Z := 5.

(** ** Reading traces *)

Definition is_poll (e : event) : bool :=
  match e with ECall (RPoll _) => true | _ => false end.

Definition is_handler_call (e : event) : bool :=
  match e with ECall (RHandler _) => true | _ => false end.

Definition is_produce (e : event) : bool :=
  match e with ECall (RProduce _ _ _) => true | _ => false end.

Definition is_new_producer (e : event) : bool :=
  match e with ECall (RNewProducer _) => true | _ => false end.

(** Serialization for routing, destination resolution, publishing. *)
Definition is_routing (e : event) : bool :=
  match e with
  | EJsonDumps _ | ECall (RGetOutputDestination _)
  | ECall (RProduce _ _ _) | ECall (RFlush _) => true
  | _ => false
  end.

Definition is_strategy (e : event) : bool :=
  match e with EFromStructured _ | EFromBinary _ => true | _ => false end.

Fixpoint count (p : event -> bool) (t : trace) : nat :=
  match t with
  | [] => 0
  | e :: t' => (if p e then 1 else 0) + count p t'
  end%nat.

Definition none_of (p : event -> bool) (t : trace) : Prop :=
  Forall (fun e => p e = false) t.

(** The calls to collaborators in a trace, in order. *)
Fixpoint calls (t : trace) : list Req :=
  match t with
  | [] => []
  | ECall r :: t' => r :: calls t'
  | _ :: t' => calls t'
  end.

(** ** A scripted world

    The broker delivers a fixed list of poll results and then
    interrupts; every other collaborator answers by a fixed function. *)

Record Script := {
  s_kafka_config : reply KafkaConfig;
  s_handler : CloudEvent -> reply (option CloudEvent);
  s_should_retry : string -> Z -> reply bool;
  s_calculate_backoff : Z -> reply Z;
  s_get_output_destination : string -> reply OutputDestination;
  s_flush : option Z -> reply unit;
  s_consumer_close : reply unit;
  s_core_close : reply unit
}.

Definition Polls := list (reply (option Message)).

Definition no_polls : Polls := [].

Definition scripted (s : Script) (r : Req) (polls : Polls) : reply (Resp r) * Polls :=
  match r return reply (Resp r) * Polls with
  | RGetKafkaConfig => (s_kafka_config s, polls)
  | RShouldRetry error attempt => (s_should_retry s error attempt, polls)
  | RCalculateBackoff attempt => (s_calculate_backoff s attempt, polls)
  | RGetOutputDestination event_json => (s_get_output_destination s event_json, polls)
  | RCoreClose => (s_core_close s, polls)
  | RNewKafkaConsumer _ => (Returns tt, polls)
  | RSubscribe _ => (Returns tt, polls)
  | RPoll _ =>
      match polls with
      | [] => (Raises KeyboardInterrupt, [])
      | p :: rest => (p, rest)
      end
  | RConsumerClose => (s_consumer_close s, polls)
  | RNewProducer _ => (Returns tt, polls)
  | RProduce _ _ _ => (Returns tt, polls)
  | RFlush timeout => (s_flush s timeout, polls)
  | RHandler event => (s_handler s event, polls)
  end.

Definition sample_event : CloudEvent :=
  {| ce_specversion := "1.0"; ce_type := "kafka.message";
     ce_source := "test"; ce_id := "42";
     ce_time := Some "2024-01-01T00:00:00Z";
     ce_datacontenttype := None;
     ce_data := Some (PStr "payload") |}.

Definition output_event : CloudEvent :=
  {| ce_specversion := "1.0"; ce_type := "com.example.processed";
     ce_source := "ffi-output-example"; ce_id := "processed-42";
     ce_time := None; ce_datacontenttype := None; ce_data := None |}.

Definition sample_config : KafkaConfig :=
  {| broker := "localhost:9092"; topic := "events"; group := "g" |}.

Definition kafka_dest (target : string) : OutputDestination :=
  {| d_type := Member KAFKA; d_target := target; d_cluster := None |}.

(** A quiet world: the handler returns nothing, the delegate routes to
    Kafka topic "out" and never asks for a retry, nothing raises. *)
Definition calm : Script :=
  {| s_kafka_config := Returns sample_config;
     s_handler := fun _ => Returns None;
     s_should_retry := fun _ _ => Returns false;
     s_calculate_backoff := fun _ => Returns 100;
     s_get_output_destination := fun _ => Returns (kafka_dest "out");
     s_flush := fun _ => Returns tt;
     s_consumer_close := Returns tt;
     s_core_close := Returns tt |}.

Definition with_handler (h : CloudEvent -> reply (option CloudEvent)) (s : Script) : Script :=
  {| s_kafka_config := s_kafka_config s;
     s_handler := h;
     s_should_retry := s_should_retry s;
     s_calculate_backoff := s_calculate_backoff s;
     s_get_output_destination := s_get_output_destination s;
     s_flush := s_flush s;
     s_consumer_close := s_consumer_close s;
     s_core_close := s_core_close s |}.

Definition with_destination (d : string -> reply OutputDestination) (s : Script) : Script :=
  {| s_kafka_config := s_kafka_config s;
     s_handler := s_handler s;
     s_should_retry := s_should_retry s;
     s_calculate_backoff := s_calculate_backoff s;
     s_get_output_destination := d;
     s_flush := s_flush s;
     s_consumer_close := s_consumer_close s;
     s_core_close := s_core_close s |}.

Definition with_retry (sr : string -> Z -> reply bool) (bo : Z -> reply Z) (s : Script) : Script :=
  {| s_kafka_config := s_kafka_config s;
     s_handler := s_handler s;
     s_should_retry := sr;
     s_calculate_backoff := bo;
     s_get_output_destination := s_get_output_destination s;
     s_flush := s_flush s;
     s_consumer_close := s_consumer_close s;
     s_core_close := s_core_close s |}.

Definition with_flush (f : option Z -> reply unit) (s : Script) : Script :=
  {| s_kafka_config := s_kafka_config s;
     s_handler := s_handler s;
     s_should_retry := s_should_retry s;
     s_calculate_backoff := s_calculate_backoff s;
     s_get_output_destination := s_get_output_destination s;
     s_flush := f;
     s_consumer_close := s_consumer_close s;
     s_core_close := s_core_close s |}.

(** Stand-ins for the converters, chosen so that each of the three
    outcomes of decoding occurs: the first accepts a message that
    carries a "ce_id" header, the second one whose value is not empty.
    They are scripted answers, not the encodings of the SDK. *)
Definition header_structured (km : KafkaMessage) : reply CloudEvent :=
  match km_headers km !! "ce_id" with
  | Some _ => Returns sample_event
  | None => Raises (OtherException "MissingRequiredFields" "missing headers")
  end.

Definition nonempty_binary (km : KafkaMessage) : reply CloudEvent :=
  match km_value km with
  | [] => Raises (OtherException "JSONDecodeError" "Expecting value")
  | _ => Returns sample_event
  end.

(** A stand-in for [json.dumps] that prints the keys only. *)
Definition keys_dumps (d : pydict) : reply string :=
  Returns (String.concat "," (map fst d)).

Definition msg_with (headers : option (list (string * HeaderVal)))
    (value : option bytes) : Message :=
  {| m_error := None; m_value := value; m_headers := headers; m_key := None |}.


Definition binary_msg : Message := msg_with None (Some [Byte.x7b]).

Definition garbage_msg : Message := msg_with None (Some []).


Definition error_msg (c : Z) : Message :=
  {| m_error := Some {| code := c; errstr := "broker down" |};
     m_value := None; m_headers := None; m_key := None |}.

Definition simple_handler : Handler :=
  {| h_annotations := Some {[ "event" := TClass "cloudevents.http.event" "CloudEvent";
                              "return" := TNone ]} |}.

Definition output_handler : Handler :=
  {| h_annotations :=
       Some {[ "event" := TClass "cloudevents.http.event" "CloudEvent";
               "return" := TOptional (TClass "cloudevents.http.event" "CloudEvent") ]} |}.

Definition simple_consumer : Consumer :=
  {| core := CoreHandle; handler := simple_handler;
     _consumer := Some {| kc_conf := [] |}; _producer := None;
     _is_output_handler := false |}.

Definition output_consumer : Consumer :=
  {| core := CoreHandle; handler := output_handler;
     _consumer := Some {| kc_conf := [] |};
     _producer := Some {| p_conf := [] |};
     _is_output_handler := true |}.

(** A consumer as [__init__] builds it in the calm world for an
    output handler. *)
Definition built_output_consumer : Consumer :=
  {| core := CoreHandle; handler := output_handler;
     _consumer :=
       Some {| kc_conf :=
                 [("bootstrap.servers", PStr "localhost:9092");
                  ("group.id", PStr "g");
                  ("auto.offset.reset", PStr "earliest");
                  ("enable.auto.commit", PBool true)] |};
     _producer := Some {| p_conf := [("bootstrap.servers", PStr "localhost:9092")] |};
     _is_output_handler := true |}.

Definition broker_down : reply (option Message) := Returns (Some (error_msg (-195))).

Definition partition_eof : reply (option Message) :=
  Returns (Some (error_msg _PARTITION_EOF)).

(** Four transport errors with an empty poll and an end-of-partition
    signal in between, then a fifth error; a good message is still
    waiting behind them. *)
Definition storm : Polls :=
  [broker_down; Returns None; broker_down; partition_eof; broker_down; broker_down;
   broker_down; Returns (Some binary_msg)].

(** The producer cannot flush. *)
Definition failing_flush : Script :=
  with_flush (fun _ => Raises (KafkaException {| code := -195; errstr := "flush failed" |}))
    calm.

(** The handler of the output example: an event for "kafka.message",
    nothing otherwise. *)
Definition example_handle (event : CloudEvent) : reply (option CloudEvent) :=
  if String.eqb (ce_type event) "kafka.message" then Returns (Some output_event)
  else Returns None.

Definition other_event : CloudEvent :=
  {| ce_specversion := "1.0"; ce_type := "other"; ce_source := "test";
     ce_id := "43"; ce_time := None; ce_datacontenttype := None; ce_data := None |}.

Definition dest_of (v : DestTypeVal) : OutputDestination :=
  {| d_type := v; d_target := "somewhere"; d_cluster := None |}.

(** The handler raises; the delegate wants a retry but cannot compute
    the backoff. *)
Definition failing_handler : Script :=
  with_retry (fun _ _ => Returns true)
    (fun _ => Raises (RuntimeError "backoff unavailable"))
    (with_handler (fun _ => Raises (OtherException "ValueError" "boom")) calm).

(** All three releases of a shutdown were attempted. *)
Definition all_releases_attempted (t : trace) : Prop :=
  In (ECall (RFlush (Some 5))) t /\ In (ECall RConsumerClose) t
  /\ In (ECall RCoreClose) t.

(** A reply that [except Exception] can deal with: a value, or an
    exception of class [Exception]. *)
Definition catchable {A} (r : reply A) : Prop :=
  match r with
  | Returns _ => True
  | Raises e => isinstance_Exception e = true
  end.

(** The mark left by [raise RuntimeError("Producer not initialized")]. *)
Definition is_producer_guard (e : event) : bool :=
  match e with
  | ERaise (RuntimeError m) => String.eqb m "Producer not initialized"
  | _ => false
  end.

(** ** More ways to read a trace *)

(** A release call of [Consumer.close]; its flush is the one with a
    timeout. *)
Definition is_release (e : event) : bool :=
  match e with
  | ECall (RFlush (Some _)) | ECall RConsumerClose | ECall RCoreClose => true
  | _ => false
  end.

Definition is_retry_query (e : event) : bool :=
  match e with
  | ECall (RShouldRetry _ _) | ECall (RCalculateBackoff _) => true
  | _ => false
  end.

(** What a header value contributes to the converted headers. *)
Definition header_bytes (v : HeaderVal) : option bytes :=
  match v with
  | HStr s => Some (encode_utf8 s)
  | HBytes b => Some b
  | HNone | HOther => None
  end.

(** The value a header list gives to [key]: that of the last entry for
    [key] that is a [str] or [bytes]. *)
Fixpoint header_lookup (key : string) (msg_headers : list (string * HeaderVal))
    : option bytes :=
  match msg_headers with
  | [] => None
  | (k, v) :: rest =>
      match header_lookup key rest with
      | Some b => Some b
      | None => if decide (k = key) then header_bytes v else None
      end
  end.

(** The handler is interrupted. *)
Definition interrupted_handler : Script :=
  with_handler (fun _ => Raises KeyboardInterrupt) calm.

(** The delegate cannot give the Kafka configuration. *)
Definition no_config : Script :=
  {| s_kafka_config := Raises (RuntimeError "Failed to get Kafka broker");
     s_handler := s_handler calm;
     s_should_retry := s_should_retry calm;
     s_calculate_backoff := s_calculate_backoff calm;
     s_get_output_destination := s_get_output_destination calm;
     s_flush := s_flush calm;
     s_consumer_close := s_consumer_close calm;
     s_core_close := s_core_close calm |}.

(** The calm world, except that the topic cannot be subscribed to. *)
Definition subscribe_fails (r : Req) (polls : Polls) : reply (Resp r) * Polls :=
  match r as r0 return reply (Resp r0) * Polls with
  | RSubscribe _ => (Raises (KafkaException {| code := 3; errstr := "unknown topic" |}), polls)
  | r0 => scripted calm r0 polls
  end.

(** ** [eda_sdk/run.py]: the caller's directory *)

(** [_get_caller_directory], given the file names of [inspect.stack()]
    as [str(Path(filename))], outermost last, and [Path.parent]. *)
Fixpoint _get_caller_directory (parent : string -> string) (frames : list string)
    : option string :=
  match frames with
  | [] => None
  | frame_path :: rest =>
      if negb (str_contains "eda_sdk" frame_path) then Some (parent frame_path)
      else _get_caller_directory parent rest
  end.

Definition is_core_close (e : event) : bool :=
  match e with ECall RCoreClose => true | _ => false end.

Definition is_call (e : event) : bool :=
  match e with ECall _ => true | _ => false end.


(** ** [eda_sdk/run.py] and [eda_sdk/ffi/run.py]: further collaborators

    What these modules use besides the collaborators of the consumer:
    the call stack, the file system, the delegate's
    [load_routing_config] and constructor, and the registration of the
    signal handlers.  Their calls change the world but are not
    requests of [Req], so they leave no [ECall] in the trace.  The
    delivery of a signal is outside this model. *)
Record Runtime (W : Type) := {
  (** the file names of [inspect.stack()] and [Path.parent] *)
  frames : list string;
  parent : string -> string;
  (** [str(caller_dir / name)] *)
  joinpath : string -> string -> string;
  (** [path.exists()] *)
  file_exists : string -> W -> bool;
  (** [core.load_routing_config(path)] *)
  core_load_routing_config : string -> W -> reply unit * W;
  (** the two [signal.signal] calls *)
  register_signal_handlers : W -> reply unit * W;
  (** [FFICore()] *)
  new_core : W -> reply Core * W
}.

Arguments frames {W} _.
Arguments parent {W} _ _.
Arguments joinpath {W} _ _ _.
Arguments file_exists {W} _ _ _.
Arguments core_load_routing_config {W} _ _ _.
Arguments register_signal_handlers {W} _ _.
Arguments new_core {W} _ _.

(** ** A scripted start

    The application's script lies in [/app]; the SDK is installed
    elsewhere.  [routing] tells whether a [routing.yaml] lies beside
    the script, [load] and [signals] are the answers of
    [load_routing_config] and of the registration of the signal
    handlers. *)

(** [Path.parent] on a POSIX path: everything before the last slash. *)
Fixpoint dirname (s : string) : string :=
  match s with
  | EmptyString => EmptyString
  | String a s' => if str_contains "/" s' then String a (dirname s') else EmptyString
  end.

Definition app_frames : list string :=
  ["/venv/lib/eda_sdk/run.py"; "/venv/lib/eda_sdk/ffi/run.py"; "/app/main.py"].

Definition app_runtime (routing : bool) (load signals : reply unit) : Runtime Polls :=
  {| frames := app_frames;
     parent := dirname;
     joinpath := fun d name => d +:+ "/" +:+ name;
     file_exists := fun _ _ => routing;
     core_load_routing_config := fun _ w => (load, w);
     register_signal_handlers := fun w => (signals, w);
     new_core := fun w => (Returns CoreHandle, w) |}.
(** * The FFI delegate: [eda_sdk/ffi/core.py]

    [FFICore] implements the [Core] protocol on a native library.  The
    library is a second collaborator with a world of its own; its calls
    are recorded in order.  A native call does not raise; a pointer it
    returns is [None] when it is [ffi.NULL]. *)

(** [DestinationType(value)]: the member with that value, if any. *)
Definition DestinationType_of_value (v : Z) : option DestinationType :=
  if v =? 0 then Some KAFKA
  else if v =? 1 then Some RABBITMQ
  else if v =? 2 then Some HTTP
  else if v =? 3 then Some DISCARD
  else None.

(** A C string handed out by the library: its address and the bytes
    [ffi.string] reads there. *)
Record CString := { s_addr : Z; s_bytes : bytes }.

(** The destination struct behind a non-NULL pointer. *)
Record CDestination := {
  cd_addr : Z;
  cd_dest_type : Z;
  cd_target : option CString;
  cd_cluster : option CString
}.

Inductive LibReq :=
  | eda_get_kafka_broker
  | eda_get_kafka_topic
  | eda_get_kafka_group
  | eda_free_string (p : CString)
  | eda_should_retry (error : bytes) (attempt : Z)
  | eda_calculate_backoff (attempt : Z)
  | eda_get_output_destination (event_json : bytes)
  | eda_free_output_destination (p : CDestination)
  | eda_load_routing_config (file_path : bytes).

Definition LibResp (r : LibReq) : Type :=
  match r with
  | eda_get_kafka_broker | eda_get_kafka_topic | eda_get_kafka_group => option CString
  | eda_should_retry _ _ | eda_calculate_backoff _ | eda_load_routing_config _ => Z
  | eda_get_output_destination _ => option CDestination
  | eda_free_string _ | eda_free_output_destination _ => unit
  end.

(** Computations over the library: state, the calls made, exceptions. *)
Definition F (L A : Type) : Type := L -> reply A * L * list LibReq.

Definition fret {L A} (a : A) : F L A := fun l => (Returns a, l, []).

Definition fbind {L A B} (m : F L A) (k : A -> F L B) : F L B :=
  fun l =>
    match m l with
    | (Returns a, l1, t1) =>
        match k a l1 with
        | (r, l2, t2) => (r, l2, t1 ++ t2)
        end
    | (Raises e, l1, t1) => (Raises e, l1, t1)
    end.

Definition fraise {L A} (e : PyExc) : F L A := fun l => (Raises e, l, []).

Definition flift {L A} (r : reply A) : F L A := fun l => (r, l, []).

(** [try: m  finally: f] *)
Definition ffinally {L A} (m : F L A) (f : F L unit) : F L A :=
  fun l =>
    match m l with
    | (r, l1, t1) =>
        match f l1 with
        | (Returns _, l2, t2) => (r, l2, t1 ++ t2)
        | (Raises e', l2, t2) => (Raises e', l2, t1 ++ t2)
        end
    end.

Declare Scope ffi_scope.
Delimit Scope ffi_scope with ffi.
Notation "x <- m ;; k" := (fbind m (fun x => k))
  (at level 100, m at next level, k at level 200, right associativity,
   only parsing) : ffi_scope.
Notation "m ;; k" := (fbind m (fun _ => k))
  (at level 100, k at level 200, right associativity, only parsing) : ffi_scope.

(** [bool(x)] for an integer. *)
Definition truthy (x : Z) : bool := negb (x =? 0).

Module FFICore.
Section WithLibrary.

Context {L : Type}.

(** The loaded library. *)
Variable lib : forall r : LibReq, L -> LibResp r * L.

(** [bytes.decode("utf-8")] *)
Variable decode_utf8 : bytes -> reply string.

Local Open Scope ffi_scope.

Definition fcall (r : LibReq) : F L (LibResp r) :=
  fun l => match lib r l with (a, l') => (Returns a, l', [r]) end.

(** [ffi.string(ptr).decode("utf-8")] *)
Definition read_string (p : CString) : F L string := flift (decode_utf8 (s_bytes p)).

(** [FFICore.get_kafka_config] *)
Definition get_kafka_config : F L KafkaConfig :=
  broker_ptr <- fcall eda_get_kafka_broker ;;
  match broker_ptr with
  | None => fraise (RuntimeError "Failed to get Kafka broker")
  | Some broker_ptr =>
      broker <- read_string broker_ptr ;;
      fcall (eda_free_string broker_ptr) ;;
      topic_ptr <- fcall eda_get_kafka_topic ;;
      match topic_ptr with
      | None => fraise (RuntimeError "Failed to get Kafka topic")
      | Some topic_ptr =>
          topic <- read_string topic_ptr ;;
          fcall (eda_free_string topic_ptr) ;;
          group_ptr <- fcall eda_get_kafka_group ;;
          match group_ptr with
          | None => fraise (RuntimeError "Failed to get Kafka group")
          | Some group_ptr =>
              group <- read_string group_ptr ;;
              fcall (eda_free_string group_ptr) ;;
              fret {| broker := broker; topic := topic; group := group |}
          end
      end
  end.

(** [FFICore.should_retry] *)
Definition should_retry (error : string) (attempt : Z) : F L bool :=
  let error_bytes := encode_utf8 error in
  result <- fcall (eda_should_retry error_bytes attempt) ;;
  fret (truthy result).

(** [FFICore.calculate_backoff] *)
Definition calculate_backoff (attempt : Z) : F L Z :=
  result <- fcall (eda_calculate_backoff attempt) ;;
  fret result.

(** [FFICore.get_output_destination] *)
Definition get_output_destination (event_json : string) : F L OutputDestination :=
  let event_bytes := encode_utf8 event_json in
  dest_ptr <- fcall (eda_get_output_destination event_bytes) ;;
  match dest_ptr with
  | None => fraise (RuntimeError "Failed to get output destination")
  | Some dest_ptr =>
      ffinally
        (dest_type <-
           match DestinationType_of_value (cd_dest_type dest_ptr) with
           | Some t => fret t
           | None =>
               fraise (OtherException "ValueError"
                         (pretty (cd_dest_type dest_ptr)
                          +:+ " is not a valid DestinationType"))
           end ;;
         match cd_target dest_ptr with
         | None => fraise (RuntimeError "Destination target is NULL")
         | Some target_ptr =>
             target <- read_string target_ptr ;;
             cluster <-
               match cd_cluster dest_ptr with
               | Some cluster_ptr =>
                   (cluster <- read_string cluster_ptr ;; fret (Some cluster))
               | None => fret None
               end ;;
             fret {| d_type := Member dest_type; d_target := target;
                     d_cluster := cluster |}
         end)
        (fcall (eda_free_output_destination dest_ptr))
  end.

(** [FFICore.load_routing_config] *)
Definition load_routing_config (file_path : string) : F L unit :=
  let path_bytes := encode_utf8 file_path in
  success <- fcall (eda_load_routing_config path_bytes) ;;
  if truthy success then fret tt
  else fraise (RuntimeError ("Failed to load routing config from " +:+ file_path)).

(** [FFICore.close]: nothing to release. *)
Definition close : F L unit := fret tt.

End WithLibrary.
End FFICore.

(** * The library loader: [eda_sdk/ffi/loader.py] *)

(** A path below the package directory, by its components. *)
Definition Path := list string.

Definition double_quote : ascii := Ascii false true false false false true false false.

Definition newline : string := String (Ascii false true false true false false false false) EmptyString.

(** [s.startswith(p)] *)
Definition startswith (s p : string) : bool := String.prefix p s.

(** [x in (a, b, ...)] for strings. *)
Definition str_in (x : string) (l : list string) : bool := existsb (String.eqb x) l.

(** [s.split(sep)] for a one-character separator. *)
Fixpoint split_on (sep : ascii) (s : string) : list string :=
  match s with
  | EmptyString => [EmptyString]
  | String a s' =>
      if Ascii.eqb a sep then EmptyString :: split_on sep s'
      else match split_on sep s' with
           | [] => [String a EmptyString]
           | l :: ls => String a l :: ls
           end
  end.

(** The loop state of [_load_c_definitions]. *)
Record HeaderScan := {
  lines : list string;
  in_extern_c : bool;
  in_struct : bool
}.

Module loader.

(** [get_lib_name], given [platform.system()]. *)
Definition get_lib_name (system : string) : string :=
  if String.eqb system "Windows" then "eda_core.dll"
  else if String.eqb system "Darwin" then "libeda_core.dylib"
  else "libeda_core.so".

Section WithPackage.

(** [Path(__file__).parent], [str(path)] and [path.exists()]. *)
Variable here : Path.
Variable path_str : Path -> string.
Variable path_exists : Path -> bool.

(** [get_embedded_lib_path], given [platform.system()] and
    [platform.machine()]. *)
Definition get_embedded_lib_path (system machine : string) : reply Path :=
  let platform_dir :=
    if String.eqb system "Linux" then
      if str_in machine ["x86_64"; "AMD64"] then Returns "linux_amd64"
      else if str_in machine ["aarch64"; "arm64"] then Returns "linux_arm64"
      else Raises (RuntimeError ("Unsupported Linux architecture: " +:+ machine))
    else if String.eqb system "Darwin" then
      if String.eqb machine "x86_64" then Returns "darwin_amd64"
      else if String.eqb machine "arm64" then Returns "darwin_arm64"
      else Raises (RuntimeError ("Unsupported macOS architecture: " +:+ machine))
    else if String.eqb system "Windows" then
      if str_in machine ["x86_64"; "AMD64"] then Returns "windows_amd64"
      else Raises (RuntimeError ("Unsupported Windows architecture: " +:+ machine))
    else Raises (RuntimeError ("Unsupported operating system: " +:+ system)) in
  match platform_dir with
  | Raises e => Raises e
  | Returns platform_dir =>
      let lib_dir := here ++ ["libs"; platform_dir] in
      let lib_path := lib_dir ++ [get_lib_name system] in
      if negb (path_exists lib_path) then
        Raises (RuntimeError
                  ("Embedded library not found at " +:+ path_str lib_path +:+ ". "
                   +:+ "Please build the library with 'make core-build-ffi' and copy it to the SDK."))
      else Returns lib_path
  end.

(** [str.strip] *)
Variable strip : string -> string.

Definition extern_C : string :=
  "extern " +:+ String double_quote ("C" +:+ String double_quote EmptyString).

Definition closing_extern_C : string := "}  // " +:+ extern_C.

Definition is_empty (s : string) : bool :=
  match s with EmptyString => true | _ => false end.

(** The body of the [for line in content.split(...)] loop. *)
Definition scan_line (st : HeaderScan) (line : string) : HeaderScan :=
  let stripped := strip line in
  if startswith stripped "#" || is_empty stripped then st
  else if startswith stripped "//" then st
  else if str_contains extern_C stripped then
    {| lines := lines st; in_extern_c := true; in_struct := in_struct st |}
  else if str_contains "typedef struct" stripped then
    {| lines := lines st ++ [line]; in_extern_c := in_extern_c st; in_struct := true |}
  else if in_struct st && str_contains "} " stripped && str_contains ";" stripped then
    {| lines := lines st ++ [line]; in_extern_c := in_extern_c st; in_struct := false |}
  else if in_struct st || in_extern_c st then
    if String.eqb stripped "}" || String.eqb stripped closing_extern_C then
      (if negb (in_struct st) then
         {| lines := lines st; in_extern_c := false; in_struct := in_struct st |}
       else st)
    else if str_contains "namespace" stripped then st
    else if negb (is_empty stripped) then
      {| lines := lines st ++ [line]; in_extern_c := in_extern_c st;
         in_struct := in_struct st |}
    else st
  else st.

Definition scan_start : HeaderScan :=
  {| lines := []; in_extern_c := false; in_struct := false |}.

(** [_load_c_definitions], given the text of the bundled header, or
    [None] when the file does not exist. *)
Definition _load_c_definitions (header_path : string) (header : option string)
    : reply string :=
  match header with
  | None =>
      Raises (RuntimeError
                ("Header file not found at " +:+ header_path +:+ ". "
                 +:+ "The SDK package may be corrupted or incomplete."))
  | Some content =>
      Returns (String.concat newline
                 (lines (fold_left scan_line
                           (split_on (Ascii false true false true false false false false)
                              content)
                           scan_start)))
  end.

End WithPackage.
End loader.

(** The platforms the loader accepts: system, machine, directory of
    the embedded library, library file name. *)
Definition supported_platforms : list (string * string * string * string) :=
  [("Linux", "x86_64", "linux_amd64", "libeda_core.so");
   ("Linux", "AMD64", "linux_amd64", "libeda_core.so");
   ("Linux", "aarch64", "linux_arm64", "libeda_core.so");
   ("Linux", "arm64", "linux_arm64", "libeda_core.so");
   ("Darwin", "x86_64", "darwin_amd64", "libeda_core.dylib");
   ("Darwin", "arm64", "darwin_arm64", "libeda_core.dylib");
   ("Windows", "x86_64", "windows_amd64", "eda_core.dll");
   ("Windows", "AMD64", "windows_amd64", "eda_core.dll")].

(** What [_load_c_definitions] never keeps: a blank line, a
    preprocessor directive, a line comment, an [extern "C"] line. *)
Definition substantive (strip : string -> string) (line : string) : Prop :=
  strip line <> EmptyString
  /\ startswith (strip line) "#" = false
  /\ startswith (strip line) "//" = false
  /\ str_contains loader.extern_C (strip line) = false.

(** ** Loading the library: the module globals and the operating system *)

Inductive LibHandle := Handle (id : Z).

(** The module globals [_lib] and [_temp_dir]. *)
Record LoaderGlobals := {
  _lib : option LibHandle;
  _temp_dir : option string
}.

(** What the loader asks of [tempfile], [shutil], [os] and [cffi]. *)
Inductive OsReq :=
  | mkdtemp (prefix : string)
  | copy2 (src dst : string)
  | chmod (path : string) (mode : Z)
  | rmtree (path : string)
  | dlopen (path : string)
  | os_path_exists (path : string).

Definition OsResp (r : OsReq) : Type :=
  match r with
  | mkdtemp _ => string
  | dlopen _ => LibHandle
  | os_path_exists _ => bool
  | copy2 _ _ | chmod _ _ | rmtree _ => unit
  end.

(** Computations of the loader: the globals, the operating system's
    state, the calls made. *)
Definition G (O A : Type) : Type :=
  LoaderGlobals * O -> reply A * (LoaderGlobals * O) * list OsReq.

Definition gret {O A} (a : A) : G O A := fun s => (Returns a, s, []).

Definition gbind {O A B} (m : G O A) (k : A -> G O B) : G O B :=
  fun s =>
    match m s with
    | (Returns a, s1, t1) =>
        match k a s1 with
        | (r, s2, t2) => (r, s2, t1 ++ t2)
        end
    | (Raises e, s1, t1) => (Raises e, s1, t1)
    end.

Definition graise {O A} (e : PyExc) : G O A := fun s => (Raises e, s, []).

Definition glift {O A} (r : reply A) : G O A := fun s => (r, s, []).

Definition get_globals {O} : G O LoaderGlobals := fun s => (Returns (fst s), s, []).

Definition set_globals {O} (g : LoaderGlobals) : G O unit :=
  fun s => (Returns tt, (g, snd s), []).

(** [try: m  except Exception as e: h e] *)
Definition gtry {O A} (m : G O A) (h : PyExc -> G O A) : G O A :=
  fun s =>
    match m s with
    | (Raises e, s1, t1) =>
        if isinstance_Exception e then
          match h e s1 with
          | (r, s2, t2) => (r, s2, t1 ++ t2)
          end
        else (Raises e, s1, t1)
    | other => other
    end.

Declare Scope loader_scope.
Delimit Scope loader_scope with loader.
Notation "x <- m ;; k" := (gbind m (fun x => k))
  (at level 100, m at next level, k at level 200, right associativity,
   only parsing) : loader_scope.
Notation "m ;; k" := (gbind m (fun _ => k))
  (at level 100, k at level 200, right associativity, only parsing) : loader_scope.

Module library.
Section WithSystem.

Context {O : Type}.

(** The operating system; [rmtree] is called with [ignore_errors=True]. *)
Variable os : forall r : OsReq, O -> reply (OsResp r) * O.

(** [platform.system()], [platform.machine()], the package directory
    and its files, [str(path)] and [os.path.join]. *)
Variable system : string.
Variable machine : string.
Variable here : Path.
Variable path_str : Path -> string.
Variable path_exists : Path -> bool.
Variable os_path_join : string -> string -> string.

Local Open Scope loader_scope.

Definition gcall (r : OsReq) : G O (OsResp r) :=
  fun s =>
    match os r (snd s) with
    | (a, o') => (a, (fst s, o'), [r])
    end.

(** [extract_embedded_lib] *)
Definition extract_embedded_lib : G O string :=
  dir <- gcall (mkdtemp "eda-core-") ;;
  g <- get_globals ;;
  set_globals {| _lib := _lib g; _temp_dir := Some dir |} ;;
  embedded_lib_path <-
    glift (loader.get_embedded_lib_path here path_str path_exists system machine) ;;
  let lib_name := loader.get_lib_name system in
  let temp_lib_path := os_path_join dir lib_name in
  gtry
    (gcall (copy2 (path_str embedded_lib_path) temp_lib_path) ;;
     gcall (chmod temp_lib_path 493))
    (fun e =>
       gcall (rmtree dir) ;;
       graise (RuntimeError ("Failed to extract embedded library: " +:+ str_exc e))) ;;
  gret temp_lib_path.

(** [load_library] *)
Definition load_library : G O LibHandle :=
  g <- get_globals ;;
  match _lib g with
  | Some h => gret h
  | None =>
      lib_path <- extract_embedded_lib ;;
      h <- gtry (gcall (dlopen lib_path))
             (fun e =>
                graise (RuntimeError
                          ("Failed to load library from " +:+ lib_path +:+ ": "
                           +:+ str_exc e))) ;;
      g <- get_globals ;;
      set_globals {| _lib := Some h; _temp_dir := _temp_dir g |} ;;
      gret h
  end.

(** [cleanup]; an empty string is as false as [None]. *)
Definition cleanup : G O unit :=
  g <- get_globals ;;
  match _temp_dir g with
  | Some dir =>
      if loader.is_empty dir then gret tt
      else
        (present <- gcall (os_path_exists dir) ;;
         if present : bool then
           (gcall (rmtree dir) ;;
            g <- get_globals ;;
            set_globals {| _lib := _lib g; _temp_dir := None |})
         else gret tt)
  | None => gret tt
  end.

End WithSystem.
End library.

Definition is_rmtree_of (dir : string) (r : OsReq) : bool :=
  match r with rmtree p => String.eqb p dir | _ => false end.

Definition is_mkdtemp (r : OsReq) : bool :=
  match r with mkdtemp _ => true | _ => false end.


(** ** A scripted library and operating system *)

Definition cstr (addr : Z) (s : string) : CString :=
  {| s_addr := addr; s_bytes := encode_utf8 s |}.

Definition out_destination : CDestination :=
  {| cd_addr := 4; cd_dest_type := 0;
     cd_target := Some (cstr 5 "out"); cd_cluster := None |}.

(** A library that knows broker, topic and group and routes every
    event to the Kafka topic "out".  Its state counts the strings and
    destinations handed out and not yet freed. *)
Definition sample_lib (r : LibReq) (live : nat) : LibResp r * nat :=
  match r return LibResp r * nat with
  | eda_get_kafka_broker => (Some (cstr 1 "localhost:9092"), S live)
  | eda_get_kafka_topic => (Some (cstr 2 "events"), S live)
  | eda_get_kafka_group => (Some (cstr 3 "g"), S live)
  | eda_free_string _ => (tt, pred live)
  | eda_should_retry _ _ => (0, live)
  | eda_calculate_backoff _ => (100, live)
  | eda_get_output_destination _ => (Some out_destination, S live)
  | eda_free_output_destination _ => (tt, pred live)
  | eda_load_routing_config _ => (1, live)
  end.

(** A decoder that accepts every byte sequence. *)
Definition lenient_decode (b : bytes) : reply string := Returns (string_of_list_byte b).

(** The package directory of a scripted installation, in which every
    embedded library is present. *)
Definition package_dir : Path := ["/venv/lib/eda_sdk"; "ffi"].

Definition posix_str (p : Path) : string := String.concat "/" p.

Definition posix_join (a b : string) : string := a +:+ "/" +:+ b.

(** A header without [extern] blocks and structs. *)
Definition plain_header_lines : list string :=
  ["#include <stdint.h>"; EmptyString; "// nothing to export";
   "int eda_version(void);"].

Definition plain_header : string := String.concat newline plain_header_lines.

(** An operating system whose state is the list of the temporary
    directories that exist; [copies] and [opens] tell whether
    [shutil.copy2] and [ffi.dlopen] succeed. *)
Definition scripted_os (copies opens : bool) (r : OsReq) (dirs : list string)
    : reply (OsResp r) * list string :=
  match r return reply (OsResp r) * list string with
  | mkdtemp prefix =>
      let dir := String.concat EmptyString ("/tmp/" :: prefix :: map (fun _ => "x") dirs) in
      (Returns dir, dir :: dirs)
  | copy2 _ _ =>
      (if copies then Returns tt
       else Raises (OtherException "OSError" "No space left on device"), dirs)
  | chmod _ _ => (Returns tt, dirs)
  | rmtree p => (Returns tt, List.filter (fun d => negb (String.eqb d p)) dirs)
  | dlopen _ =>
      (if opens then Returns (Handle 1)
       else Raises (OtherException "OSError" "cannot load library"), dirs)
  | os_path_exists p => (Returns (existsb (String.eqb p) dirs), dirs)
  end.

Definition fresh_globals : LoaderGlobals := {| _lib := None; _temp_dir := None |}.

(** ** The encodings of the cloudevents SDK

    [from_structured] and [from_binary] are functions of the
    cloudevents SDK, a dependency of the repository; the consumer is
    modelled with the two converters as parameters.  In the SDK,
    structured mode is the whole event as one JSON document in the
    message value, and binary mode is the attributes in [ce_] headers
    with the data in the value.  The docstring of
    [_parse_cloud_event] describes them the other way round.  The
    scenario below scripts the SDK's answers on one message that is
    valid in both encodings and carries a different event in each. *)

Definition quoted (s : string) : string :=
  String double_quote (s +:+ String double_quote EmptyString).

(** A flat JSON object with string values. *)
Definition json_object (fields : list (string * string)) : string :=
  "{" +:+ String.concat ", " (map (fun kv => quoted kv.1 +:+ ": " +:+ quoted kv.2) fields)
  +:+ "}".

Definition value_document : string :=
  json_object [("specversion", "1.0"); ("type", "from.value"); ("source", "/v");
               ("id", "v-1"); ("time", "2024-01-01T00:00:00Z")].

(** The event of the JSON document. *)
Definition value_event : CloudEvent :=
  {| ce_specversion := "1.0"; ce_type := "from.value"; ce_source := "/v";
     ce_id := "v-1"; ce_time := Some "2024-01-01T00:00:00Z";
     ce_datacontenttype := None; ce_data := None |}.

(** The event of the headers; its data is the parsed value. *)
Definition header_event : CloudEvent :=
  {| ce_specversion := "1.0"; ce_type := "from.headers"; ce_source := "/h";
     ce_id := "h-1"; ce_time := Some "2024-06-30T12:00:00Z";
     ce_datacontenttype := None;
     ce_data :=
       Some (PObject ("{'specversion': '1.0', 'type': 'from.value', 'source': '/v', "
                      +:+ "'id': 'v-1', 'time': '2024-01-01T00:00:00Z'}")) |}.

(** A message that carries [header_event] in its headers and
    [value_event] in its value. *)
Definition both_encodings_msg : Message :=
  msg_with
    (Some [("ce_specversion", HBytes (encode_utf8 "1.0"));
           ("ce_type", HBytes (encode_utf8 "from.headers"));
           ("ce_source", HBytes (encode_utf8 "/h"));
           ("ce_id", HBytes (encode_utf8 "h-1"));
           ("ce_time", HBytes (encode_utf8 "2024-06-30T12:00:00Z"))])
    (Some (encode_utf8 value_document)).

(** The SDK's [from_structured] on the scenario: it reads the JSON
    document in the value. *)
Definition sdk_from_structured (km : KafkaMessage) : reply CloudEvent :=
  if String.eqb (string_of_list_byte (km_value km)) value_document
  then Returns value_event
  else Raises (OtherException "DataUnmarshallerError" "Failed to unmarshall message").

(** The SDK's [from_binary] on the scenario: it reads the [ce_]
    headers. *)
Definition sdk_from_binary (km : KafkaMessage) : reply CloudEvent :=
  match km_headers km !! "ce_type" with
  | Some t =>
      if String.eqb (string_of_list_byte t) "from.headers" then Returns header_event
      else Raises (OtherException "MissingRequiredFields" "Missing required keys")
  | None => Raises (OtherException "MissingRequiredFields" "Missing required keys")
  end.
Section WithWorld.

Context {W : Type}.

(** The collaborators: the world answers every request and moves on. *)
Variable oracle : forall r : Req, W -> reply (Resp r) * W.

(** cloudevents.kafka's converters and [json.dumps]: functions of
    their argument, which may raise. *)
Variable from_structured : KafkaMessage -> reply CloudEvent.
Variable from_binary : KafkaMessage -> reply CloudEvent.
Variable json_dumps : pydict -> reply string.

Definition call (r : Req) : M W (Resp r) :=
  fun w =>
    match oracle r w with
    | (Returns a, w') => (Ok a, w', [ECall r])
    | (Raises e, w') => (Raise e, w', [ECall r])
    end.

Definition log (lvl : LogLevel) (msg : string) (extra : pydict) : M W unit :=
  emit (ELog lvl msg extra).

(** [Consumer.__init__] *)
Definition __init__ (core : Core) (handler : Handler) : M W Consumer :=
  let is_output_handler := _detect_output_handler handler in
  config <- call RGetKafkaConfig ;;
  log INFO "Kafka configuration loaded"
    [("broker", PStr (broker config)); ("topic", PStr (topic config));
     ("group", PStr (group config))] ;;
  let cconf :=
    [("bootstrap.servers", PStr (broker config));
     ("group.id", PStr (group config));
     ("auto.offset.reset", PStr "earliest");
     ("enable.auto.commit", PBool true)] in
  call (RNewKafkaConsumer cconf) ;;
  call (RSubscribe [topic config]) ;;
  log INFO ("Subscribed to topic: " +:+ topic config) [] ;;
  if is_output_handler then
    (let pconf := [("bootstrap.servers", PStr (broker config))] in
     call (RNewProducer pconf) ;;
     log INFO "Kafka producer initialized for output events" [] ;;
     ret {| core := core; handler := handler;
            _consumer := Some {| kc_conf := cconf |};
            _producer := Some {| p_conf := pconf |};
            _is_output_handler := is_output_handler |})
  else
    ret {| core := core; handler := handler;
           _consumer := Some {| kc_conf := cconf |};
           _producer := None;
           _is_output_handler := is_output_handler |}.

(** [Consumer._parse_cloud_event] *)
Definition _parse_cloud_event (msg : Message) : M W (option CloudEvent) :=
  match m_value msg with
  | None =>
      log WARNING "Received message with None value, skipping" [] ;;
      ret None
  | Some value =>
      let kafka_msg := to_kafka_message msg value in
      first <- try_except_Exception
                 (emit (EFromStructured kafka_msg) ;;
                  event <- of_reply (from_structured kafka_msg) ;;
                  ret (Some event))
                 (fun _ => ret None) ;;
      match first with
      | Some event => ret (Some event)
      | None =>
          try_except_Exception
            (emit (EFromBinary kafka_msg) ;;
             event <- of_reply (from_binary kafka_msg) ;;
             ret (Some event))
            (fun e =>
               log WARNING ("Failed to parse CloudEvent: " +:+ str_exc e) [] ;;
               ret None)
      end
  end.

(** [Consumer._publish_to_kafka] *)
Definition _publish_to_kafka (c : Consumer) (event : CloudEvent)
    (topic : string) : M W unit :=
  match _producer c with
  | None => raise (RuntimeError "Producer not initialized")
  | Some _ =>
      let event_dict := event_dict_of event in
      emit (EJsonDumps event_dict) ;;
      dumped <- of_reply (json_dumps event_dict) ;;
      let event_json := encode_utf8 dumped in
      call (RProduce topic event_json (encode_utf8 (ce_id event))) ;;
      call (RFlush None) ;;
      log INFO ("Published output event to Kafka topic: " +:+ topic) []
  end.

(** [dest.type.name] *)
Definition type_name (v : DestTypeVal) : M W string :=
  match dest_name v with
  | Some n => ret n
  | None => of_reply (Raises (AttributeError "object has no attribute 'name'"))
  end.

(** [Consumer._publish_output_event] *)
Definition _publish_output_event (c : Consumer) (event : CloudEvent) : M W unit :=
  match _producer c with
  | None => raise (RuntimeError "Producer not initialized")
  | Some _ =>
      let event_dict := event_dict_of event in
      emit (EJsonDumps event_dict) ;;
      event_json <- of_reply (json_dumps event_dict) ;;
      dest <- call (RGetOutputDestination event_json) ;;
      name <- type_name (d_type dest) ;;
      log INFO "Routing output event"
        [("event_type", PStr (ce_type event)); ("dest_type", PStr name);
         ("dest_target", PStr (d_target dest))] ;;
      if dest_eqb (d_type dest) KAFKA then
        _publish_to_kafka c event (d_target dest)
      else if dest_eqb (d_type dest) DISCARD then
        log INFO ("Discarding output event: " +:+ ce_type event) []
      else if dest_eqb (d_type dest) HTTP || dest_eqb (d_type dest) RABBITMQ then
        (name <- type_name (d_type dest) ;;
         log WARNING
           ("Destination type " +:+ name +:+ " not yet implemented, discarding event")
           [])
      else
        raise (RuntimeError ("Unknown destination type: " +:+ dest_str (d_type dest)))
  end.

(** [Consumer._invoke_handler] *)
Definition _invoke_handler (c : Consumer) (event : CloudEvent) : M W unit :=
  if _is_output_handler c then
    (output_event <- call (RHandler event) ;;
     match output_event with
     | Some output_event => _publish_output_event c output_event
     | None => ret tt
     end)
  else
    (call (RHandler event) ;; ret tt).

(** [Consumer.close].  [self.core] is never [None], so the third guard
    always passes. *)
Definition close (c : Consumer) : M W unit :=
  match _producer c with
  | Some _ => call (RFlush (Some 5)) ;; log INFO "Producer flushed" []
  | None => ret tt
  end ;;
  match _consumer c with
  | Some _ => call RConsumerClose ;; log INFO "Consumer closed" []
  | None => ret tt
  end ;;
  call RCoreClose ;;
  log INFO "Core closed" [].

(** The [except Exception as e] block around the handler call. *)
Definition on_handler_error (event : CloudEvent) (e : PyExc) : M W unit :=
  log ERROR ("Handler error: " +:+ str_exc e)
    [("event_type", PStr (ce_type event))] ;;
  try_except_Exception
    (should_retry <- call (RShouldRetry (str_exc e) 1) ;;
     if should_retry : bool then
       (backoff <- call (RCalculateBackoff 1) ;;
        log WARNING "Would retry after backoff (not implemented in PoC)"
          [("backoff_ms", PInt backoff)])
     else ret tt)
    (fun retry_err =>
       log ERROR ("Error checking retry: " +:+ str_exc retry_err) []).

(** One round of the [while True] of [Consumer.start]; the state
    carried from round to round is [consecutive_errors]. *)
Definition loop_body (c : Consumer) (consecutive_errors : Z) : M W Z :=
  msg <- call (RPoll 100) ;;
  match msg with
  | None => ret consecutive_errors
  | Some msg =>
      match m_error msg with
      | Some error =>
          if code error =? _PARTITION_EOF then ret consecutive_errors
          else
            (log ERROR ("Consumer error: " +:+ errstr error) [] ;;
             let consecutive_errors := consecutive_errors + 1 in
             if consecutive_errors >=? max_consecutive_errors then
               raise (KafkaException error)
             else ret consecutive_errors)
      | None =>
          let consecutive_errors := 0 in
          event <- _parse_cloud_event msg ;;
          match event with
          | None => ret consecutive_errors
          | Some event =>
              try_except_Exception (_invoke_handler c event)
                (on_handler_error event) ;;
              ret consecutive_errors
          end
      end
  end.

(** [Consumer.start] *)
Definition start (c : Consumer) (fuel : nat) : M W unit :=
  match _consumer c with
  | None => raise (RuntimeError "Consumer not initialized")
  | Some _ =>
      log INFO "Starting consumer" [] ;;
      let consecutive_errors := 0 in
      try_finally
        (try_except_KeyboardInterrupt
           (while_true fuel (loop_body c) consecutive_errors)
           (log INFO "Consumer interrupted" []))
        (close c)
  end.

(** The next [k] polls, when none of them delivers a message to
    process: empty polls, end-of-partition signals and transport
    errors only.  Gives the number of transport errors among them
    and the world after them. *)
Fixpoint quiet_errors (k : nat) (w : W) : option (Z * W) :=
  match k with
  | O => Some (0, w)
  | S k' =>
      match oracle (RPoll 100) w with
      | (Returns None, w1) => quiet_errors k' w1
      | (Returns (Some msg), w1) =>
          match m_error msg with
          | Some error =>
              if code error =? _PARTITION_EOF then quiet_errors k' w1
              else
                match quiet_errors k' w1 with
                | Some (n, w') => Some (n + 1, w')
                | None => None
                end
          | None => None
          end
      | (Raises _, _) => None
      end
  end.

(** ** Judgements on computations *)

(** Every event the computation leaves in the trace satisfies [P]. *)
Definition emits_only {A} (P : event -> Prop) (m : M W A) : Prop :=
  forall w, Forall P (m w).2.

(** The computation does not depend on fuel: it returns or raises. *)
Definition terminates {A} (m : M W A) : Prop :=
  forall w, (m w).1.1 <> OutOfFuel.

(** The computation returns, or is stopped by something that
    [except Exception] does not catch. *)
Definition safe {A} (m : M W A) : Prop :=
  forall w,
    match (m w).1.1 with
    | Ok _ => True
    | Raise e => isinstance_Exception e = false
    | OutOfFuel => False
    end.


(** ** Starting the consumer: [eda_sdk/run.py] and [eda_sdk/ffi/run.py] *)

(** A call to one of the collaborators of [Runtime]. *)
Definition outside {A} (f : W -> reply A * W) : M W A :=
  fun w =>
    match f w with
    | (Returns a, w') => (Ok a, w', [])
    | (Raises e, w') => (Raise e, w', [])
    end.

(** [run_with_core] *)
Definition run_with_core (rt : Runtime W) (core : Core) (handler : Handler)
    (fuel : nat) : M W unit :=
  match _get_caller_directory (parent rt) (frames rt) with
  | Some caller_dir =>
      let routing_config_path := joinpath rt caller_dir "routing.yaml" in
      present <- outside (fun w => (Returns (file_exists rt routing_config_path w), w)) ;;
      if present : bool then
        (log INFO ("Loading routing configuration from " +:+ routing_config_path) [] ;;
         try_except_Exception
           (outside (core_load_routing_config rt routing_config_path))
           (fun e => raise (RuntimeError ("Failed to load routing config: " +:+ str_exc e))))
      else ret tt
  | None => ret tt
  end ;;
  consumer <- try_except_Exception (__init__ core handler)
                (fun e => raise (RuntimeError ("Failed to create consumer: " +:+ str_exc e))) ;;
  outside (register_signal_handlers rt) ;;
  log INFO "Starting EDA consumer..." [] ;;
  try_except_Exception
    (start consumer fuel)
    (fun e => log ERROR ("Consumer error: " +:+ str_exc e) [] ;; raise e).

(** [eda_sdk.ffi.run]; [setup_logging] only configures the logger. *)
Definition run (rt : Runtime W) (handler : Handler) (fuel : nat) : M W unit :=
  core <- outside (new_core rt) ;;
  try_finally (run_with_core rt core handler fuel) (call RCoreClose ;; ret tt).

(** The routing step of [run_with_core] is over, in the world [w']
    and with the trace [t]: either nothing is loaded (no frame outside
    the SDK, or no [routing.yaml] beside the caller), or
    [load_routing_config] has returned. *)
Definition routing_step_done (rt : Runtime W) (w w' : W) (t : trace) : Prop :=
  match _get_caller_directory (parent rt) (frames rt) with
  | Some caller_dir =>
      let routing_config_path := joinpath rt caller_dir "routing.yaml" in
      if file_exists rt routing_config_path w then
        core_load_routing_config rt routing_config_path w = (Returns tt, w')
        /\ t = [ELog INFO ("Loading routing configuration from "
                           +:+ routing_config_path) []]
      else w' = w /\ t = []
  | None => w' = w /\ t = []
  end.
(** * Properties *)

(** ** The trace discipline *)

Lemma none_of_app p t1 t2 : none_of p t1 -> none_of p t2 -> none_of p (t1 ++ t2).
Proof. unfold none_of. intros H1 H2. apply Forall_app. split; assumption. Qed.

Lemma count_app p t1 t2 : count p (t1 ++ t2) = (count p t1 + count p t2)%nat.
Proof. induction t1 as [|e t1 IH]; cbn; [reflexivity|]. rewrite IH. lia. Qed.

Lemma none_of_count p t : none_of p t -> count p t = 0%nat.
Proof.
  unfold none_of. induction 1 as [|e t He _ IH]; cbn; [reflexivity|].
  rewrite He. exact IH.
Qed.

Lemma parse_both_fail msg w value e1 e2 :
  m_value msg = Some value ->
  from_structured (to_kafka_message msg value) = Raises e1 ->
  isinstance_Exception e1 = true ->
  from_binary (to_kafka_message msg value) = Raises e2 ->
  isinstance_Exception e2 = true ->
  _parse_cloud_event msg w
  = (Ok None, w,
     [EFromStructured (to_kafka_message msg value);
      EFromBinary (to_kafka_message msg value);
      ELog WARNING ("Failed to parse CloudEvent: " +:+ str_exc e2) []]).
Proof.
  intros Hv Hs He1 Hb He2. unfold _parse_cloud_event. rewrite Hv.
  unfold bind, try_except_Exception, emit, of_reply, ret, log.
  rewrite Hs. cbn. rewrite He1. cbn. rewrite Hb. cbn. rewrite He2. reflexivity.
Qed.



(** ** Laws of the loop combinators *)

Lemma bind_assoc {A B C} (m : M W A) (f : A -> M W B) (g : B -> M W C) w :
  bind (bind m f) g w = bind m (fun a => bind (f a) g) w.
Proof.
  unfold bind. destruct (m w) as [[[a|e|] w1] t1]; try reflexivity.
  destruct (f a w1) as [[[b|e|] w2] t2]; try reflexivity.
  destruct (g b w2) as [[r w3] t3]. rewrite app_assoc. reflexivity.
Qed.

Lemma bind_ext {A B} (m : M W A) (f g : A -> M W B) w :
  (forall a w', f a w' = g a w') -> bind m f w = bind m g w.
Proof.
  intros H. unfold bind. destruct (m w) as [[[a|e|] w1] t1]; try reflexivity.
  rewrite H. reflexivity.
Qed.

Lemma while_true_split {St A} (k f : nat) (body : St -> M W St) (st : St) w :
  @while_true W St A (k + f) body st w
  = bind (iterate k body st) (while_true f body) w.
Proof.
  revert st w. induction k as [|k IH]; intros st w.
  - cbn [Nat.add iterate]. unfold bind, ret.
    destruct (while_true f body st w) as [[r w1] t1]. reflexivity.
  - cbn [Nat.add iterate while_true]. rewrite bind_assoc.
    apply bind_ext. intros a w'. apply IH.
Qed.

(** ** One round of the loop, by what the poll delivers *)

Lemma loop_body_empty c ce w w1 :
  oracle (RPoll 100) w = (Returns None, w1) ->
  loop_body c ce w = (Ok ce, w1, [ECall (RPoll 100)]).
Proof. intros H. unfold loop_body, bind, call. rewrite H. reflexivity. Qed.

Lemma loop_body_eof c ce w w1 msg error :
  oracle (RPoll 100) w = (Returns (Some msg), w1) ->
  m_error msg = Some error -> code error = _PARTITION_EOF ->
  loop_body c ce w = (Ok ce, w1, [ECall (RPoll 100)]).
Proof.
  intros H He Hc. unfold loop_body, bind, call. rewrite H, He, Hc. reflexivity.
Qed.

Lemma loop_body_error c ce w w1 msg error :
  oracle (RPoll 100) w = (Returns (Some msg), w1) ->
  m_error msg = Some error -> code error <> _PARTITION_EOF ->
  ce + 1 < max_consecutive_errors ->
  loop_body c ce w
  = (Ok (ce + 1), w1,
     [ECall (RPoll 100); ELog ERROR ("Consumer error: " +:+ errstr error) []]).
Proof.
  intros H He Hc Hlt. unfold loop_body, bind, call. rewrite H, He.
  apply Z.eqb_neq in Hc. rewrite Hc.
  assert (Hge : (ce + 1 >=? max_consecutive_errors) = false) by lia.
  cbn. rewrite Hge. reflexivity.
Qed.

Lemma loop_body_fatal c ce w w1 msg error :
  oracle (RPoll 100) w = (Returns (Some msg), w1) ->
  m_error msg = Some error -> code error <> _PARTITION_EOF ->
  max_consecutive_errors <= ce + 1 ->
  loop_body c ce w
  = (Raise (KafkaException error), w1,
     [ECall (RPoll 100); ELog ERROR ("Consumer error: " +:+ errstr error) [];
      ERaise (KafkaException error)]).
Proof.
  intros H He Hc Hle. unfold loop_body, bind, call. rewrite H, He.
  apply Z.eqb_neq in Hc. rewrite Hc.
  assert (Hge : (ce + 1 >=? max_consecutive_errors) = true) by lia.
  cbn. rewrite Hge. reflexivity.
Qed.

Lemma quiet_errors_nonneg k : forall w n w', quiet_errors k w = Some (n, w') -> 0 <= n.
Proof.
  induction k as [|k IH]; intros w n w' H; cbn in H.
  - injection H as <- _. lia.
  - destruct (oracle (RPoll 100) w) as [[[msg|]|e] w1]; try discriminate.
    + destruct (m_error msg) as [error|]; try discriminate.
      destruct (code error =? _PARTITION_EOF); [eauto|].
      destruct (quiet_errors k w1) as [[n1 w2]|] eqn:E; try discriminate.
      injection H as <- _. apply IH in E. lia.
    + eauto.
Qed.

(** Quiet polls only move the counter: after [k] of them with [n]
    transport errors, and while the threshold is not reached, the loop
    is about to poll again with the counter raised by [n]. *)
Lemma iterate_quiet c k : forall w ce n w',
  quiet_errors k w = Some (n, w') ->
  ce + n < max_consecutive_errors ->
  exists t, iterate k (loop_body c) ce w = (Ok (ce + n), w', t)
            /\ count is_poll t = k
            /\ none_of is_handler_call t.
Proof.
  induction k as [|k IH]; intros w ce n w' H Hlt; cbn in H.
  - injection H as <- <-. exists []. cbn. rewrite Z.add_0_r.
    repeat split. constructor.
  - cbn [iterate]. unfold bind at 1.
    destruct (oracle (RPoll 100) w) as [[[msg|]|e] w1] eqn:Hp; try discriminate.
    + destruct (m_error msg) as [error|] eqn:He; try discriminate.
      destruct (code error =? _PARTITION_EOF) eqn:Hc.
      * apply Z.eqb_eq in Hc. rewrite (loop_body_eof c ce w w1 msg error Hp He Hc).
        destruct (IH _ ce _ _ H Hlt) as (t & -> & Hn & Hh).
        eexists. split; [reflexivity|]. cbn. split; [congruence|].
        constructor; [reflexivity|exact Hh].
      * apply Z.eqb_neq in Hc.
        destruct (quiet_errors k w1) as [[n1 w2]|] eqn:E; try discriminate.
        injection H as <- <-.
        pose proof (quiet_errors_nonneg _ _ _ _ E) as Hn1.
        rewrite (loop_body_error c ce w w1 msg error Hp He Hc) by lia.
        destruct (IH w1 (ce + 1) n1 w2 E ltac:(lia)) as (t & -> & Hn & Hh).
        eexists. split; [f_equal; f_equal; f_equal; lia|]. cbn.
        split; [congruence|]. repeat constructor. exact Hh.
    + rewrite (loop_body_empty c ce w w1 Hp).
      destruct (IH _ ce _ _ H Hlt) as (t & -> & Hn & Hh).
      eexists. split; [reflexivity|]. cbn. split; [congruence|].
      constructor; [reflexivity|exact Hh].
Qed.

(** ** Rules for the judgements *)

Lemma emits_only_ret {A} P (a : A) : emits_only P (ret a).
Proof. intros w. constructor. Qed.

Lemma emits_only_emit P ev : P ev -> emits_only P (emit ev).
Proof. intros H w. cbn. repeat constructor. exact H. Qed.

Lemma emits_only_log P lvl msg extra :
  P (ELog lvl msg extra) -> emits_only P (log lvl msg extra).
Proof. apply emits_only_emit. Qed.

Lemma emits_only_raise {A} P e : P (ERaise e) -> emits_only P (@raise W A e).
Proof. intros H w. cbn. repeat constructor. exact H. Qed.

Lemma emits_only_of_reply {A} P (r : reply A) : emits_only P (of_reply r).
Proof. intros w. unfold of_reply. destruct r; constructor. Qed.

Lemma emits_only_call P r : P (ECall r) -> emits_only P (call r).
Proof.
  intros H w. unfold call. destruct (oracle r w) as [[a|e] w']; cbn;
    repeat constructor; exact H.
Qed.

Lemma emits_only_bind {A B} P (m : M W A) (k : A -> M W B) :
  emits_only P m -> (forall a, emits_only P (k a)) -> emits_only P (bind m k).
Proof.
  intros Hm Hk w. unfold bind. specialize (Hm w).
  destruct (m w) as [[[a|e|] w1] t1]; cbn in *; try exact Hm.
  specialize (Hk a w1). destruct (k a w1) as [[r w2] t2]. cbn in *.
  apply Forall_app. split; assumption.
Qed.

Lemma emits_only_try_except_Exception {A} P (m : M W A) h :
  emits_only P m -> (forall e, emits_only P (h e)) ->
  emits_only P (try_except_Exception m h).
Proof.
  intros Hm Hh w. unfold try_except_Exception. specialize (Hm w).
  destruct (m w) as [[[a|e|] w1] t1]; cbn in *; try exact Hm.
  destruct (isinstance_Exception e); [|exact Hm].
  specialize (Hh e w1). destruct (h e w1) as [[r w2] t2]. cbn in *.
  apply Forall_app. split; assumption.
Qed.

Lemma emits_only_try_except_KeyboardInterrupt {A} P (m h : M W A) :
  emits_only P m -> emits_only P h ->
  emits_only P (try_except_KeyboardInterrupt m h).
Proof.
  intros Hm Hh w. unfold try_except_KeyboardInterrupt. specialize (Hm w).
  destruct (m w) as [[[a|e|] w1] t1]; cbn in *; try exact Hm.
  destruct (isinstance_KeyboardInterrupt e); [|exact Hm].
  specialize (Hh w1). destruct (h w1) as [[r w2] t2]. cbn in *.
  apply Forall_app. split; assumption.
Qed.

Lemma emits_only_try_finally {A} P (m : M W A) f :
  emits_only P m -> emits_only P f -> emits_only P (try_finally m f).
Proof.
  intros Hm Hf w. unfold try_finally. specialize (Hm w).
  destruct (m w) as [[[a|e|] w1] t1]; cbn in *; try exact Hm;
    specialize (Hf w1); destruct (f w1) as [[[u|e'|] w2] t2]; cbn in *;
    apply Forall_app; split; assumption.
Qed.

Lemma emits_only_while_true {St A} P (body : St -> M W St) fuel :
  (forall st, emits_only P (body st)) ->
  forall st, emits_only P (@while_true W St A fuel body st).
Proof.
  intros Hb. induction fuel as [|fuel IH]; intros st; cbn [while_true].
  - intros w. constructor.
  - apply emits_only_bind; [apply Hb | exact IH].
Qed.

Lemma terminates_ret {A} (a : A) : terminates (ret (W := W) a).
Proof. intros w. discriminate. Qed.

Lemma terminates_emit ev : terminates (emit (W := W) ev).
Proof. intros w. discriminate. Qed.

Lemma terminates_raise {A} e : terminates (@raise W A e).
Proof. intros w. discriminate. Qed.

Lemma terminates_of_reply {A} (r : reply A) : terminates (of_reply (W := W) r).
Proof. intros w. unfold of_reply. destruct r; discriminate. Qed.

Lemma terminates_call r : terminates (call r).
Proof. intros w. unfold call. destruct (oracle r w) as [[a|e] w']; discriminate. Qed.

Lemma terminates_bind {A B} (m : M W A) (k : A -> M W B) :
  terminates m -> (forall a, terminates (k a)) -> terminates (bind m k).
Proof.
  intros Hm Hk w. unfold bind. specialize (Hm w).
  destruct (m w) as [[[a|e|] w1] t1]; cbn in *; try discriminate; try congruence.
  specialize (Hk a w1). destruct (k a w1) as [[r w2] t2]. exact Hk.
Qed.

Lemma terminates_try_except_Exception {A} (m : M W A) h :
  terminates m -> (forall e, terminates (h e)) ->
  terminates (try_except_Exception m h).
Proof.
  intros Hm Hh w. unfold try_except_Exception. specialize (Hm w).
  destruct (m w) as [[[a|e|] w1] t1]; cbn in *; try discriminate; try congruence.
  destruct (isinstance_Exception e); [|discriminate].
  specialize (Hh e w1). destruct (h e w1) as [[r w2] t2]. exact Hh.
Qed.

Lemma safe_ret {A} (a : A) : safe (ret (W := W) a).
Proof. intros w. exact I. Qed.

Lemma safe_emit ev : safe (emit (W := W) ev).
Proof. intros w. exact I. Qed.

Lemma safe_bind {A B} (m : M W A) (k : A -> M W B) :
  safe m -> (forall a, safe (k a)) -> safe (bind m k).
Proof.
  intros Hm Hk w. unfold bind. specialize (Hm w).
  destruct (m w) as [[[a|e|] w1] t1]; cbn in *; try assumption.
  specialize (Hk a w1). destruct (k a w1) as [[r w2] t2]. exact Hk.
Qed.

Lemma safe_try_except_Exception {A} (m : M W A) h :
  terminates m -> (forall e, safe (h e)) -> safe (try_except_Exception m h).
Proof.
  intros Hm Hh w. unfold try_except_Exception. specialize (Hm w).
  destruct (m w) as [[[a|e|] w1] t1]; cbn in *; try congruence; try exact I.
  destruct (isinstance_Exception e) eqn:He; [|exact He].
  specialize (Hh e w1). destruct (h e w1) as [[r w2] t2]. exact Hh.
Qed.

Ltac judge :=
  repeat first
    [ apply emits_only_ret | apply emits_only_of_reply
    | apply emits_only_log | apply emits_only_emit
    | apply emits_only_raise | apply emits_only_call
    | apply emits_only_bind; [|intros ?]
    | apply emits_only_try_except_Exception; [|intros ?]
    | apply emits_only_try_except_KeyboardInterrupt
    | apply emits_only_try_finally
    | apply terminates_ret | apply terminates_emit | apply terminates_raise
    | apply terminates_of_reply | apply terminates_call
    | apply terminates_bind; [|intros ?]
    | apply terminates_try_except_Exception; [|intros ?]
    | apply safe_ret | apply safe_emit
    | apply safe_bind; [|intros ?]
    | match goal with
      | |- emits_only _ (match ?x with _ => _ end) => destruct x
      | |- terminates (match ?x with _ => _ end) => destruct x
      | |- safe (match ?x with _ => _ end) => destruct x
      end ].

(** ** What the parts of the loop emit, and how they end *)

Lemma terminates_close c : terminates (close c).
Proof. unfold close, log. judge. Qed.

Lemma terminates_publish_to_kafka c ev tp : terminates (_publish_to_kafka c ev tp).
Proof. unfold _publish_to_kafka, log. judge. Qed.

Lemma terminates_publish_output_event c ev : terminates (_publish_output_event c ev).
Proof.
  unfold _publish_output_event, type_name, log. judge;
    apply terminates_publish_to_kafka.
Qed.

Lemma terminates_invoke_handler c ev : terminates (_invoke_handler c ev).
Proof.
  unfold _invoke_handler. judge; apply terminates_publish_output_event.
Qed.

Lemma safe_parse_cloud_event msg : safe (_parse_cloud_event msg).
Proof.
  unfold _parse_cloud_event, log. judge.
  - apply safe_try_except_Exception; judge.
  - apply safe_try_except_Exception; judge.
Qed.

Lemma safe_on_handler_error ev e : safe (on_handler_error ev e).
Proof.
  unfold on_handler_error, log. judge.
  apply safe_try_except_Exception; judge.
Qed.

Lemma close_quiet c :
  emits_only (fun e => is_poll e = false /\ is_handler_call e = false
                       /\ is_new_producer e = false /\ is_produce e = false)
    (close c).
Proof. unfold close, log. judge; repeat split. Qed.

(** A message delivered without error leaves the counter at zero,
    whatever decoding and the handler do with it. *)
Lemma loop_body_delivered c ce w w1 msg r w' t :
  oracle (RPoll 100) w = (Returns (Some msg), w1) ->
  m_error msg = None ->
  loop_body c ce w = (r, w', t) ->
  r = Ok 0 \/ exists e, r = Raise e /\ isinstance_Exception e = false.
Proof.
  intros Hp He. unfold loop_body, bind at 1, call. rewrite Hp, He.
  unfold bind at 1.
  pose proof (safe_parse_cloud_event msg w1) as Hs.
  destruct (_parse_cloud_event msg w1) as [[[[ev|]|e|] w2] t2]; cbn in Hs.
  - unfold bind.
    assert (Ht : safe (try_except_Exception (_invoke_handler c ev) (on_handler_error ev))).
    { apply safe_try_except_Exception.
      - apply terminates_invoke_handler.
      - intros e. apply safe_on_handler_error. }
    specialize (Ht w2).
    destruct (try_except_Exception (_invoke_handler c ev) (on_handler_error ev) w2)
      as [[[u|e|] w3] t3]; cbn in Ht; cbn.
    + intros [= <- _ _]. left. reflexivity.
    + intros [= <- _ _]. right. eauto.
    + contradiction.
  - cbn. intros [= <- _ _]. left. reflexivity.
  - intros [= <- _ _]. right. eauto.
  - contradiction.
Qed.

(** The fatal round: [k] quiet polls that bring the counter to one
    below the threshold, then one more transport error. *)
Lemma while_true_fatal c ce k n w w1 w' msg error fuel :
  quiet_errors k w = Some (n, w1) ->
  oracle (RPoll 100) w1 = (Returns (Some msg), w') ->
  m_error msg = Some error -> code error <> _PARTITION_EOF ->
  ce + n + 1 = max_consecutive_errors ->
  (k < fuel)%nat ->
  exists t,
    @while_true W Z unit fuel (loop_body c) ce w
    = (Raise (KafkaException error), w', t ++ [ERaise (KafkaException error)])
    /\ count is_poll t = S k
    /\ none_of is_handler_call t.
Proof.
  intros Hq Hp He Hc Hn Hk.
  replace fuel with (k + S (fuel - S k))%nat by lia.
  rewrite while_true_split. unfold bind at 1.
  destruct (iterate_quiet c k w ce n w1 Hq ltac:(lia)) as (t & -> & Hcount & Hnone).
  cbn [while_true]. unfold bind at 1.
  rewrite (loop_body_fatal c (ce + n) w1 w' msg error Hp He Hc) by lia.
  exists (t ++ [ECall (RPoll 100); ELog ERROR ("Consumer error: " +:+ errstr error) []]).
  split; [rewrite <- app_assoc; reflexivity|]. split.
  - rewrite count_app, Hcount. cbn. lia.
  - apply none_of_app; [exact Hnone|]. repeat constructor.
Qed.

(** C2. Transport errors other than end-of-partition are counted
    since the last delivered message; empty polls and end-of-partition
    signals leave the counter alone.  When the fifth such error
    arrives, [start] raises and stops polling: the trace holds the
    polls up to and including that error and no later one; the same
    holds for the loop from any counter value once counter and errors
    add up to five.  Below five the loop keeps polling with the
    counter raised by the number of errors, and a delivered message
    sets the counter back to 0. *)
Theorem five_consecutive_errors_fatal (c : Consumer) :
  (forall kc k n w w1 w' msg error fuel,
      _consumer c = Some kc ->
      quiet_errors k w = Some (n, w1) ->
      oracle (RPoll 100) w1 = (Returns (Some msg), w') ->
      m_error msg = Some error -> code error <> _PARTITION_EOF ->
      n + 1 = 5 ->
      (k < fuel)%nat ->
      exists e w'' t,
        start c fuel w = (Raise e, w'', t)
        /\ count is_poll t = S k
        /\ In (ERaise (KafkaException error)) t
        /\ none_of is_handler_call t)
  /\ (forall ce k n w w1 w' msg error fuel,
        quiet_errors k w = Some (n, w1) ->
        oracle (RPoll 100) w1 = (Returns (Some msg), w') ->
        m_error msg = Some error -> code error <> _PARTITION_EOF ->
        ce + n + 1 = 5 ->
        (k < fuel)%nat ->
        exists t,
          @while_true W Z unit fuel (loop_body c) ce w
          = (Raise (KafkaException error), w', t ++ [ERaise (KafkaException error)])
          /\ count is_poll t = S k)
  /\ (forall k n w w1 ce,
        quiet_errors k w = Some (n, w1) ->
        ce + n < 5 ->
        exists t, iterate k (loop_body c) ce w = (Ok (ce + n), w1, t)
                  /\ count is_poll t = k)
  /\ (forall ce w w1 msg r w' t,
        oracle (RPoll 100) w = (Returns (Some msg), w1) ->
        m_error msg = None ->
        loop_body c ce w = (r, w', t) ->
        r = Ok 0 \/ exists e, r = Raise e /\ isinstance_Exception e = false).
Proof.
  split; [|split; [|split]]; cycle 1.
  - intros ce k n w w1 w' msg error fuel Hq Hp He Hc Hn Hk.
    destruct (while_true_fatal c ce k n w w1 w' msg error fuel Hq Hp He Hc Hn Hk)
      as (t & Hw & Hcount & _).
    exists t. split; assumption.
  - intros k n w w1 ce Hq Hlt.
    destruct (iterate_quiet c k w ce n w1 Hq Hlt) as (t & Ht & Hcount & _).
    exists t. split; assumption.
  - intros ce w w1 msg r w' t. apply loop_body_delivered.
  - intros kc k n w w1 w' msg error fuel Hkc Hq Hp He Hc Hn Hk.
    destruct (while_true_fatal c 0 k n w w1 w' msg error fuel Hq Hp He Hc
                ltac:(unfold max_consecutive_errors; lia) Hk)
      as (t & Hw & Hcount & Hnone).
    unfold start. rewrite Hkc. unfold bind, log, emit.
    unfold try_finally, try_except_KeyboardInterrupt. rewrite Hw. cbn.
    pose proof (close_quiet c w') as Hcl.
    pose proof (terminates_close c w') as Hterm.
    destruct (close c w') as [[r w2] t2]. cbn in Hcl, Hterm.
    assert (Hpolls : count is_poll t2 = 0%nat).
    { apply none_of_count. eapply Forall_impl; [exact Hcl|]. cbn. tauto. }
    assert (Hhand : none_of is_handler_call t2).
    { eapply Forall_impl; [exact Hcl|]. cbn. tauto. }
    assert (Hall : count is_poll
                     ((t ++ [ERaise (KafkaException error)]) ++ t2) = S k).
    { rewrite !count_app, Hcount, Hpolls. cbn. lia. }
    assert (Hin : In (ERaise (KafkaException error))
                    ((t ++ [ERaise (KafkaException error)]) ++ t2)).
    { apply in_or_app. left. apply in_or_app. right. left. reflexivity. }
    assert (Hno : none_of is_handler_call
                    ((t ++ [ERaise (KafkaException error)]) ++ t2)).
    { apply none_of_app; [apply none_of_app|]; try assumption. repeat constructor. }
    destruct r as [u|e'|]; [| |congruence].
    + exists (KafkaException error), w2. eexists. split; [reflexivity|].
      cbn. split; [exact Hall|]. split; [right; exact Hin|].
      constructor; [reflexivity|exact Hno].
    + exists e', w2. eexists. split; [reflexivity|].
      cbn. split; [exact Hall|]. split; [right; exact Hin|].
      constructor; [reflexivity|exact Hno].
Qed.

(** C3 (as amended). [close] runs the releases in order: producer
    flush with a 5 second timeout, consumer close, delegate close.
    When each of them returns, all three have run.  A release that
    raises ends [close] with that exception, and the releases after it
    are not attempted. *)
Theorem close_releases_in_order (c : Consumer) (w : W) p kc :
  _producer c = Some p -> _consumer c = Some kc ->
  (forall w1 w2 w3,
      oracle (RFlush (Some 5)) w = (Returns tt, w1) ->
      oracle RConsumerClose w1 = (Returns tt, w2) ->
      oracle RCoreClose w2 = (Returns tt, w3) ->
      close c w
      = (Ok tt, w3,
         [ECall (RFlush (Some 5)); ELog INFO "Producer flushed" [];
          ECall RConsumerClose; ELog INFO "Consumer closed" [];
          ECall RCoreClose; ELog INFO "Core closed" []]))
  /\ (forall e w1,
        oracle (RFlush (Some 5)) w = (Raises e, w1) ->
        close c w = (Raise e, w1, [ECall (RFlush (Some 5))]))
  /\ (forall e w1 w2,
        oracle (RFlush (Some 5)) w = (Returns tt, w1) ->
        oracle RConsumerClose w1 = (Raises e, w2) ->
        close c w
        = (Raise e, w2,
           [ECall (RFlush (Some 5)); ELog INFO "Producer flushed" [];
            ECall RConsumerClose]))
  /\ (forall e w1 w2 w3,
        oracle (RFlush (Some 5)) w = (Returns tt, w1) ->
        oracle RConsumerClose w1 = (Returns tt, w2) ->
        oracle RCoreClose w2 = (Raises e, w3) ->
        close c w
        = (Raise e, w3,
           [ECall (RFlush (Some 5)); ELog INFO "Producer flushed" [];
            ECall RConsumerClose; ELog INFO "Consumer closed" [];
            ECall RCoreClose])).
Proof.
  intros Hp Hk. unfold close, bind, call, log, emit. rewrite Hp, Hk.
  split; [|split; [|split]].
  - intros w1 w2 w3 H1 H2 H3. rewrite H1. cbn. rewrite H2. cbn. rewrite H3. reflexivity.
  - intros e w1 H1. rewrite H1. reflexivity.
  - intros e w1 w2 H1 H2. rewrite H1. cbn. rewrite H2. reflexivity.
  - intros e w1 w2 w3 H1 H2 H3. rewrite H1. cbn. rewrite H2. cbn. rewrite H3. reflexivity.
Qed.

Lemma parse_cloud_event_quiet msg :
  emits_only (fun e => is_poll e = false /\ is_handler_call e = false
                       /\ is_routing e = false)
    (_parse_cloud_event msg).
Proof. unfold _parse_cloud_event, log. judge; repeat split. Qed.

(** C4. When both converters fail on a delivered message,
    [_parse_cloud_event] answers [None]; and whenever it answers
    [None], the round ends there: the handler is not called, nothing
    is serialized, resolved or published, and the loop goes on to the
    next poll with the counter at 0. *)
Theorem undecodable_message_skipped (c : Consumer) (ce : Z) (w w1 : W) (msg : Message) :
  oracle (RPoll 100) w = (Returns (Some msg), w1) ->
  m_error msg = None ->
  (forall value e1 e2,
      m_value msg = Some value ->
      from_structured (to_kafka_message msg value) = Raises e1 ->
      isinstance_Exception e1 = true ->
      from_binary (to_kafka_message msg value) = Raises e2 ->
      isinstance_Exception e2 = true ->
      exists t1, _parse_cloud_event msg w1 = (Ok None, w1, t1))
  /\ (forall w2 t1,
        _parse_cloud_event msg w1 = (Ok None, w2, t1) ->
        loop_body c ce w = (Ok 0, w2, ECall (RPoll 100) :: t1)
        /\ none_of is_handler_call (ECall (RPoll 100) :: t1)
        /\ none_of is_routing (ECall (RPoll 100) :: t1)
        /\ forall fuel,
             @while_true W Z unit (S fuel) (loop_body c) ce w
             = (let '(r, w3, t3) := while_true fuel (loop_body c) 0 w2 in
                (r, w3, (ECall (RPoll 100) :: t1) ++ t3))).
Proof.
  intros Hp He. split.
  - intros value e1 e2 Hv Hs He1 Hb He2.
    eexists. apply (parse_both_fail msg w1 value e1 e2); assumption.
  - intros w2 t1 Hparse.
    assert (Hbody : loop_body c ce w = (Ok 0, w2, ECall (RPoll 100) :: t1)).
    { unfold loop_body, bind at 1, call. rewrite Hp, He. unfold bind at 1.
      rewrite Hparse. cbn. rewrite app_nil_r. reflexivity. }
    pose proof (parse_cloud_event_quiet msg w1) as Hq. rewrite Hparse in Hq. cbn in Hq.
    split; [exact Hbody|]. split; [|split].
    + constructor; [reflexivity|]. eapply Forall_impl; [exact Hq|]. cbn. tauto.
    + constructor; [reflexivity|]. eapply Forall_impl; [exact Hq|]. cbn. tauto.
    + intros fuel. cbn [while_true]. unfold bind at 1. rewrite Hbody. reflexivity.
Qed.

(** ** Substrings *)

Lemma append_cons a p s : String a p +:+ s = String a (p +:+ s).
Proof. reflexivity. Qed.

Lemma prefix_append p s : String.prefix p (p +:+ s) = true.
Proof.
  induction p as [|a p IH]; [destruct s; reflexivity|].
  rewrite append_cons. cbn [String.prefix].
  destruct (ascii_dec a a); [exact IH|congruence].
Qed.







(** ** Construction *)

Lemma init_fields core0 handler0 w c w' t :
  __init__ core0 handler0 w = (Ok c, w', t) ->
  handler c = handler0
  /\ _is_output_handler c = _detect_output_handler handler0
  /\ _consumer c <> None
  /\ (_detect_output_handler handler0 = false -> _producer c = None)
  /\ (_detect_output_handler handler0 = true ->
      _producer c <> None /\ count is_new_producer t = 1%nat).
Proof.
  unfold __init__, bind, call, log, emit, ret.
  destruct (oracle RGetKafkaConfig w) as [[config|e] w1]; [|discriminate].
  cbn.
  destruct (oracle (RNewKafkaConsumer _) w1) as [[u|e] w2]; [|discriminate].
  cbn.
  destruct (oracle (RSubscribe _) w2) as [[u'|e] w3]; [|discriminate].
  cbn.
  destruct (_detect_output_handler handler0) eqn:Hd.
  - destruct (oracle (RNewProducer _) w3) as [[u''|e] w4]; [|discriminate].
    cbn. intros [= <- _ <-]. cbn. repeat split; congruence.
  - cbn. intros [= <- _ <-]. cbn. repeat split; congruence.
Qed.


Lemma publish_to_kafka_quiet c ev tp :
  emits_only (fun e => is_poll e = false /\ is_handler_call e = false
                       /\ is_new_producer e = false)
    (_publish_to_kafka c ev tp).
Proof. unfold _publish_to_kafka, log. judge; repeat split. Qed.

Lemma publish_output_event_quiet c ev :
  emits_only (fun e => is_poll e = false /\ is_handler_call e = false
                       /\ is_new_producer e = false)
    (_publish_output_event c ev).
Proof.
  unfold _publish_output_event, type_name, log.
  judge; try apply publish_to_kafka_quiet; repeat split.
Qed.



(** ** Dispatch and routing *)

Lemma invoke_handler_output c ev w out w1 :
  _is_output_handler c = true ->
  oracle (RHandler ev) w = (Returns (Some out), w1) ->
  _invoke_handler c ev w
  = (let '(r, w2, t2) := _publish_output_event c out w1 in
     (r, w2, ECall (RHandler ev) :: t2)).
Proof.
  intros Hout Hh. unfold _invoke_handler, bind, call. rewrite Hout, Hh.
  destruct (_publish_output_event c out w1) as [[r w2] t2]. reflexivity.
Qed.

Lemma publish_output_event_head c ev w p :
  _producer c = Some p ->
  exists t',
    (_publish_output_event c ev w).2 = EJsonDumps (event_dict_of ev) :: t'
    /\ none_of is_handler_call t'
    /\ forall json, json_dumps (event_dict_of ev) = Returns json ->
         exists t'', t' = ECall (RGetOutputDestination json) :: t''.
Proof.
  intros Hp.
  pose proof (publish_output_event_quiet c ev w) as Hq.
  unfold _publish_output_event in *. rewrite Hp in *.
  unfold bind at 1, emit at 1. unfold bind at 1, emit at 1 in Hq.
  destruct (json_dumps (event_dict_of ev)) as [json|e] eqn:Hj.
  - unfold bind at 1, of_reply at 1. unfold bind at 1, of_reply at 1 in Hq.
    unfold bind at 1, call at 1. unfold bind at 1, call at 1 in Hq.
    destruct (oracle (RGetOutputDestination json) w) as [[dest|e] w3].
    + match goal with
      | |- context [bind (type_name ?a) ?k w3] =>
          destruct (bind (type_name a) k w3) as [[r4 w4] t4]
      end.
      cbn in *. eexists. split; [reflexivity|]. split.
      * inversion Hq as [|? ? _ Hq']; subst.
        eapply Forall_impl; [exact Hq'|]. cbn. tauto.
      * intros json' [= <-]. eauto.
    + cbn. eexists. split; [reflexivity|]. split.
      * repeat constructor.
      * intros json' [= <-]. eauto.
  - cbn. eexists. split; [reflexivity|]. split; [constructor|]. discriminate.
Qed.

(** C6. For an OUTPUT_PRODUCING consumer, the trace of
    [_invoke_handler] holds routing events exactly when the handler
    returned an event: the event is serialized right after the handler
    call and, once serialized, handed to [get_output_destination].  When
    the handler returns [None], and for a SIMPLE consumer whatever the
    handler does, the handler call is the whole trace. *)
Theorem routing_iff_handler_output (c : Consumer) (ev : CloudEvent) (w : W) :
  (_is_output_handler c = true -> _producer c <> None ->
   forall r w1, oracle (RHandler ev) w = (r, w1) ->
     (existsb is_routing (_invoke_handler c ev w).2 = true
      <-> exists out, r = Returns (Some out))
     /\ (forall out, r = Returns (Some out) ->
         exists t',
           (_invoke_handler c ev w).2
           = ECall (RHandler ev) :: EJsonDumps (event_dict_of out) :: t'
           /\ count is_handler_call (_invoke_handler c ev w).2 = 1%nat
           /\ forall json, json_dumps (event_dict_of out) = Returns json ->
                exists t'', t' = ECall (RGetOutputDestination json) :: t'')
     /\ (r = Returns None ->
         _invoke_handler c ev w = (Ok tt, w1, [ECall (RHandler ev)])))
  /\ (_is_output_handler c = false ->
      (_invoke_handler c ev w).2 = [ECall (RHandler ev)]).
Proof.
  split.
  - intros Hout Hprod r w1 Hh.
    destruct (_producer c) as [p|] eqn:Hp; [clear Hprod|congruence].
    assert (Hsome : forall out, r = Returns (Some out) ->
              exists t',
                (_invoke_handler c ev w).2
                = ECall (RHandler ev) :: EJsonDumps (event_dict_of out) :: t'
                /\ count is_handler_call (_invoke_handler c ev w).2 = 1%nat
                /\ forall json, json_dumps (event_dict_of out) = Returns json ->
                     exists t'', t' = ECall (RGetOutputDestination json) :: t'').
    { intros out ->. rewrite (invoke_handler_output c ev w out w1 Hout Hh).
      destruct (publish_output_event_head c out w1 p Hp) as (t' & Ht & Hn & Hj).
      destruct (_publish_output_event c out w1) as [[r2 w2] t2]. cbn in Ht. subst t2.
      exists t'. split; [reflexivity|]. split; [|exact Hj].
      cbn. f_equal. apply none_of_count. exact Hn. }
    split; [|split].
    + split.
      * intros Hex. destruct r as [[out|]|e]; [eauto| |].
        -- unfold _invoke_handler, bind, call in Hex. rewrite Hout, Hh in Hex.
           discriminate.
        -- unfold _invoke_handler, bind, call in Hex. rewrite Hout, Hh in Hex.
           discriminate.
      * intros [out Hr]. destruct (Hsome out Hr) as (t' & -> & _). reflexivity.
    + exact Hsome.
    + intros ->. unfold _invoke_handler, bind, call. rewrite Hout, Hh. reflexivity.
  - intros Hout. unfold _invoke_handler, bind, call. rewrite Hout.
    destruct (oracle (RHandler ev) w) as [[out|e] w1]; reflexivity.
Qed.

(** The dict both publish functions build: the four required
    attributes, then [time], [datacontenttype] and [data], each only
    when the event has it. *)
Lemma event_dict_of_layout (ev : CloudEvent) :
  event_dict_of ev
  = [("specversion", PStr (ce_specversion ev)); ("type", PStr (ce_type ev));
     ("source", PStr (ce_source ev)); ("id", PStr (ce_id ev))]
    ++ match ce_time ev with Some t => [("time", PStr t)] | None => [] end
    ++ match ce_datacontenttype ev with
       | Some t => [("datacontenttype", PStr t)]
       | None => []
       end
    ++ match ce_data ev with Some d => [("data", d)] | None => [] end.
Proof.
  unfold event_dict_of.
  destruct (ce_time ev), (ce_datacontenttype ev), (ce_data ev); reflexivity.
Qed.

(** C7. After serialization and destination resolution, the router
    branches on the kind.  DISCARD: nothing is published, the event is
    logged as discarded and the router returns.  RABBITMQ and HTTP:
    nothing is published, a warning says the kind is not implemented
    and the event is discarded, and the router returns.  A kind that is
    none of the four: the router raises and publishes nothing. *)
Theorem route_without_publish (c : Consumer) (ev : CloudEvent) (w w1 : W)
    (p : Producer) (json : string) (dest : OutputDestination) :
  _producer c = Some p ->
  json_dumps (event_dict_of ev) = Returns json ->
  oracle (RGetOutputDestination json) w = (Returns dest, w1) ->
  (d_type dest = Member DISCARD ->
   _publish_output_event c ev w
   = (Ok tt, w1,
      [EJsonDumps (event_dict_of ev); ECall (RGetOutputDestination json);
       ELog INFO "Routing output event"
         [("event_type", PStr (ce_type ev)); ("dest_type", PStr "DISCARD");
          ("dest_target", PStr (d_target dest))];
       ELog INFO ("Discarding output event: " +:+ ce_type ev) []]))
  /\ (forall k, (k = RABBITMQ \/ k = HTTP) -> d_type dest = Member k ->
      _publish_output_event c ev w
      = (Ok tt, w1,
         [EJsonDumps (event_dict_of ev); ECall (RGetOutputDestination json);
          ELog INFO "Routing output event"
            [("event_type", PStr (ce_type ev));
             ("dest_type", PStr (DestinationType_name k));
             ("dest_target", PStr (d_target dest))];
          ELog WARNING
            ("Destination type " +:+ DestinationType_name k
             +:+ " not yet implemented, discarding event") []]))
  /\ (forall v n r, d_type dest = Foreign v n r ->
      v <> 0 -> v <> 1 -> v <> 2 -> v <> 3 ->
      exists e t,
        _publish_output_event c ev w = (Raise e, w1, t)
        /\ isinstance_Exception e = true
        /\ none_of is_produce t
        /\ (n <> None ->
            e = RuntimeError ("Unknown destination type: " +:+ r)
            /\ In (ERaise e) t)).
Proof.
  intros Hp Hj Hd.
  unfold _publish_output_event. rewrite Hp.
  unfold bind, emit, of_reply, call, type_name, log. rewrite Hj, Hd.
  split; [|split].
  - intros Ht. rewrite Ht. reflexivity.
  - intros k [-> | ->] Ht; rewrite Ht; reflexivity.
  - intros v n r Ht H0 H1 H2 H3. rewrite Ht. unfold dest_name, dest_eqb, dest_value.
    cbn [DestinationType_value].
    apply Z.eqb_neq in H0, H1, H2, H3.
    destruct n as [name|].
    + cbn. rewrite H0, H1, H2, H3. cbn.
      eexists. eexists. split; [reflexivity|]. split; [reflexivity|].
      split; [repeat constructor|]. intros _. split; [reflexivity|].
      cbn. tauto.
    + cbn. eexists. eexists. split; [reflexivity|]. split; [reflexivity|].
      split; [repeat constructor|]. congruence.
Qed.

(** C8. For a destination of kind KAFKA the router calls [produce]
    once: on the topic named by the target, with the UTF-8 bytes of
    the serialized event dict as value and the UTF-8 bytes of the
    event's [id] as key.  The dict holds [specversion], [type],
    [source], [id] and then [time], [datacontenttype], [data] for those
    the event has, in this order.  When [produce] and [flush] return,
    the router returns. *)
Theorem kafka_publish_once (c : Consumer) (ev : CloudEvent) (w w1 : W)
    (p : Producer) (json : string) (dest : OutputDestination) :
  _producer c = Some p ->
  json_dumps (event_dict_of ev) = Returns json ->
  oracle (RGetOutputDestination json) w = (Returns dest, w1) ->
  d_type dest = Member KAFKA ->
  (exists r w' t',
      _publish_output_event c ev w
      = (r, w',
         [EJsonDumps (event_dict_of ev); ECall (RGetOutputDestination json);
          ELog INFO "Routing output event"
            [("event_type", PStr (ce_type ev)); ("dest_type", PStr "KAFKA");
             ("dest_target", PStr (d_target dest))];
          EJsonDumps (event_dict_of ev);
          ECall (RProduce (d_target dest) (encode_utf8 json) (encode_utf8 (ce_id ev)))]
         ++ t')
      /\ none_of is_produce t'
      /\ count is_produce
           (_publish_output_event c ev w).2 = 1%nat)
  /\ (forall w2 w3,
        oracle (RProduce (d_target dest) (encode_utf8 json) (encode_utf8 (ce_id ev))) w1
        = (Returns tt, w2) ->
        oracle (RFlush None) w2 = (Returns tt, w3) ->
        (_publish_output_event c ev w).1 = (Ok tt, w3))
  /\ map fst (event_dict_of ev)
     = ["specversion"; "type"; "source"; "id"]
       ++ match ce_time ev with Some _ => ["time"] | None => [] end
       ++ match ce_datacontenttype ev with
          | Some _ => ["datacontenttype"]
          | None => []
          end
       ++ match ce_data ev with Some _ => ["data"] | None => [] end
  /\ event_dict_of ev
     = [("specversion", PStr (ce_specversion ev)); ("type", PStr (ce_type ev));
        ("source", PStr (ce_source ev)); ("id", PStr (ce_id ev))]
       ++ match ce_time ev with Some t => [("time", PStr t)] | None => [] end
       ++ match ce_datacontenttype ev with
          | Some t => [("datacontenttype", PStr t)]
          | None => []
          end
       ++ match ce_data ev with Some d => [("data", d)] | None => [] end.
Proof.
  intros Hp Hj Hd Ht.
  split; [|split; [|split]].
  - unfold _publish_output_event, _publish_to_kafka. rewrite Hp.
    unfold bind, emit, of_reply, call, type_name, log. rewrite Hj, Hd, Ht. cbn.
    destruct (oracle (RProduce _ _ _) w1) as [[u|e] w2].
    + destruct (oracle (RFlush None) w2) as [[u'|e] w3]; cbn;
        (eexists; eexists; eexists; split; [reflexivity|]; split;
         [repeat constructor | reflexivity]).
    + cbn. eexists. eexists. exists []. split; [reflexivity|]. split;
        [constructor | reflexivity].
  - intros w2 w3 H1 H2.
    unfold _publish_output_event, _publish_to_kafka. rewrite Hp.
    unfold bind, emit, of_reply, call, type_name, log. rewrite Hj, Hd, Ht. cbn.
    rewrite H1. cbn. rewrite H2. reflexivity.
  - rewrite event_dict_of_layout.
    destruct (ce_time ev), (ce_datacontenttype ev), (ce_data ev); reflexivity.
  - apply event_dict_of_layout.
Qed.

(** ** Handler failures *)

Lemma on_handler_error_cases ev e w :
  catchable (oracle (RShouldRetry (str_exc e) 1) w).1 ->
  catchable (oracle (RCalculateBackoff 1) (oracle (RShouldRetry (str_exc e) 1) w).2).1 ->
  exists w' t,
    on_handler_error ev e w
    = (Ok tt, w',
       ELog ERROR ("Handler error: " +:+ str_exc e) [("event_type", PStr (ce_type ev))]
       :: ECall (RShouldRetry (str_exc e) 1) :: t)
    /\ none_of is_handler_call t /\ none_of is_poll t /\ none_of is_routing t
    /\ (forall e', (oracle (RShouldRetry (str_exc e) 1) w).1 = Raises e' ->
        t = [ELog ERROR ("Error checking retry: " +:+ str_exc e') []])
    /\ (forall e',
          (oracle (RShouldRetry (str_exc e) 1) w).1 = Returns true ->
          (oracle (RCalculateBackoff 1) (oracle (RShouldRetry (str_exc e) 1) w).2).1
          = Raises e' ->
          t = [ECall (RCalculateBackoff 1);
               ELog ERROR ("Error checking retry: " +:+ str_exc e') []]).
Proof.
  unfold on_handler_error, bind, log, emit, try_except_Exception, call.
  destruct (oracle (RShouldRetry (str_exc e) 1) w) as [[[|]|e1] w1]; cbn.
  - destruct (oracle (RCalculateBackoff 1) w1) as [[b|e2] w2]; cbn.
    + intros _ _. eexists. eexists. split; [reflexivity|].
      repeat split; try (repeat constructor); discriminate.
    + intros _ He2. rewrite He2. cbn. eexists. eexists. split; [reflexivity|].
      repeat split; try (repeat constructor); try discriminate.
      intros e' _ [= <-]. reflexivity.
  - intros _ _. eexists. eexists. split; [reflexivity|].
    repeat split; try (repeat constructor); discriminate.
  - intros He1 _. rewrite He1. cbn. eexists. eexists. split; [reflexivity|].
    repeat split; try (repeat constructor); try discriminate.
    intros e' [= <-]. reflexivity.
Qed.

(** C9. When the handler raises an [Exception] on a decoded message,
    the round still ends normally and the loop goes on to the next
    poll.  The error is logged, [should_retry] is asked (and
    [calculate_backoff] only after a yes), and that is all: the handler
    has been called once, nothing is polled again within the round and
    nothing is published.  A query that itself raises an [Exception] is
    logged and changes nothing else. *)
Theorem handler_failure_contained (c : Consumer) (ce : Z) (w w1 w2 w3 : W)
    (msg : Message) (ev : CloudEvent) (t1 : trace) (e : PyExc) :
  oracle (RPoll 100) w = (Returns (Some msg), w1) ->
  m_error msg = None ->
  _parse_cloud_event msg w1 = (Ok (Some ev), w2, t1) ->
  oracle (RHandler ev) w2 = (Raises e, w3) ->
  isinstance_Exception e = true ->
  catchable (oracle (RShouldRetry (str_exc e) 1) w3).1 ->
  catchable (oracle (RCalculateBackoff 1) (oracle (RShouldRetry (str_exc e) 1) w3).2).1 ->
  exists w' t,
    loop_body c ce w
    = (Ok 0, w',
       ECall (RPoll 100) :: t1
       ++ ECall (RHandler ev)
          :: ELog ERROR ("Handler error: " +:+ str_exc e)
               [("event_type", PStr (ce_type ev))]
          :: ECall (RShouldRetry (str_exc e) 1) :: t)
    /\ none_of is_handler_call t /\ none_of is_poll t /\ none_of is_routing t
    /\ count is_handler_call
         (ECall (RPoll 100) :: t1
          ++ ECall (RHandler ev)
             :: ELog ERROR ("Handler error: " +:+ str_exc e)
                  [("event_type", PStr (ce_type ev))]
             :: ECall (RShouldRetry (str_exc e) 1) :: t) = 1%nat
    /\ (forall e', (oracle (RShouldRetry (str_exc e) 1) w3).1 = Raises e' ->
        t = [ELog ERROR ("Error checking retry: " +:+ str_exc e') []])
    /\ (forall e',
          (oracle (RShouldRetry (str_exc e) 1) w3).1 = Returns true ->
          (oracle (RCalculateBackoff 1) (oracle (RShouldRetry (str_exc e) 1) w3).2).1
          = Raises e' ->
          t = [ECall (RCalculateBackoff 1);
               ELog ERROR ("Error checking retry: " +:+ str_exc e') []])
    /\ forall fuel,
         @while_true W Z unit (S fuel) (loop_body c) ce w
         = (let '(r, w4, t4) := while_true fuel (loop_body c) 0 w' in
            (r, w4,
             (ECall (RPoll 100) :: t1
              ++ ECall (RHandler ev)
                 :: ELog ERROR ("Handler error: " +:+ str_exc e)
                      [("event_type", PStr (ce_type ev))]
                 :: ECall (RShouldRetry (str_exc e) 1) :: t) ++ t4)).
Proof.
  intros Hp Herr Hparse Hh He Hsr Hbo.
  destruct (on_handler_error_cases ev e w3 Hsr Hbo)
    as (w' & t & Hon & Hnh & Hnp & Hnr & Hq1 & Hq2).
  assert (Hinv : _invoke_handler c ev w2 = (Raise e, w3, [ECall (RHandler ev)])).
  { unfold _invoke_handler, bind, call.
    destruct (_is_output_handler c); rewrite Hh; reflexivity. }
  assert (Hbody : loop_body c ce w
                  = (Ok 0, w',
                     ECall (RPoll 100) :: t1
                     ++ ECall (RHandler ev)
                        :: ELog ERROR ("Handler error: " +:+ str_exc e)
                             [("event_type", PStr (ce_type ev))]
                        :: ECall (RShouldRetry (str_exc e) 1) :: t)).
  { unfold loop_body, bind at 1, call. rewrite Hp, Herr. unfold bind at 1.
    rewrite Hparse. unfold bind, try_except_Exception, ret.
    rewrite Hinv, He, Hon. cbn. rewrite app_nil_r. reflexivity. }
  exists w', t. split; [exact Hbody|].
  split; [exact Hnh|]. split; [exact Hnp|]. split; [exact Hnr|].
  split; [|split; [exact Hq1|split; [exact Hq2|]]].
  - pose proof (parse_cloud_event_quiet msg w1) as Hq. rewrite Hparse in Hq. cbn in Hq.
    cbn [count is_poll is_handler_call]. rewrite count_app.
    rewrite (none_of_count is_handler_call t1)
      by (eapply Forall_impl; [exact Hq|]; cbn; tauto).
    cbn. rewrite (none_of_count _ _ Hnh). reflexivity.
  - intros fuel. cbn [while_true]. unfold bind at 1. rewrite Hbody. reflexivity.
Qed.

(** ** The producer guard *)

Lemma publish_to_kafka_guard c ev tp :
  _producer c <> None ->
  emits_only (fun e => is_producer_guard e = false) (_publish_to_kafka c ev tp).
Proof.
  intros Hp. unfold _publish_to_kafka, log.
  destruct (_producer c); [|congruence]. judge; reflexivity.
Qed.

Lemma publish_output_event_guard c ev :
  _producer c <> None ->
  emits_only (fun e => is_producer_guard e = false) (_publish_output_event c ev).
Proof.
  intros Hp. pose proof (publish_to_kafka_guard c ev) as Hk.
  unfold _publish_output_event, type_name, log.
  destruct (_producer c); [|congruence].
  judge; try reflexivity. apply Hk. congruence.
Qed.

Lemma invoke_handler_guard c ev :
  (_is_output_handler c = true -> _producer c <> None) ->
  emits_only (fun e => is_producer_guard e = false) (_invoke_handler c ev).
Proof.
  intros Hwf. unfold _invoke_handler.
  destruct (_is_output_handler c).
  - judge; try reflexivity. apply publish_output_event_guard. auto.
  - judge; reflexivity.
Qed.

Lemma start_guard c fuel :
  (_is_output_handler c = true -> _producer c <> None) ->
  emits_only (fun e => is_producer_guard e = false) (start c fuel).
Proof.
  intros Hwf. unfold start, log. judge; try reflexivity.
  apply emits_only_while_true. intros st.
  unfold loop_body, _parse_cloud_event, on_handler_error, log.
  judge; try reflexivity. apply invoke_handler_guard. exact Hwf.
Qed.

(** C10. A consumer built by [__init__] for an OUTPUT_PRODUCING
    handler holds a producer, and no later step replaces it: [start]
    and everything below it work on the consumer as built.  So neither
    [raise RuntimeError("Producer not initialized")] is ever executed:
    not in any run of [start], not in any handler dispatch, and, for
    an OUTPUT_PRODUCING handler, not in any call of the two publish
    functions. *)
Theorem producer_guard_unreachable (core0 : Core) (handler0 : Handler) (w w' : W)
    (c : Consumer) (t : trace) :
  __init__ core0 handler0 w = (Ok c, w', t) ->
  (_is_output_handler c = true ->
   exists p, _producer c = Some p /\ count is_new_producer t = 1%nat)
  /\ (forall fuel w1, none_of is_producer_guard (start c fuel w1).2)
  /\ (forall ev w1, none_of is_producer_guard (_invoke_handler c ev w1).2)
  /\ (_is_output_handler c = true ->
      forall ev w1,
        none_of is_producer_guard (_publish_output_event c ev w1).2
        /\ forall tp, none_of is_producer_guard (_publish_to_kafka c ev tp w1).2).
Proof.
  intros Hi. destruct (init_fields _ _ _ _ _ _ Hi) as (_ & Ho & _ & _ & Hp).
  assert (Hwf : _is_output_handler c = true -> _producer c <> None).
  { intros H. apply Hp. congruence. }
  split; [|split; [|split]].
  - intros H. destruct (Hp ltac:(congruence)) as [Hsome Hcount].
    destruct (_producer c) as [p|]; [eauto|congruence].
  - intros fuel w1. apply start_guard. exact Hwf.
  - intros ev w1. apply invoke_handler_guard. exact Hwf.
  - intros H ev w1. split.
    + apply publish_output_event_guard. auto.
    + intros tp. apply publish_to_kafka_guard. auto.
Qed.

(** * Further properties of the consumer *)

(** ** Shutdown *)

Lemma while_true_never_returns {St A} (body : St -> M W St) fuel :
  forall st w a w' t, @while_true W St A fuel body st w <> (Ok a, w', t).
Proof.
  induction fuel as [|fuel IH]; intros st w a w' t; cbn [while_true].
  - discriminate.
  - unfold bind. destruct (body st w) as [[[st'|e|] w1] t1]; try discriminate.
    destruct (while_true fuel body st' w1) as [[r w2] t2] eqn:E.
    intros [= -> _ _]. exact (IH _ _ _ _ _ E).
Qed.

(** X1. [start] never ends without running [close]: whenever it
    returns or raises, the last part of its trace is a run of [close]
    from the world the loop left behind, and [start] ends in the world
    [close] left. *)
Theorem start_always_closes (c : Consumer) (kc : KafkaConsumer) (fuel : nat)
    (w w' : W) (r : result unit) (t : trace) :
  _consumer c = Some kc ->
  start c fuel w = (r, w', t) ->
  r <> OutOfFuel ->
  exists t1 w1 r2 t2,
    close c w1 = (r2, w', t2)
    /\ t = ELog INFO "Starting consumer" [] :: t1 ++ t2
    /\ none_of is_release t1
    /\ (forall e, r2 = Raise e -> r = Raise e).
Proof.
  intros Hkc Hs Hr. unfold start in Hs. rewrite Hkc in Hs.
  unfold bind, log, emit, try_finally in Hs.
  assert (Hloop : emits_only (fun e => is_release e = false)
                    (try_except_KeyboardInterrupt
                       (@while_true W Z unit fuel (loop_body c) 0)
                       (emit (ELog INFO "Consumer interrupted" [])))).
  { judge; try reflexivity. apply emits_only_while_true. intros st.
    unfold loop_body, _parse_cloud_event, _invoke_handler, _publish_output_event,
      _publish_to_kafka, type_name, on_handler_error, log.
    judge; reflexivity. }
  specialize (Hloop w).
  destruct (try_except_KeyboardInterrupt _ _ w) as [[r1 w1] t1]. cbn in Hloop.
  pose proof (terminates_close c w1) as Hterm.
  destruct (close c w1) as [[r2 w2] t2] eqn:Hc. cbn in Hterm.
  destruct r1 as [u|e|]; [| |injection Hs as <- _ _; congruence];
    (destruct r2 as [u2|e2|]; [| |congruence]);
    injection Hs as <- <- <-;
    exists t1, w1; eexists; exists t2;
    (split; [exact Hc|]); (split; [reflexivity|]); (split; [exact Hloop|]);
    intros e0 [= <-]; reflexivity || discriminate.
Qed.

Lemma start_after_rounds (c : Consumer) (kc : KafkaConsumer) (n fuel : nat)
    (ce : Z) (w w0 : W) (t0 : trace) :
  _consumer c = Some kc ->
  iterate n (loop_body c) 0 w = (Ok ce, w0, t0) ->
  start c (n + fuel) w
  = (let '(r, w', t) :=
       try_finally
         (try_except_KeyboardInterrupt
            (while_true fuel (loop_body c) ce)
            (log INFO "Consumer interrupted" []))
         (close c) w0 in
     (r, w', ELog INFO "Starting consumer" [] :: t0 ++ t)).
Proof.
  intros Hkc Hi. unfold start. rewrite Hkc.
  unfold bind at 1, log at 1, emit at 1.
  unfold try_finally, try_except_KeyboardInterrupt.
  rewrite (while_true_split n fuel). unfold bind at 1. rewrite Hi.
  destruct (while_true fuel (loop_body c) ce w0) as [[[u|e|] w1] t1]; cbn.
  - destruct (close c w1) as [[[u2|e2|] w2] t2]; cbn;
      rewrite <- ?List.app_assoc; reflexivity.
  - destruct (isinstance_KeyboardInterrupt e); cbn.
    + destruct (close c w1) as [[[u2|e2|] w2] t2]; cbn;
        rewrite <- ?List.app_assoc; reflexivity.
    + destruct (close c w1) as [[[u2|e2|] w2] t2]; cbn;
        rewrite <- ?List.app_assoc; reflexivity.
  - reflexivity.
Qed.

(** X2. A [KeyboardInterrupt] ends [start] gracefully, in whatever
    round it arrives.  After any number of completed rounds, raised by
    the poll, or by the handler on a decoded message, it is not
    treated as a handler error (no retry query is made): [start] logs
    the interruption, runs [close] and, when [close] returns, returns
    normally.  Conversely [start] returns normally only after an
    interruption. *)
Theorem interrupt_stops_gracefully (c : Consumer) (kc : KafkaConsumer) (w : W) :
  _consumer c = Some kc ->
  (forall n fuel ce w0 t0 w1 w2 t2,
      iterate n (loop_body c) 0 w = (Ok ce, w0, t0) ->
      oracle (RPoll 100) w0 = (Raises KeyboardInterrupt, w1) ->
      close c w1 = (Ok tt, w2, t2) ->
      start c (n + S fuel) w
      = (Ok tt, w2,
         ELog INFO "Starting consumer" []
         :: t0 ++ ECall (RPoll 100) :: ELog INFO "Consumer interrupted" [] :: t2))
  /\ (forall n fuel ce w0 t0 msg ev w1 w2 w3 w4 t1 t2,
        iterate n (loop_body c) 0 w = (Ok ce, w0, t0) ->
        oracle (RPoll 100) w0 = (Returns (Some msg), w1) ->
        m_error msg = None ->
        _parse_cloud_event msg w1 = (Ok (Some ev), w2, t1) ->
        oracle (RHandler ev) w2 = (Raises KeyboardInterrupt, w3) ->
        close c w3 = (Ok tt, w4, t2) ->
        start c (n + S fuel) w
        = (Ok tt, w4,
           ELog INFO "Starting consumer" []
           :: t0 ++ ECall (RPoll 100)
           :: t1 ++ ECall (RHandler ev) :: ELog INFO "Consumer interrupted" [] :: t2))
  /\ (forall fuel w' t,
        start c fuel w = (Ok tt, w', t) ->
        In (ELog INFO "Consumer interrupted" []) t).
Proof.
  intros Hkc. split; [|split].
  - intros n fuel ce w0 t0 w1 w2 t2 Hi Hp Hc.
    rewrite (start_after_rounds c kc n (S fuel) ce w w0 t0 Hkc Hi).
    unfold try_finally, try_except_KeyboardInterrupt. cbn [while_true].
    unfold bind at 1, loop_body at 1, bind at 1, call at 1. rewrite Hp.
    cbn. rewrite Hc. reflexivity.
  - intros n fuel ce w0 t0 msg ev w1 w2 w3 w4 t1 t2 Hi Hp He Hparse Hh Hc.
    assert (Hinv : _invoke_handler c ev w2
                   = (Raise KeyboardInterrupt, w3, [ECall (RHandler ev)])).
    { unfold _invoke_handler, bind, call.
      destruct (_is_output_handler c); rewrite Hh; reflexivity. }
    assert (Hbody : loop_body c ce w0
                    = (Raise KeyboardInterrupt, w3,
                       ECall (RPoll 100) :: t1 ++ [ECall (RHandler ev)])).
    { unfold loop_body, bind at 1, call. rewrite Hp, He. unfold bind at 1.
      rewrite Hparse. unfold bind, try_except_Exception. rewrite Hinv. reflexivity. }
    rewrite (start_after_rounds c kc n (S fuel) ce w w0 t0 Hkc Hi).
    unfold try_finally, try_except_KeyboardInterrupt. cbn [while_true].
    unfold bind at 1. rewrite Hbody. cbn. rewrite Hc. cbn.
    do 3 f_equal. rewrite <- !List.app_assoc. reflexivity.
  - intros fuel w' t. unfold start. rewrite Hkc.
    unfold bind, log, emit, try_finally, try_except_KeyboardInterrupt.
    destruct (while_true fuel (loop_body c) 0 w) as [[[u|e|] w1] t1] eqn:Hw.
    + exfalso. exact (while_true_never_returns _ _ _ _ _ _ _ Hw).
    + destruct (isinstance_KeyboardInterrupt e).
      * destruct (close c w1) as [[[u2|e2|] w2] t2]; try discriminate.
        intros [= _ <-]. right. apply in_or_app. left. apply in_or_app. right.
        left. reflexivity.
      * destruct (close c w1) as [[[u2|e2|] w2] t2]; discriminate.
    + discriminate.
Qed.

(** ** What can end a round *)

(** X3. A round of the loop ends with an exception only in three
    ways: the poll itself raised it; or the poll delivered a transport
    error that brought the counter to the threshold, and the exception
    is the [KafkaException] of that error; or the exception is not an
    [Exception] (an interrupt).  In particular no [Exception] raised by
    a converter, the handler, [json.dumps], the delegate or the
    producer ends the loop.  A round never depends on fuel. *)
Theorem round_exits (c : Consumer) (ce : Z) (w w' : W) (r : result Z) (t : trace) :
  loop_body c ce w = (r, w', t) ->
  r <> OutOfFuel
  /\ forall e, r = Raise e ->
       oracle (RPoll 100) w = (Raises e, w')
       \/ (exists msg error,
             oracle (RPoll 100) w = (Returns (Some msg), w')
             /\ m_error msg = Some error
             /\ code error <> _PARTITION_EOF
             /\ max_consecutive_errors <= ce + 1
             /\ e = KafkaException error)
       \/ isinstance_Exception e = false.
Proof.
  intros Hb.
  destruct (oracle (RPoll 100) w) as [[[msg|]|e0] w1] eqn:Hp.
  - destruct (m_error msg) as [error|] eqn:He.
    + destruct (code error =? _PARTITION_EOF) eqn:Hc.
      * apply Z.eqb_eq in Hc.
        rewrite (loop_body_eof c ce w w1 msg error Hp He Hc) in Hb.
        injection Hb as <- _ _. split; [discriminate|]. discriminate.
      * apply Z.eqb_neq in Hc.
        destruct (Z.lt_ge_cases (ce + 1) max_consecutive_errors) as [Hlt|Hge].
        -- rewrite (loop_body_error c ce w w1 msg error Hp He Hc Hlt) in Hb.
           injection Hb as <- _ _. split; discriminate.
        -- rewrite (loop_body_fatal c ce w w1 msg error Hp He Hc Hge) in Hb.
           injection Hb as <- <- _. split; [discriminate|].
           intros e [= <-]. right. left. exists msg, error. auto.
    + destruct (loop_body_delivered c ce w w1 msg r w' t Hp He Hb) as [-> | (e & -> & Hne)].
      * split; discriminate.
      * split; [discriminate|]. intros e' [= <-]. auto.
  - rewrite (loop_body_empty c ce w w1 Hp) in Hb.
    injection Hb as <- _ _. split; discriminate.
  - unfold loop_body, bind, call in Hb. rewrite Hp in Hb.
    injection Hb as <- <- _. split; [discriminate|]. intros e [= <-]. auto.
Qed.

(** X4. The counter of consecutive errors stays between 0 and 4:
    after any number of completed rounds started within this range it
    is within this range again.  [start] begins at 0. *)
Theorem counter_stays_in_range (c : Consumer) (n : nat) :
  forall ce w ce' w' t,
    0 <= ce < max_consecutive_errors ->
    iterate n (loop_body c) ce w = (Ok ce', w', t) ->
    0 <= ce' < max_consecutive_errors.
Proof.
  assert (Hstep : forall ce w ce' w' t,
             0 <= ce < max_consecutive_errors ->
             loop_body c ce w = (Ok ce', w', t) ->
             0 <= ce' < max_consecutive_errors).
  { intros ce w ce' w' t Hr Hb.
    destruct (oracle (RPoll 100) w) as [[[msg|]|e0] w1] eqn:Hp.
    - destruct (m_error msg) as [error|] eqn:He.
      + destruct (code error =? _PARTITION_EOF) eqn:Hc.
        * apply Z.eqb_eq in Hc.
          rewrite (loop_body_eof c ce w w1 msg error Hp He Hc) in Hb.
          injection Hb as <- _ _. exact Hr.
        * apply Z.eqb_neq in Hc.
          destruct (Z.lt_ge_cases (ce + 1) max_consecutive_errors) as [Hlt|Hge].
          -- rewrite (loop_body_error c ce w w1 msg error Hp He Hc Hlt) in Hb.
             injection Hb as <- _ _. lia.
          -- rewrite (loop_body_fatal c ce w w1 msg error Hp He Hc Hge) in Hb.
             discriminate.
      + destruct (loop_body_delivered c ce w w1 msg _ w' t Hp He Hb)
          as [[= ->] | (e & [=] & _)].
        unfold max_consecutive_errors. lia.
    - rewrite (loop_body_empty c ce w w1 Hp) in Hb.
      injection Hb as <- _ _. exact Hr.
    - unfold loop_body, bind, call in Hb. rewrite Hp in Hb. discriminate. }
  induction n as [|n IH]; intros ce w ce' w' t Hr Hi; cbn [iterate] in Hi.
  - injection Hi as <- _ _. exact Hr.
  - unfold bind in Hi.
    destruct (loop_body c ce w) as [[[ce1|e|] w1] t1] eqn:Hb; try discriminate.
    destruct (iterate n (loop_body c) ce1 w1) as [[r2 w2] t2] eqn:Hi2.
    injection Hi as -> _ _.
    apply (IH ce1 w1 ce' w2 t2); [|exact Hi2].
    exact (Hstep _ _ _ _ _ Hr Hb).
Qed.

(** ** Publishing *)

Ltac split_innermost :=
  match goal with
  | |- context [match ?x with _ => _ end] =>
      lazymatch x with
      | context [match _ with _ => _ end] => fail
      | _ => destruct x eqn:?
      end
  end.

(** X5. The router publishes only to Kafka.  A [produce] call in
    the trace of [_publish_output_event] means that the consumer has a
    producer, that the event was serialized, that the delegate answered
    with a destination whose kind equals KAFKA, and that the call went
    to that destination's target with the serialized event as value
    and the event's id as key. *)
Theorem produce_only_for_kafka (c : Consumer) (ev : CloudEvent) (w : W)
    (tp : string) (v k : bytes) :
  In (ECall (RProduce tp v k)) (_publish_output_event c ev w).2 ->
  exists json dest w1,
    _producer c <> None
    /\ json_dumps (event_dict_of ev) = Returns json
    /\ oracle (RGetOutputDestination json) w = (Returns dest, w1)
    /\ dest_eqb (d_type dest) KAFKA = true
    /\ tp = d_target dest
    /\ v = encode_utf8 json
    /\ k = encode_utf8 (ce_id ev).
Proof.
  unfold _publish_output_event, _publish_to_kafka.
  destruct (_producer c) as [p|] eqn:Hp;
    [|cbn; intros [H|[]]; discriminate H].
  unfold bind, emit, of_reply, call, type_name, log, raise, ret.
  destruct (json_dumps (event_dict_of ev)) as [json|e] eqn:Hj;
    [|cbn; intros [H|[]]; discriminate H].
  destruct (oracle (RGetOutputDestination json) w) as [[dest|e] w1] eqn:Hd;
    [|cbn; intros [H|[H|[]]]; discriminate H].
  destruct (dest_name (d_type dest)) as [name|];
    [|cbn; intros [H|[H|[]]]; discriminate H].
  cbn.
  destruct (dest_eqb (d_type dest) KAFKA) eqn:Hk.
  - match goal with
    | |- _ -> ?G =>
        assert (Hgoal : In (ECall (RProduce tp v k))
                          [ECall (RProduce (d_target dest) (encode_utf8 json)
                                    (encode_utf8 (ce_id ev)))] -> G)
    end.
    { intros [Hin|[]]. injection Hin as <- <- <-.
      exists json, dest, w1. repeat split; auto; congruence. }
    destruct (oracle (RProduce _ _ _) w1) as [[u|e] w2].
    + destruct (oracle (RFlush None) w2) as [[u'|e] w3]; cbn; intros Hin;
        apply Hgoal;
        repeat (destruct Hin as [Hin|Hin]; [try discriminate Hin|]);
        try contradiction; left; exact Hin.
    + cbn. intros Hin. apply Hgoal.
      repeat (destruct Hin as [Hin|Hin]; [try discriminate Hin|]);
        try contradiction; left; exact Hin.
  - destruct (dest_eqb (d_type dest) DISCARD).
    + cbn. intros Hin.
      repeat (destruct Hin as [Hin|Hin]; [discriminate Hin|]). contradiction.
    + destruct (dest_eqb (d_type dest) HTTP || dest_eqb (d_type dest) RABBITMQ);
        cbn; intros Hin;
        repeat (destruct Hin as [Hin|Hin]; [discriminate Hin|]); contradiction.
Qed.

Lemma publish_output_event_at_most_once c ev w :
  (count is_produce (_publish_output_event c ev w).2 <= 1)%nat.
Proof.
  unfold _publish_output_event, _publish_to_kafka.
  unfold type_name, bind, log, emit, of_reply, call, raise, ret.
  repeat split_innermost; cbn; lia.
Qed.

(** ** One round *)

Lemma none_of_In p t e : none_of p t -> In e t -> p e = false.
Proof.
  unfold none_of. rewrite Forall_forall. intros H Hin. apply H.
  apply list_elem_of_In. exact Hin.
Qed.

Lemma invoke_handler_shape c ev w :
  exists t',
    (_invoke_handler c ev w).2 = ECall (RHandler ev) :: t'
    /\ none_of is_poll t' /\ none_of is_handler_call t'
    /\ (count is_produce t' <= 1)%nat
    /\ (_is_output_handler c = false -> t' = []).
Proof.
  unfold _invoke_handler, bind at 1, call at 1.
  destruct (_is_output_handler c).
  - destruct (oracle (RHandler ev) w) as [[[out|]|e] w1].
    + pose proof (publish_output_event_quiet c out w1) as Hq.
      pose proof (publish_output_event_at_most_once c out w1) as Hc.
      destruct (_publish_output_event c out w1) as [[r2 w2] t2]. cbn in *.
      exists t2. split; [reflexivity|]. split; [|split; [|split]].
      * eapply Forall_impl; [exact Hq|]. cbn. tauto.
      * eapply Forall_impl; [exact Hq|]. cbn. tauto.
      * exact Hc.
      * discriminate.
    + cbn. exists [].
      split; [reflexivity|]. split; [constructor|]. split; [constructor|].
      split; [cbn; lia|reflexivity].
    + cbn. exists [].
      split; [reflexivity|]. split; [constructor|]. split; [constructor|].
      split; [cbn; lia|reflexivity].
  - unfold bind, call.
    destruct (oracle (RHandler ev) w) as [[out|e] w1]; cbn; exists [];
      (split; [reflexivity|]); (split; [constructor|]); (split; [constructor|]);
      (split; [cbn; lia|reflexivity]).
Qed.

Lemma on_handler_error_quiet ev e :
  emits_only (fun x => is_poll x = false /\ is_handler_call x = false
                       /\ is_produce x = false)
    (on_handler_error ev e).
Proof. unfold on_handler_error, log. judge; repeat split. Qed.

Lemma guarded_invoke_shape c ev w :
  exists t' tb,
    (try_except_Exception (_invoke_handler c ev) (on_handler_error ev) w).2
    = ECall (RHandler ev) :: t' ++ tb
    /\ none_of is_poll (t' ++ tb) /\ none_of is_handler_call (t' ++ tb)
    /\ (count is_produce (t' ++ tb) <= 1)%nat
    /\ (_is_output_handler c = false -> count is_produce (t' ++ tb) = 0%nat).
Proof.
  destruct (invoke_handler_shape c ev w) as (t' & Ht & Hp & Hh & Hc & Hs).
  unfold try_except_Exception.
  destruct (_invoke_handler c ev w) as [[r1 w1] t1]. cbn in Ht. subst t1.
  assert (Hnil : exists tb, tb = @nil event) by eauto.
  assert (Hfin : forall tb,
             none_of is_poll tb -> none_of is_handler_call tb ->
             none_of is_produce tb ->
             none_of is_poll (t' ++ tb) /\ none_of is_handler_call (t' ++ tb)
             /\ (count is_produce (t' ++ tb) <= 1)%nat
             /\ (_is_output_handler c = false ->
                 count is_produce (t' ++ tb) = 0%nat)).
  { intros tb H1 H2 H3. split; [apply none_of_app; assumption|].
    split; [apply none_of_app; assumption|].
    rewrite count_app, (none_of_count _ _ H3). split; [lia|].
    intros Hf. rewrite (Hs Hf). reflexivity. }
  destruct r1 as [u|e|].
  - exists t', []. cbn. rewrite app_nil_r. split; [reflexivity|].
    rewrite <- (app_nil_r t') at 1 2 3 4. apply Hfin; constructor.
  - destruct (isinstance_Exception e).
    + pose proof (on_handler_error_quiet ev e w1) as Hq.
      destruct (on_handler_error ev e w1) as [[r2 w2] t2]. cbn in *.
      exists t', t2. split; [reflexivity|].
      apply Hfin; (eapply Forall_impl; [exact Hq|]; cbn; tauto).
    + exists t', []. cbn. rewrite app_nil_r. split; [reflexivity|].
      rewrite <- (app_nil_r t') at 1 2 3 4. apply Hfin; constructor.
  - exists t', []. cbn. rewrite app_nil_r. split; [reflexivity|].
    rewrite <- (app_nil_r t') at 1 2 3 4. apply Hfin; constructor.
Qed.

(** X6. Every round polls exactly once, calls the handler at most
    once and publishes at most once.  The handler is called exactly
    for a message delivered without error that decodes to an event,
    and it is called with that event.  A SIMPLE consumer never
    publishes. *)
Theorem round_accounting (c : Consumer) (ce : Z) (w w' : W) (r : result Z)
    (t : trace) :
  loop_body c ce w = (r, w', t) ->
  count is_poll t = 1%nat
  /\ (count is_handler_call t <= 1)%nat
  /\ (count is_produce t <= 1)%nat
  /\ (forall ev,
        In (ECall (RHandler ev)) t
        <-> exists msg w1 w2 t1,
              oracle (RPoll 100) w = (Returns (Some msg), w1)
              /\ m_error msg = None
              /\ _parse_cloud_event msg w1 = (Ok (Some ev), w2, t1))
  /\ (_is_output_handler c = false -> count is_produce t = 0%nat).
Proof.
  intros Hb.
  assert (Hsimple : forall tq,
             t = ECall (RPoll 100) :: tq ->
             none_of is_poll tq -> none_of is_handler_call tq ->
             none_of is_produce tq ->
             count is_poll t = 1%nat
             /\ (count is_handler_call t <= 1)%nat
             /\ (count is_produce t <= 1)%nat
             /\ (forall ev, ~ In (ECall (RHandler ev)) t)
             /\ (_is_output_handler c = false -> count is_produce t = 0%nat)).
  { intros tq -> H1 H2 H3. cbn.
    rewrite (none_of_count _ _ H1), (none_of_count _ _ H2), (none_of_count _ _ H3).
    repeat split; try lia.
    intros ev [Hin|Hin]; [discriminate Hin|].
    pose proof (none_of_In _ _ _ H2 Hin) as Hf. discriminate Hf. }
  assert (Hno : forall tq,
             t = ECall (RPoll 100) :: tq ->
             none_of is_poll tq -> none_of is_handler_call tq ->
             none_of is_produce tq ->
             (forall ev msg w1 w2 t1,
                 oracle (RPoll 100) w = (Returns (Some msg), w1) ->
                 m_error msg = None ->
                 _parse_cloud_event msg w1 <> (Ok (Some ev), w2, t1)) ->
             count is_poll t = 1%nat
             /\ (count is_handler_call t <= 1)%nat
             /\ (count is_produce t <= 1)%nat
             /\ (forall ev,
                   In (ECall (RHandler ev)) t
                   <-> exists msg w1 w2 t1,
                         oracle (RPoll 100) w = (Returns (Some msg), w1)
                         /\ m_error msg = None
                         /\ _parse_cloud_event msg w1 = (Ok (Some ev), w2, t1))
             /\ (_is_output_handler c = false -> count is_produce t = 0%nat)).
  { intros tq Ht H1 H2 H3 Hnp.
    destruct (Hsimple tq Ht H1 H2 H3) as (A & B & C & D & E).
    repeat split; try assumption.
    - intros Hin. exfalso. exact (D ev Hin).
    - intros (msg & w1 & w2 & t1 & Hp & He & Hparse). exfalso.
      exact (Hnp ev msg w1 w2 t1 Hp He Hparse). }
  destruct (oracle (RPoll 100) w) as [[[msg|]|e0] w1] eqn:Hp.
  - destruct (m_error msg) as [error|] eqn:He.
    + assert (Hnd : forall ev msg0 w0 w2 t1,
                 (Returns (Some msg), w1) = (Returns (Some msg0), w0) ->
                 m_error msg0 = None ->
                 _parse_cloud_event msg0 w0 <> (Ok (Some ev), w2, t1)).
      { intros ev msg0 w0 w2 t1 [= <- <-] Hn. congruence. }
      destruct (code error =? _PARTITION_EOF) eqn:Hc.
      * apply Z.eqb_eq in Hc.
        rewrite (loop_body_eof c ce w w1 msg error Hp He Hc) in Hb.
        injection Hb as _ _ <-. apply (Hno []); try constructor; auto.
      * apply Z.eqb_neq in Hc.
        destruct (Z.lt_ge_cases (ce + 1) max_consecutive_errors) as [Hlt|Hge].
        -- rewrite (loop_body_error c ce w w1 msg error Hp He Hc Hlt) in Hb.
           injection Hb as _ _ <-. eapply Hno; [reflexivity| | | |exact Hnd];
             repeat constructor.
        -- rewrite (loop_body_fatal c ce w w1 msg error Hp He Hc Hge) in Hb.
           injection Hb as _ _ <-. eapply Hno; [reflexivity| | | |exact Hnd];
             repeat constructor.
    + unfold loop_body, bind at 1, call in Hb. rewrite Hp, He in Hb.
      unfold bind at 1 in Hb.
      pose proof (parse_cloud_event_quiet msg w1) as Hq.
      destruct (_parse_cloud_event msg w1) as [[[[ev|]|e|] w2] t1] eqn:Hparse;
        cbn in Hq.
      * unfold bind in Hb.
        destruct (guarded_invoke_shape c ev w2) as (t' & tb & Ht & G1 & G2 & G3 & G4).
        destruct (try_except_Exception (_invoke_handler c ev) (on_handler_error ev) w2)
          as [[r2 w3] t2]. cbn in Ht. subst t2.
        assert (Htr : t = ECall (RPoll 100) :: t1 ++ ECall (RHandler ev) :: t' ++ tb).
        { destruct r2; cbn in Hb; injection Hb as _ _ <-;
            rewrite ?app_nil_r; reflexivity. }
        clear Hb. subst t.
        assert (Q1 : none_of is_poll t1)
          by (eapply Forall_impl; [exact Hq|]; cbn; tauto).
        assert (Q2 : none_of is_handler_call t1)
          by (eapply Forall_impl; [exact Hq|]; cbn; tauto).
        assert (Q3 : none_of is_produce t1).
        { eapply Forall_impl; [exact Hq|]. cbn. intros x (_ & _ & Hx).
          destruct x as [[]| | | | |]; try reflexivity; discriminate Hx. }
        cbn [count is_poll is_handler_call is_produce]. rewrite !count_app.
        cbn [count is_poll is_handler_call is_produce].
        rewrite (none_of_count _ _ Q1), (none_of_count _ _ Q2), (none_of_count _ _ Q3).
        rewrite (none_of_count _ _ G1), (none_of_count _ _ G2).
        split; [reflexivity|]. split; [cbn; lia|]. split; [cbn; lia|]. split.
        -- intros ev'. split.
           ++ intros [Hin|Hin]; [discriminate Hin|].
              apply in_app_or in Hin as [Hin|[Hin|Hin]].
              ** pose proof (none_of_In _ _ _ Q2 Hin) as Hf. discriminate Hf.
              ** injection Hin as <-. exists msg, w1, w2, t1. auto.
              ** pose proof (none_of_In _ _ _ G2 Hin) as Hf. discriminate Hf.
           ++ intros (msg0 & w0 & w2' & t1' & [= <- <-] & _ & Hparse').
              rewrite Hparse in Hparse'. injection Hparse' as <- _ _.
              right. apply in_or_app. right. left. reflexivity.
        -- intros Hs. cbn. rewrite (G4 Hs). reflexivity.
      * cbn in Hb. rewrite app_nil_r in Hb. injection Hb as _ _ <-.
        apply (Hno t1); try reflexivity;
          try (eapply Forall_impl; [exact Hq|]; cbn; tauto).
        -- eapply Forall_impl; [exact Hq|]. cbn. intros x (_ & _ & Hx).
           destruct x as [[]| | | | |]; try reflexivity; discriminate Hx.
        -- intros ev msg0 w0 w2' t1' [= <- <-] _. rewrite Hparse. discriminate.
      * injection Hb as _ _ <-.
        apply (Hno t1); try reflexivity;
          try (eapply Forall_impl; [exact Hq|]; cbn; tauto).
        -- eapply Forall_impl; [exact Hq|]. cbn. intros x (_ & _ & Hx).
           destruct x as [[]| | | | |]; try reflexivity; discriminate Hx.
        -- intros ev msg0 w0 w2' t1' [= <- <-] _. rewrite Hparse. discriminate.
      * pose proof (safe_parse_cloud_event msg w1) as Hsafe.
        rewrite Hparse in Hsafe. contradiction.
  - rewrite (loop_body_empty c ce w w1 Hp) in Hb. injection Hb as _ _ <-.
    apply (Hno []); try constructor; auto; intros; discriminate.
  - unfold loop_body, bind, call in Hb. rewrite Hp in Hb. injection Hb as _ _ <-.
    apply (Hno []); try constructor; auto; intros; discriminate.
Qed.

(** ** Construction failures *)

(** X7. [__init__] stops at the first step that raises and never
    releases anything.  When the delegate cannot give the Kafka
    configuration, nothing has been created.  When [subscribe] raises,
    or, for an output handler, when creating the producer raises, the
    Kafka consumer created before stays open: no close call follows. *)
Theorem construction_stops_at_first_failure (core0 : Core) (handler0 : Handler)
    (w : W) :
  none_of is_release (__init__ core0 handler0 w).2
  /\ (forall e w1,
        oracle RGetKafkaConfig w = (Raises e, w1) ->
        __init__ core0 handler0 w = (Raise e, w1, [ECall RGetKafkaConfig]))
  /\ (forall config w1 w2 e w3,
        oracle RGetKafkaConfig w = (Returns config, w1) ->
        oracle (RNewKafkaConsumer
                  [("bootstrap.servers", PStr (broker config));
                   ("group.id", PStr (group config));
                   ("auto.offset.reset", PStr "earliest");
                   ("enable.auto.commit", PBool true)]) w1 = (Returns tt, w2) ->
        oracle (RSubscribe [topic config]) w2 = (Raises e, w3) ->
        __init__ core0 handler0 w
        = (Raise e, w3,
           [ECall RGetKafkaConfig;
            ELog INFO "Kafka configuration loaded"
              [("broker", PStr (broker config)); ("topic", PStr (topic config));
               ("group", PStr (group config))];
            ECall (RNewKafkaConsumer
                     [("bootstrap.servers", PStr (broker config));
                      ("group.id", PStr (group config));
                      ("auto.offset.reset", PStr "earliest");
                      ("enable.auto.commit", PBool true)]);
            ECall (RSubscribe [topic config])]))
  /\ (forall config w1 w2 w3 e w4,
        _detect_output_handler handler0 = true ->
        oracle RGetKafkaConfig w = (Returns config, w1) ->
        oracle (RNewKafkaConsumer
                  [("bootstrap.servers", PStr (broker config));
                   ("group.id", PStr (group config));
                   ("auto.offset.reset", PStr "earliest");
                   ("enable.auto.commit", PBool true)]) w1 = (Returns tt, w2) ->
        oracle (RSubscribe [topic config]) w2 = (Returns tt, w3) ->
        oracle (RNewProducer [("bootstrap.servers", PStr (broker config))]) w3
        = (Raises e, w4) ->
        exists t,
          __init__ core0 handler0 w = (Raise e, w4, t)
          /\ In (ECall (RSubscribe [topic config])) t
          /\ none_of is_release t).
Proof.
  assert (Hnone : none_of is_release (__init__ core0 handler0 w).2).
  { assert (H : emits_only (fun e => is_release e = false) (__init__ core0 handler0))
      by (unfold __init__, log; judge; reflexivity).
    apply H. }
  split; [exact Hnone|]. split; [|split].
  - intros e w1 H1. unfold __init__, bind, call. rewrite H1. reflexivity.
  - intros config w1 w2 e w3 H1 H2 H3.
    unfold __init__, bind, call, log, emit. rewrite H1. cbn. rewrite H2. cbn.
    rewrite H3. reflexivity.
  - intros config w1 w2 w3 e w4 Hd H1 H2 H3 H4.
    revert Hnone.
    unfold __init__, bind, call, log, emit. rewrite Hd, H1. cbn. rewrite H2. cbn.
    rewrite H3. cbn. rewrite H4. cbn. intros Hnone.
    eexists. split; [reflexivity|]. split; [|exact Hnone].
    cbn. tauto.
Qed.

(** ** Header conversion *)

Lemma convert_headers_lookup msg_headers :
  forall (headers : gmap string bytes) (key : string),
    convert_headers msg_headers headers !! key
    = match header_lookup key msg_headers with
      | Some b => Some b
      | None => headers !! key
      end.
Proof.
  induction msg_headers as [|[k v] rest IH]; intros headers key.
  - reflexivity.
  - cbn [convert_headers header_lookup]. rewrite IH.
    destruct (header_lookup key rest) as [b|]; [reflexivity|].
    destruct v as [|s|b|]; cbn [header_bytes];
      destruct (decide (k = key)) as [->|Hne];
      rewrite ?lookup_insert_eq, ?lookup_insert_ne by exact Hne; reflexivity.
Qed.

(** X8. The message handed to the converters carries the value and
    the key of the Kafka message unchanged, and for every header name
    the bytes of the last header of that name whose value is a [str]
    (UTF-8 encoded) or [bytes].  Headers whose value is [None] or of
    another type are ignored: they neither add a name nor remove an
    earlier value.  Without a header list there are no headers. *)
Theorem kafka_message_headers (msg : Message) (value : bytes) (key : string) :
  km_value (to_kafka_message msg value) = value
  /\ km_key (to_kafka_message msg value) = m_key msg
  /\ km_headers (to_kafka_message msg value) !! key
     = match m_headers msg with
       | Some msg_headers => header_lookup key msg_headers
       | None => None
       end.
Proof.
  split; [reflexivity|]. split; [reflexivity|].
  unfold to_kafka_message. cbn [km_headers].
  destruct (m_headers msg) as [hs|]; [|apply lookup_empty].
  rewrite convert_headers_lookup, lookup_empty.
  destruct (header_lookup key hs); reflexivity.
Qed.

Lemma start_loop_no_release c fuel :
  emits_only (fun e => is_release e = false)
    (try_except_KeyboardInterrupt
       (@while_true W Z unit fuel (loop_body c) 0)
       (log INFO "Consumer interrupted" [])).
Proof.
  unfold log. judge; try reflexivity. apply emits_only_while_true. intros st.
  unfold loop_body, _parse_cloud_event, _invoke_handler, _publish_output_event,
    _publish_to_kafka, type_name, on_handler_error, log.
  judge; reflexivity.
Qed.

Lemma close_core_close_count c w :
  (count is_core_close (close c w).2 <= 1)%nat
  /\ ((close c w).1.1 = Ok tt -> count is_core_close (close c w).2 = 1%nat).
Proof.
  unfold close, bind, call, log, emit, ret.
  repeat split_innermost; cbn; split; try lia; try reflexivity; discriminate.
Qed.

Lemma start_core_close_count c fuel w r w' t :
  start c fuel w = (r, w', t) ->
  (count is_core_close t <= 1)%nat
  /\ (r = Ok tt -> count is_core_close t = 1%nat).
Proof.
  unfold start. destruct (_consumer c) as [kc|].
  - unfold bind, emit, try_finally.
    fold (log INFO "Starting consumer" []). unfold log at 1, emit.
    pose proof (start_loop_no_release c fuel w) as Hloop.
    destruct (try_except_KeyboardInterrupt _ _ w) as [[r1 w1] t1]. cbn in Hloop.
    assert (H1 : count is_core_close t1 = 0%nat).
    { apply none_of_count. eapply Forall_impl; [exact Hloop|]. cbn.
      intros [[]| | | | |]; cbn; congruence. }
    destruct (close_core_close_count c w1) as [Hle Hone].
    destruct (close c w1) as [[r2 w2] t2]. cbn in Hle, Hone.
    destruct r1 as [u|e|].
    + destruct r2 as [[]|e2|]; intros [= <- _ <-]; cbn; rewrite count_app, H1;
        (split; [cbn; lia|]); try discriminate.
      intros _. cbn. rewrite Hone; reflexivity.
    + destruct r2 as [[]|e2|]; intros [= <- _ <-]; cbn; rewrite count_app, H1;
        (split; [cbn; lia|]); discriminate.
    + intros [= <- _ <-]. cbn. rewrite H1. split; [lia|discriminate].
  - cbn. intros [= <- _ <-]. cbn. split; [lia|discriminate].
Qed.

(** ** Starting the consumer *)

(** X9. [_get_caller_directory] gives the parent of the first frame
    whose path does not mention [eda_sdk], and nothing when every
    frame mentions it.  The test is on the whole path: a caller whose
    own path contains [eda_sdk] anywhere is passed over like a frame
    of the SDK. *)
Theorem caller_directory_first_outside (parent : string -> string) (stack : list string) :
  (forall d,
      _get_caller_directory parent stack = Some d
      <-> exists pre f post,
            stack = pre ++ f :: post
            /\ Forall (fun p => str_contains "eda_sdk" p = true) pre
            /\ str_contains "eda_sdk" f = false
            /\ d = parent f)
  /\ (_get_caller_directory parent stack = None
      <-> Forall (fun p => str_contains "eda_sdk" p = true) stack).
Proof.
  induction stack as [|f stack [IHs IHn]].
  - split.
    + intros d. split; [discriminate|].
      intros (pre & f & post & H & _). destruct pre; discriminate H.
    + split; [constructor|reflexivity].
  - cbn [_get_caller_directory].
    destruct (str_contains "eda_sdk" f) eqn:Hf; cbn [negb].
    + split.
      * intros d. rewrite IHs. split.
        -- intros (pre & g & post & -> & Hpre & Hg & ->).
           exists (f :: pre), g, post. repeat split; auto.
        -- intros (pre & g & post & H & Hpre & Hg & ->).
           destruct pre as [|p pre].
           ++ injection H as -> _. congruence.
           ++ injection H as -> ->. inversion Hpre; subst.
              exists pre, g, post. repeat split; auto.
      * rewrite IHn. split.
        -- intros H. constructor; assumption.
        -- intros H. inversion H; assumption.
    + split.
      * intros d. split.
        -- intros [= <-]. exists [], f, stack. repeat split; auto.
        -- intros (pre & g & post & H & Hpre & Hg & ->).
           destruct pre as [|p pre].
           ++ injection H as -> _. reflexivity.
           ++ injection H as -> ->. inversion Hpre; subst. congruence.
      * split; [discriminate|]. intros H. inversion H; subst. congruence.
Qed.

(** What [run_with_core] does once the routing step is over. *)
Lemma run_with_core_after_routing rt core handler fuel w w0 t0 :
  routing_step_done rt w w0 t0 ->
  run_with_core rt core handler fuel w
  = (let '(r, w', t) :=
       bind (try_except_Exception (__init__ core handler)
               (fun e => raise (RuntimeError ("Failed to create consumer: "
                                              +:+ str_exc e))))
         (fun consumer =>
            bind (outside (register_signal_handlers rt))
              (fun _ =>
                 bind (log INFO "Starting EDA consumer..." [])
                   (fun _ =>
                      try_except_Exception (start consumer fuel)
                        (fun e => bind (log ERROR ("Consumer error: " +:+ str_exc e) [])
                                    (fun _ => raise e))))) w0 in
     (r, w', t0 ++ t)).
Proof.
  unfold routing_step_done, run_with_core. intros Hdone.
  destruct (_get_caller_directory (parent rt) (frames rt)) as [d|].
  - unfold bind at 1. unfold bind at 1, outside at 1. cbn [fst snd].
    destruct (file_exists rt (joinpath rt d "routing.yaml") w).
    + destruct Hdone as [Hload ->].
      unfold bind at 1, log at 1, emit at 1, try_except_Exception at 1, outside at 1.
      rewrite Hload. cbn.
      match goal with |- (let (_, _) := ?x in _) = _ => destruct x as [[r w'] t] end.
      reflexivity.
    + destruct Hdone as [-> ->]. cbn.
      match goal with |- (let (_, _) := ?x in _) = _ => destruct x as [[r w'] t] end.
      reflexivity.
  - destruct Hdone as [-> ->]. unfold bind at 1, ret at 1. cbn.
    match goal with |- (let (_, _) := ?x in _) = _ => destruct x as [[r w'] t] end.
    reflexivity.
Qed.

(** A normal return of [run_with_core], taken apart. *)
Lemma run_with_core_returns rt core handler fuel w w' t :
  run_with_core rt core handler fuel w = (Ok tt, w', t) ->
  exists w0 t0 c w1 t1 w2 t3,
    routing_step_done rt w w0 t0
    /\ __init__ core handler w0 = (Ok c, w1, t1)
    /\ register_signal_handlers rt w1 = (Returns tt, w2)
    /\ start c fuel w2 = (Ok tt, w', t3)
    /\ t = t0 ++ t1 ++ ELog INFO "Starting EDA consumer..." [] :: t3.
Proof.
  intros Hrun.
  assert (Hstep : (exists w0 t0, routing_step_done rt w w0 t0)
                  \/ (run_with_core rt core handler fuel w).1.1 <> Ok tt).
  { unfold routing_step_done, run_with_core.
    destruct (_get_caller_directory (parent rt) (frames rt)) as [d|];
      [|left; exists w, []; split; reflexivity].
    unfold bind at 1. unfold bind at 1, outside at 1. cbn [fst snd].
    destruct (file_exists rt (joinpath rt d "routing.yaml") w);
      [|left; exists w, []; split; reflexivity].
    destruct (core_load_routing_config rt (joinpath rt d "routing.yaml") w)
      as [[[]|e] w0] eqn:Hload.
    - left. eexists; eexists; split; reflexivity.
    - right. unfold bind, log, emit, try_except_Exception, outside, raise.
      rewrite Hload. cbn. destruct (isinstance_Exception e); cbn; discriminate. }
  destruct Hstep as [(w0 & t0 & Hdone) | Hne]; [|rewrite Hrun in Hne; cbn in Hne; congruence].
  rewrite (run_with_core_after_routing rt core handler fuel w w0 t0 Hdone) in Hrun.
  unfold bind, try_except_Exception, outside, log, emit, raise in Hrun.
  destruct (__init__ core handler w0) as [[[c|e|] w1] t1] eqn:Hi;
    [| destruct (isinstance_Exception e); discriminate | discriminate].
  destruct (register_signal_handlers rt w1) as [[[]|e] w2] eqn:Hreg; [|discriminate].
  cbn in Hrun.
  destruct (start c fuel w2) as [[[[]|e|] w3] t3] eqn:Hs;
    [| destruct (isinstance_Exception e); discriminate | discriminate].
  injection Hrun as <- <-.
  exists w0, t0, c, w1, t1, w2, t3. repeat split; try assumption; reflexivity.
Qed.

(** X10. Failures before the first poll.  When a [routing.yaml]
    lies beside the caller and the delegate raises an [Exception]
    while loading it, [run_with_core] raises [RuntimeError("Failed to
    load routing config: ...")] and has called neither the delegate's
    other operations nor Kafka.  In every other case in which loading
    does not raise, the routing step is over (nothing to load, or
    loaded), and then: when the consumer cannot be constructed,
    [run_with_core] raises [RuntimeError("Failed to create consumer:
    ...")] and nothing is polled; when the signal handlers cannot be
    registered, the exception passes unchanged, and the consumer that
    was constructed is neither started nor closed. *)
Theorem startup_failures (rt : Runtime W) (core : Core) (handler : Handler) (fuel : nat) (w : W) :
  (forall d e w1,
      _get_caller_directory (parent rt) (frames rt) = Some d ->
      file_exists rt (joinpath rt d "routing.yaml") w = true ->
      core_load_routing_config rt (joinpath rt d "routing.yaml") w = (Raises e, w1) ->
      isinstance_Exception e = true ->
      run_with_core rt core handler fuel w
      = (Raise (RuntimeError ("Failed to load routing config: " +:+ str_exc e)), w1,
         [ELog INFO ("Loading routing configuration from " +:+ joinpath rt d "routing.yaml") [];
          ERaise (RuntimeError ("Failed to load routing config: " +:+ str_exc e))]))
  /\ ((exists w0 t0, routing_step_done rt w w0 t0)
      \/ (exists d e w1,
            _get_caller_directory (parent rt) (frames rt) = Some d
            /\ file_exists rt (joinpath rt d "routing.yaml") w = true
            /\ core_load_routing_config rt (joinpath rt d "routing.yaml") w
               = (Raises e, w1)))
  /\ (forall w0 t0 e w1 t,
        routing_step_done rt w w0 t0 ->
        __init__ core handler w0 = (Raise e, w1, t) ->
        isinstance_Exception e = true ->
        run_with_core rt core handler fuel w
        = (Raise (RuntimeError ("Failed to create consumer: " +:+ str_exc e)), w1,
           t0 ++ t ++ [ERaise (RuntimeError ("Failed to create consumer: " +:+ str_exc e))])
        /\ none_of is_poll (t0 ++ t))
  /\ (forall w0 t0 c e w1 w2 t,
        routing_step_done rt w w0 t0 ->
        __init__ core handler w0 = (Ok c, w1, t) ->
        register_signal_handlers rt w1 = (Raises e, w2) ->
        run_with_core rt core handler fuel w = (Raise e, w2, t0 ++ t)
        /\ none_of is_poll (t0 ++ t) /\ none_of is_release (t0 ++ t)).
Proof.
  assert (Hinit : emits_only (fun e => is_poll e = false /\ is_release e = false)
                    (__init__ core handler)).
  { unfold __init__, log.
    repeat first
      [ apply emits_only_ret | apply emits_only_log | apply emits_only_call
      | apply emits_only_bind; [|intros ?]
      | match goal with
        | |- emits_only _ (if ?b then _ else _) => destruct b
        end
      | split; reflexivity ]. }
  assert (Hrouting : forall w0 t0,
             routing_step_done rt w w0 t0 ->
             Forall (fun e => is_poll e = false /\ is_release e = false) t0).
  { unfold routing_step_done. intros w0 t0 Hdone.
    destruct (_get_caller_directory (parent rt) (frames rt)) as [d|].
    - destruct (file_exists rt (joinpath rt d "routing.yaml") w).
      + destruct Hdone as [_ ->]. repeat constructor.
      + destruct Hdone as [_ ->]. constructor.
    - destruct Hdone as [_ ->]. constructor. }
  assert (Hquiet : forall w0 t0 r w1 t,
             routing_step_done rt w w0 t0 ->
             __init__ core handler w0 = (r, w1, t) ->
             none_of is_poll (t0 ++ t) /\ none_of is_release (t0 ++ t)).
  { intros w0 t0 r w1 t Hdone Hi.
    specialize (Hinit w0). rewrite Hi in Hinit. cbn in Hinit.
    pose proof (Hrouting w0 t0 Hdone) as H0.
    split; apply Forall_app; split;
      (eapply Forall_impl; [eassumption|]; cbn; tauto). }
  split; [|split; [|split]].
  - intros d e w1 Hd Hex Hload He.
    unfold run_with_core. rewrite Hd.
    unfold bind, outside, log, emit, try_except_Exception, raise.
    rewrite Hex. cbn. rewrite Hload, He. reflexivity.
  - unfold routing_step_done.
    destruct (_get_caller_directory (parent rt) (frames rt)) as [d|];
      [|left; exists w, []; split; reflexivity].
    destruct (file_exists rt (joinpath rt d "routing.yaml") w) eqn:Hex;
      [|left; exists w, []; split; reflexivity].
    destruct (core_load_routing_config rt (joinpath rt d "routing.yaml") w)
      as [[[]|e] w0] eqn:Hload.
    + left. eexists; eexists; split; reflexivity.
    + right. exists d, e, w0. repeat split; assumption.
  - intros w0 t0 e w1 t Hdone Hi He.
    rewrite (run_with_core_after_routing rt core handler fuel w w0 t0 Hdone).
    unfold bind, try_except_Exception, raise. rewrite Hi, He.
    split; [reflexivity|]. exact (proj1 (Hquiet w0 t0 _ w1 t Hdone Hi)).
  - intros w0 t0 c e w1 w2 t Hdone Hi Hreg.
    rewrite (run_with_core_after_routing rt core handler fuel w w0 t0 Hdone).
    unfold bind, try_except_Exception, outside. rewrite Hi. cbn. rewrite Hreg.
    rewrite app_nil_r. split; [reflexivity|]. exact (Hquiet w0 t0 _ w1 t Hdone Hi).
Qed.

(** X11. [run] closes the delegate once more on its way out.  When
    the delegate cannot be created, nothing else happens.  Otherwise,
    however [run_with_core] ends, the delegate's [close] is called
    after it, as the last call.  When [run_with_core] returns
    normally, this is the second [close] of the delegate, the first
    being the one of [Consumer.close]. *)
Theorem run_closes_delegate (rt : Runtime W) (handler : Handler) (fuel : nat) (w : W) :
  (forall e w1, new_core rt w = (Raises e, w1) -> run rt handler fuel w = (Raise e, w1, []))
  /\ (forall core w1 r w2 t,
        new_core rt w = (Returns core, w1) ->
        run_with_core rt core handler fuel w1 = (r, w2, t) ->
        r <> OutOfFuel ->
        exists r' w3,
          run rt handler fuel w = (r', w3, t ++ [ECall RCoreClose])
          /\ r' <> OutOfFuel)
  /\ (forall core w1 w2 t,
        new_core rt w = (Returns core, w1) ->
        run_with_core rt core handler fuel w1 = (Ok tt, w2, t) ->
        count is_core_close (run rt handler fuel w).2 = 2%nat).
Proof.
  assert (Hfin : forall core w1 r w2 t,
             new_core rt w = (Returns core, w1) ->
             run_with_core rt core handler fuel w1 = (r, w2, t) ->
             r <> OutOfFuel ->
             exists r' w3,
               run rt handler fuel w = (r', w3, t ++ [ECall RCoreClose])
               /\ r' <> OutOfFuel).
  { intros core w1 r w2 t Hn Hr Hne.
    unfold run, bind at 1, outside. rewrite Hn. cbn.
    unfold try_finally. rewrite Hr. unfold bind, call, ret.
    destruct (oracle RCoreClose w2) as [[u|e] w3]; destruct r as [u'|e'|];
      try congruence; cbn; rewrite ?app_nil_r;
      do 2 eexists; (split; [reflexivity|discriminate]). }
  split; [|split; [exact Hfin|]].
  - intros e w1 Hn. unfold run, bind, outside. rewrite Hn. reflexivity.
  - intros core w1 w2 t Hn Hr.
    destruct (run_with_core_returns rt core handler fuel w1 w2 t Hr)
      as (w0 & t0 & c & w1' & t1 & w2' & t3 & Hdone & Hi & Hreg & Hs & ->).
    destruct (Hfin core w1 _ _ _ Hn Hr ltac:(discriminate)) as (r' & w5 & -> & _).
    cbn [snd]. rewrite !count_app. cbn [count is_core_close].
    destruct (start_core_close_count c fuel w2' _ _ _ Hs) as [_ Hone].
    rewrite (Hone eq_refl).
    assert (H1 : count is_core_close t1 = 0%nat).
    { assert (Hq : emits_only (fun e => is_core_close e = false)
                     (__init__ core handler)).
      { unfold __init__, log.
        repeat first
          [ apply emits_only_ret | apply emits_only_log | apply emits_only_call
          | apply emits_only_bind; [|intros ?]
          | match goal with
            | |- emits_only _ (if ?b then _ else _) => destruct b
            end
          | reflexivity ]. }
      specialize (Hq w0). rewrite Hi in Hq. apply none_of_count. exact Hq. }
    assert (H0 : count is_core_close t0 = 0%nat).
    { revert Hdone. unfold routing_step_done.
      destruct (_get_caller_directory (parent rt) (frames rt)) as [d|].
      - destruct (file_exists rt (joinpath rt d "routing.yaml") w1);
          intros [_ ->]; reflexivity.
      - intros [_ ->]. reflexivity. }
    rewrite H0, H1. reflexivity.
Qed.
End WithWorld.

(** * Properties of the FFI delegate *)

Section FFICoreProperties.

Context {L : Type}.
Variable lib : forall r : LibReq, L -> LibResp r * L.
Variable decode_utf8 : bytes -> reply string.

Lemma DestinationType_of_value_inv v t :
  DestinationType_of_value v = Some t -> DestinationType_value t = v.
Proof.
  unfold DestinationType_of_value.
  destruct (v =? 0) eqn:H0; [intros [= <-]; cbn; lia|].
  destruct (v =? 1) eqn:H1; [intros [= <-]; cbn; lia|].
  destruct (v =? 2) eqn:H2; [intros [= <-]; cbn; lia|].
  destruct (v =? 3) eqn:H3; [intros [= <-]; cbn; lia|].
  discriminate.
Qed.

Lemma DestinationType_of_value_None v :
  DestinationType_of_value v = None <-> v < 0 \/ 3 < v.
Proof.
  unfold DestinationType_of_value.
  destruct (v =? 0) eqn:H0; [split; [discriminate|lia]|].
  destruct (v =? 1) eqn:H1; [split; [discriminate|lia]|].
  destruct (v =? 2) eqn:H2; [split; [discriminate|lia]|].
  destruct (v =? 3) eqn:H3; [split; [discriminate|lia]|].
  split; [lia|reflexivity].
Qed.

(** X12. [DestinationType(value)] and [.value] are inverse to each
    other: every member is recovered from its value, and a value
    denotes a member only if it is that member's value, so exactly the
    values 0 to 3 denote one. *)
Theorem DestinationType_value_round_trip :
  (forall t, DestinationType_of_value (DestinationType_value t) = Some t)
  /\ (forall v t, DestinationType_of_value v = Some t -> DestinationType_value t = v)
  /\ (forall v, DestinationType_of_value v = None <-> v < 0 \/ 3 < v).
Proof.
  split; [|split].
  - intros []; reflexivity.
  - exact DestinationType_of_value_inv.
  - exact DestinationType_of_value_None.
Qed.

(** X13. [get_kafka_config] asks for broker, topic and group in this
    order and frees each string right after decoding it.  The first
    NULL stops it with a [RuntimeError] naming the missing setting; the
    settings after it are not asked for, and the strings received
    before it have been freed.  When all three arrive, the result
    holds their decoded texts.  A string that fails to decode is not
    freed. *)
Theorem get_kafka_config_frees_strings (l : L) :
  (forall l1,
      lib eda_get_kafka_broker l = (None, l1) ->
      FFICore.get_kafka_config lib decode_utf8 l
      = (Raises (RuntimeError "Failed to get Kafka broker"), l1,
         [eda_get_kafka_broker]))
  /\ (forall pb l1 e,
        lib eda_get_kafka_broker l = (Some pb, l1) ->
        decode_utf8 (s_bytes pb) = Raises e ->
        FFICore.get_kafka_config lib decode_utf8 l
        = (Raises e, l1, [eda_get_kafka_broker]))
  /\ (forall pb l1 b l2 l3,
        lib eda_get_kafka_broker l = (Some pb, l1) ->
        decode_utf8 (s_bytes pb) = Returns b ->
        lib (eda_free_string pb) l1 = (tt, l2) ->
        lib eda_get_kafka_topic l2 = (None, l3) ->
        FFICore.get_kafka_config lib decode_utf8 l
        = (Raises (RuntimeError "Failed to get Kafka topic"), l3,
           [eda_get_kafka_broker; eda_free_string pb; eda_get_kafka_topic]))
  /\ (forall pb l1 b l2 pt l3 tp l4 l5,
        lib eda_get_kafka_broker l = (Some pb, l1) ->
        decode_utf8 (s_bytes pb) = Returns b ->
        lib (eda_free_string pb) l1 = (tt, l2) ->
        lib eda_get_kafka_topic l2 = (Some pt, l3) ->
        decode_utf8 (s_bytes pt) = Returns tp ->
        lib (eda_free_string pt) l3 = (tt, l4) ->
        lib eda_get_kafka_group l4 = (None, l5) ->
        FFICore.get_kafka_config lib decode_utf8 l
        = (Raises (RuntimeError "Failed to get Kafka group"), l5,
           [eda_get_kafka_broker; eda_free_string pb;
            eda_get_kafka_topic; eda_free_string pt; eda_get_kafka_group]))
  /\ (forall pb l1 b l2 pt l3 tp l4 pg l5 g l6,
        lib eda_get_kafka_broker l = (Some pb, l1) ->
        decode_utf8 (s_bytes pb) = Returns b ->
        lib (eda_free_string pb) l1 = (tt, l2) ->
        lib eda_get_kafka_topic l2 = (Some pt, l3) ->
        decode_utf8 (s_bytes pt) = Returns tp ->
        lib (eda_free_string pt) l3 = (tt, l4) ->
        lib eda_get_kafka_group l4 = (Some pg, l5) ->
        decode_utf8 (s_bytes pg) = Returns g ->
        lib (eda_free_string pg) l5 = (tt, l6) ->
        FFICore.get_kafka_config lib decode_utf8 l
        = (Returns {| broker := b; topic := tp; group := g |}, l6,
           [eda_get_kafka_broker; eda_free_string pb;
            eda_get_kafka_topic; eda_free_string pt;
            eda_get_kafka_group; eda_free_string pg])).
Proof.
  unfold FFICore.get_kafka_config, FFICore.read_string, FFICore.fcall,
    fbind, flift, fraise, fret.
  split; [|split; [|split; [|split]]].
  - intros l1 H1. rewrite H1. reflexivity.
  - intros pb l1 e H1 D1. rewrite H1. cbn. rewrite D1. reflexivity.
  - intros pb l1 b l2 l3 H1 D1 H2 H3. rewrite H1. cbn. rewrite D1, H2. cbn.
    rewrite H3. reflexivity.
  - intros pb l1 b l2 pt l3 tp l4 l5 H1 D1 H2 H3 D2 H4 H5.
    rewrite H1. cbn. rewrite D1, H2. cbn. rewrite H3. cbn. rewrite D2, H4. cbn.
    rewrite H5. reflexivity.
  - intros pb l1 b l2 pt l3 tp l4 pg l5 g l6 H1 D1 H2 H3 D2 H4 H5 D3 H6.
    rewrite H1. cbn. rewrite D1, H2. cbn. rewrite H3. cbn. rewrite D2, H4. cbn.
    rewrite H5. cbn. rewrite D3, H6. reflexivity.
Qed.

(** X14. [get_output_destination] frees the native destination
    exactly once whenever the library returned one, whatever happens
    in between (unknown kind, NULL target, undecodable text, success):
    the calls are the query followed by the free.  When the library
    returns NULL it raises a [RuntimeError] and frees nothing. *)
Theorem get_output_destination_frees_once (event_json : string) (l : L) :
  (forall l1,
      lib (eda_get_output_destination (encode_utf8 event_json)) l = (None, l1) ->
      FFICore.get_output_destination lib decode_utf8 event_json l
      = (Raises (RuntimeError "Failed to get output destination"), l1,
         [eda_get_output_destination (encode_utf8 event_json)]))
  /\ (forall d l1,
        lib (eda_get_output_destination (encode_utf8 event_json)) l = (Some d, l1) ->
        exists r,
          FFICore.get_output_destination lib decode_utf8 event_json l
          = (r, (lib (eda_free_output_destination d) l1).2,
             [eda_get_output_destination (encode_utf8 event_json);
              eda_free_output_destination d])).
Proof.
  unfold FFICore.get_output_destination, FFICore.read_string, FFICore.fcall.
  split.
  - intros l1 H1. unfold fbind, fraise. rewrite H1. reflexivity.
  - intros d l1 H1. unfold fbind at 1. rewrite H1.
    unfold ffinally, fbind, flift, fraise, fret.
    destruct (lib (eda_free_output_destination d) l1) as [[] l2] eqn:Hf.
    destruct (DestinationType_of_value (cd_dest_type d)) as [t|]; cbn;
      [|rewrite Hf; eexists; reflexivity].
    destruct (cd_target d) as [tp|]; cbn; [|rewrite Hf; eexists; reflexivity].
    destruct (decode_utf8 (s_bytes tp)) as [target|e]; cbn;
      [|rewrite Hf; eexists; reflexivity].
    destruct (cd_cluster d) as [cp|]; cbn; [|rewrite Hf; eexists; reflexivity].
    destruct (decode_utf8 (s_bytes cp)) as [cluster|e]; cbn;
      rewrite Hf; eexists; reflexivity.
Qed.

(** X15. A destination returned by [get_output_destination] is built
    from the native struct: its kind is the member whose value is the
    struct's [dest_type], its target and cluster are the decoded
    strings, and the cluster is absent exactly when the pointer is
    NULL.  A [dest_type] outside 0..3 raises a [ValueError]; a NULL
    target raises a [RuntimeError]. *)
Theorem get_output_destination_result (event_json : string) (l l1 : L)
    (d : CDestination) :
  lib (eda_get_output_destination (encode_utf8 event_json)) l = (Some d, l1) ->
  (forall dest l2 t,
      FFICore.get_output_destination lib decode_utf8 event_json l
      = (Returns dest, l2, t) ->
      exists k tp,
        d_type dest = Member k
        /\ DestinationType_value k = cd_dest_type d
        /\ cd_target d = Some tp
        /\ decode_utf8 (s_bytes tp) = Returns (d_target dest)
        /\ match cd_cluster d with
           | Some cp => exists c, decode_utf8 (s_bytes cp) = Returns c
                                  /\ d_cluster dest = Some c
           | None => d_cluster dest = None
           end)
  /\ (cd_dest_type d < 0 \/ 3 < cd_dest_type d ->
      (FFICore.get_output_destination lib decode_utf8 event_json l).1.1
      = Raises (OtherException "ValueError"
                  (pretty (cd_dest_type d) +:+ " is not a valid DestinationType")))
  /\ (0 <= cd_dest_type d <= 3 -> cd_target d = None ->
      (FFICore.get_output_destination lib decode_utf8 event_json l).1.1
      = Raises (RuntimeError "Destination target is NULL"))
  /\ (forall k tp target,
        DestinationType_of_value (cd_dest_type d) = Some k ->
        cd_target d = Some tp ->
        decode_utf8 (s_bytes tp) = Returns target ->
        cd_cluster d = None ->
        (FFICore.get_output_destination lib decode_utf8 event_json l).1.1
        = Returns {| d_type := Member k; d_target := target; d_cluster := None |}).
Proof.
  intros H1.
  pose proof DestinationType_of_value_inv as Hval.
  pose proof DestinationType_of_value_None as Hnone.
  unfold FFICore.get_output_destination, FFICore.read_string, FFICore.fcall.
  unfold ffinally, fbind, flift, fraise, fret. rewrite H1.
  destruct (lib (eda_free_output_destination d) l1) as [[] l2'] eqn:Hf.
  split; [|split; [|split]].
  - intros dest l2 t.
    destruct (DestinationType_of_value (cd_dest_type d)) as [k|] eqn:Hk; cbn;
      [|rewrite Hf; discriminate].
    destruct (cd_target d) as [tp|]; cbn; [|rewrite Hf; discriminate].
    destruct (decode_utf8 (s_bytes tp)) as [target|e] eqn:Dt; cbn;
      [|rewrite Hf; discriminate].
    destruct (cd_cluster d) as [cp|]; cbn.
    + destruct (decode_utf8 (s_bytes cp)) as [cluster|e] eqn:Dc; cbn;
        rewrite Hf; [|discriminate].
      intros [= <- _ _]. exists k, tp. cbn. repeat split; eauto.
    + rewrite Hf. intros [= <- _ _]. exists k, tp. cbn. repeat split; eauto.
  - intros Hout. apply Hnone in Hout. rewrite Hout. cbn. rewrite Hf. reflexivity.
  - intros Hin Ht.
    destruct (DestinationType_of_value (cd_dest_type d)) as [k|] eqn:Hk.
    + rewrite Ht. cbn. rewrite Hf. reflexivity.
    + apply Hnone in Hk. lia.
  - intros k tp target Hk Ht Dt Hc. rewrite Hk, Ht. cbn. rewrite Dt. cbn.
    rewrite Hc. cbn. rewrite Hf. reflexivity.
Qed.

End FFICoreProperties.

(** * Properties of the loader *)

Section LoaderProperties.

Variable here : Path.
Variable path_str : Path -> string.
Variable path_exists : Path -> bool.

(** X16. [get_embedded_lib_path] returns a path exactly for the
    eight supported pairs of system and machine, and only when the
    file exists: the path is [libs/<directory>/<file name>] below the
    package, with the directory and the file name of that platform.
    Every other outcome is a [RuntimeError]. *)
Theorem embedded_lib_path_platforms (system machine : string) :
  (forall p,
      loader.get_embedded_lib_path here path_str path_exists system machine = Returns p
      <-> exists dir name,
            In (system, machine, dir, name) supported_platforms
            /\ p = (here ++ ["libs"; dir]) ++ [name]
            /\ path_exists p = true)
  /\ (forall e,
        loader.get_embedded_lib_path here path_str path_exists system machine = Raises e ->
        exists m, e = RuntimeError m).
Proof.
  split.
  - intros p. split.
    + unfold loader.get_embedded_lib_path, loader.get_lib_name, str_in, existsb.
      destruct (String.eqb_spec system "Linux") as [->|HL].
      { cbn [String.eqb Ascii.eqb Bool.eqb].
        destruct (String.eqb_spec machine "x86_64") as [->|H1];
          [|destruct (String.eqb_spec machine "AMD64") as [->|H2];
            [|destruct (String.eqb_spec machine "aarch64") as [->|H3];
              [|destruct (String.eqb_spec machine "arm64") as [->|H4]]]];
          cbn [orb]; try discriminate;
          (destruct (path_exists _) eqn:Hex; cbn [negb]; [|discriminate]);
          intros [= <-]; do 2 eexists;
          (split; [|split; [reflexivity|exact Hex]]);
          cbn; tauto. }
      destruct (String.eqb_spec system "Darwin") as [->|HD].
      { cbn [String.eqb Ascii.eqb Bool.eqb].
        destruct (String.eqb_spec machine "x86_64") as [->|H1];
          [|destruct (String.eqb_spec machine "arm64") as [->|H2]];
          try discriminate;
          (destruct (path_exists _) eqn:Hex; cbn [negb]; [|discriminate]);
          intros [= <-]; do 2 eexists;
          (split; [|split; [reflexivity|exact Hex]]);
          cbn; tauto. }
      destruct (String.eqb_spec system "Windows") as [->|HW]; [|discriminate].
      cbn [String.eqb Ascii.eqb Bool.eqb].
      destruct (String.eqb_spec machine "x86_64") as [->|H1];
        [|destruct (String.eqb_spec machine "AMD64") as [->|H2]];
        cbn [orb]; try discriminate;
        (destruct (path_exists _) eqn:Hex; cbn [negb]; [|discriminate]);
        intros [= <-]; do 2 eexists;
        (split; [|split; [reflexivity|exact Hex]]);
        cbn; tauto.
    + intros (dir & name & Hin & -> & Hex).
      unfold supported_platforms in Hin. cbn [In] in Hin.
      repeat (destruct Hin as [Hin|Hin];
              [injection Hin as <- <- <- <-;
               unfold loader.get_embedded_lib_path, loader.get_lib_name, str_in, existsb;
               cbn [String.eqb Ascii.eqb Bool.eqb orb];
               rewrite Hex; cbn [negb]; reflexivity|]).
      contradiction.
  - intros e. unfold loader.get_embedded_lib_path.
    repeat match goal with
           | |- context [if ?b then _ else _] => destruct b
           end;
      intros [= <-]; eexists; reflexivity.
Qed.

(** [str.strip] *)
Variable strip : string -> string.

Lemma scan_line_cases st line :
  (lines (loader.scan_line strip st line) = lines st)
  \/ (lines (loader.scan_line strip st line) = lines st ++ [line]
      /\ substantive strip line
      /\ (str_contains "typedef struct" (strip line) = true
          \/ in_struct st = true \/ in_extern_c st = true)).
Proof.
  unfold loader.scan_line, substantive.
  destruct (startswith (strip line) "#") eqn:H1; [left; reflexivity|].
  destruct (loader.is_empty (strip line)) eqn:H2; [left; reflexivity|].
  cbn [orb].
  destruct (startswith (strip line) "//") eqn:H3; [left; reflexivity|].
  destruct (str_contains loader.extern_C (strip line)) eqn:H4; [left; reflexivity|].
  assert (Hne : strip line <> EmptyString).
  { intros Heq. rewrite Heq in H2. discriminate. }
  destruct (str_contains "typedef struct" (strip line)) eqn:H5.
  { right. cbn. auto 10. }
  destruct (in_struct st) eqn:Hs; destruct (in_extern_c st) eqn:Hc; cbn [andb orb negb].
  - destruct (str_contains "} " (strip line) && str_contains ";" (strip line));
      [right; cbn; auto 10|].
    destruct (String.eqb (strip line) "}" || String.eqb (strip line) loader.closing_extern_C);
      [left; reflexivity|].
    destruct (str_contains "namespace" (strip line)); [left; reflexivity|].
    right. cbn. auto 10.
  - destruct (str_contains "} " (strip line) && str_contains ";" (strip line));
      [right; cbn; auto 10|].
    destruct (String.eqb (strip line) "}" || String.eqb (strip line) loader.closing_extern_C);
      [left; reflexivity|].
    destruct (str_contains "namespace" (strip line)); [left; reflexivity|].
    right. cbn. auto 10.
  - destruct (String.eqb (strip line) "}" || String.eqb (strip line) loader.closing_extern_C);
      [left; reflexivity|].
    destruct (str_contains "namespace" (strip line)); [left; reflexivity|].
    right. cbn. auto 10.
  - left. reflexivity.
Qed.

Lemma scan_lines_kept input :
  forall st,
    exists kept,
      lines (fold_left (loader.scan_line strip) input st) = lines st ++ kept
      /\ sublist kept input
      /\ Forall (substantive strip) kept.
Proof.
  induction input as [|line input IH]; intros st.
  - exists []. cbn. rewrite app_nil_r. repeat split; constructor.
  - cbn [fold_left].
    destruct (IH (loader.scan_line strip st line)) as (kept & Hk & Hsub & Hall).
    destruct (scan_line_cases st line) as [Hsame | (Happ & Hsubst & _)].
    + exists kept. rewrite Hk, Hsame. split; [reflexivity|].
      split; [apply sublist_cons; exact Hsub|exact Hall].
    + exists (line :: kept). rewrite Hk, Happ, <- app_assoc.
      split; [reflexivity|].
      split; [apply sublist_skip; exact Hsub|constructor; assumption].
Qed.

(** X17. The definitions extracted from the header are lines of the
    header: the lines kept are a subsequence of its lines, unchanged
    and in order, and none of them is blank, a preprocessor directive,
    a line comment or an [extern] line. *)
Theorem header_lines_kept (input : list string) :
  sublist (lines (fold_left (loader.scan_line strip) input loader.scan_start)) input
  /\ Forall (substantive strip)
       (lines (fold_left (loader.scan_line strip) input loader.scan_start)).
Proof.
  destruct (scan_lines_kept input loader.scan_start) as (kept & Hk & Hsub & Hall).
  cbn in Hk. rewrite Hk. split; assumption.
Qed.

(** X18. Outside [extern] blocks and struct definitions nothing is
    kept: a header in which no line mentions [extern "C"] or
    [typedef struct] yields no definitions at all. *)
Theorem header_without_blocks_is_empty (input : list string) :
  Forall (fun line =>
            str_contains loader.extern_C (strip line) = false
            /\ str_contains "typedef struct" (strip line) = false) input ->
  lines (fold_left (loader.scan_line strip) input loader.scan_start) = []
  /\ forall path content,
       input = split_on (Ascii false true false true false false false false) content ->
       loader._load_c_definitions strip path (Some content) = Returns EmptyString.
Proof.
  intros Hall.
  assert (Hinv : forall st,
             lines st = [] -> in_extern_c st = false -> in_struct st = false ->
             fold_left (loader.scan_line strip) input st = st).
  { induction Hall as [|line input [He Ht] _ IH]; intros st Hl Hc Hs; [reflexivity|].
    cbn [fold_left].
    assert (Hstep : loader.scan_line strip st line = st).
    { unfold loader.scan_line. rewrite He, Ht, Hc, Hs. cbn [andb orb].
      destruct (startswith (strip line) "#" || loader.is_empty (strip line));
        [reflexivity|].
      destruct (startswith (strip line) "//"); reflexivity. }
    rewrite Hstep. apply IH; assumption. }
  assert (Hempty : lines (fold_left (loader.scan_line strip) input loader.scan_start) = []).
  { rewrite Hinv; reflexivity. }
  split; [exact Hempty|].
  intros path content ->. unfold loader._load_c_definitions. rewrite Hempty. reflexivity.
Qed.

End LoaderProperties.

(** * Properties of library loading *)

Section LibraryProperties.

Context {O : Type}.
Variable os : forall r : OsReq, O -> reply (OsResp r) * O.
Variable system : string.
Variable machine : string.
Variable here : Path.
Variable path_str : Path -> string.
Variable path_exists : Path -> bool.
Variable os_path_join : string -> string -> string.

Local Abbreviation load_library :=
  (library.load_library os system machine here path_str path_exists os_path_join).
Local Abbreviation extract_embedded_lib :=
  (library.extract_embedded_lib os system machine here path_str path_exists os_path_join).
Local Abbreviation cleanup := (library.cleanup os).
Local Abbreviation embedded :=
  (loader.get_embedded_lib_path here path_str path_exists system machine).
Local Abbreviation temp_lib dir := (os_path_join dir (loader.get_lib_name system)).

Lemma extract_ok g o (dir : string) o1 p o2 o3 :
  os (mkdtemp "eda-core-") o = (Returns dir, o1) ->
  embedded = Returns p ->
  os (copy2 (path_str p) (temp_lib dir)) o1 = (Returns tt, o2) ->
  os (chmod (temp_lib dir) 493) o2 = (Returns tt, o3) ->
  extract_embedded_lib (g, o)
  = (Returns (temp_lib dir), ({| _lib := _lib g; _temp_dir := Some dir |}, o3),
     [mkdtemp "eda-core-"; copy2 (path_str p) (temp_lib dir); chmod (temp_lib dir) 493]).
Proof.
  intros H1 Hp H2 H3.
  unfold library.extract_embedded_lib, gbind, library.gcall, get_globals, set_globals,
    glift, gtry, gret.
  cbn [fst snd]. rewrite H1. cbn [fst snd]. rewrite Hp. cbn [fst snd].
  rewrite H2. cbn [fst snd]. rewrite H3. reflexivity.
Qed.

(** X19. The library is loaded once.  A first load that succeeds
    creates one temporary directory, copies the embedded library into
    it, makes it executable and opens it; it remembers the handle and
    the directory.  Every later load returns the remembered handle
    without touching the operating system or the globals. *)
Theorem load_library_once (g : LoaderGlobals) (o : O) :
  (forall h, _lib g = Some h -> load_library (g, o) = (Returns h, (g, o), []))
  /\ (forall (dir : string) o1 p o2 o3 (h : LibHandle) o4,
        _lib g = None ->
        os (mkdtemp "eda-core-") o = (Returns dir, o1) ->
        embedded = Returns p ->
        os (copy2 (path_str p) (temp_lib dir)) o1 = (Returns tt, o2) ->
        os (chmod (temp_lib dir) 493) o2 = (Returns tt, o3) ->
        os (dlopen (temp_lib dir)) o3 = (Returns h, o4) ->
        load_library (g, o)
        = (Returns h, ({| _lib := Some h; _temp_dir := Some dir |}, o4),
           [mkdtemp "eda-core-"; copy2 (path_str p) (temp_lib dir);
            chmod (temp_lib dir) 493; dlopen (temp_lib dir)])
        /\ gbind load_library (fun _ => load_library) (g, o)
           = (Returns h, ({| _lib := Some h; _temp_dir := Some dir |}, o4),
              [mkdtemp "eda-core-"; copy2 (path_str p) (temp_lib dir);
               chmod (temp_lib dir) 493; dlopen (temp_lib dir)])).
Proof.
  assert (Hcached : forall g0 o0 h, _lib g0 = Some h ->
                      load_library (g0, o0) = (Returns h, (g0, o0), [])).
  { intros g0 o0 h Hh. unfold library.load_library, gbind, get_globals.
    cbn [fst]. rewrite Hh. reflexivity. }
  split; [apply Hcached|].
  intros dir o1 p o2 o3 h o4 Hnone H1 Hp H2 H3 H4.
  assert (Hfirst : load_library (g, o)
                   = (Returns h, ({| _lib := Some h; _temp_dir := Some dir |}, o4),
                      [mkdtemp "eda-core-"; copy2 (path_str p) (temp_lib dir);
                       chmod (temp_lib dir) 493; dlopen (temp_lib dir)])).
  { unfold library.load_library. unfold gbind at 1, get_globals at 1.
    cbn [fst]. rewrite Hnone. unfold gbind at 1.
    rewrite (extract_ok g o dir o1 p o2 o3 H1 Hp H2 H3).
    unfold gbind, gtry, library.gcall, get_globals, set_globals, gret.
    cbn [fst snd]. rewrite H4. reflexivity. }
  split; [exact Hfirst|].
  unfold gbind. rewrite Hfirst.
  rewrite (Hcached {| _lib := Some h; _temp_dir := Some dir |} o4 h eq_refl).
  reflexivity.
Qed.

Lemma cleanup_removes_remembered g o :
  Forall (fun r => forall p, r = rmtree p -> _temp_dir g = Some p) (cleanup (g, o)).2.
Proof.
  unfold library.cleanup, gbind, get_globals, set_globals, library.gcall, gret.
  cbn [fst snd].
  destruct (_temp_dir g) as [dir|]; [|constructor].
  destruct (loader.is_empty dir); [constructor|].
  assert (Hex : forall p, os_path_exists dir = rmtree p -> Some dir = Some p)
    by (intros p; discriminate).
  assert (Hrm : forall p, rmtree dir = rmtree p -> Some dir = Some p)
    by (intros p [= <-]; reflexivity).
  change ((g, o).2) with o. change ((g, o).1) with g.
  destruct (os (os_path_exists dir) o) as [[[|]|e] o1]; cbn.
  - destruct (os (rmtree dir) o1) as [[[]|e] o2]; cbn;
      (apply Forall_cons; split; [exact Hex|]);
      (apply Forall_cons; split; [exact Hrm|]); apply Forall_nil_2.
  - apply Forall_cons. split; [exact Hex|]. apply Forall_nil_2.
  - apply Forall_cons. split; [exact Hex|]. apply Forall_nil_2.
Qed.

(** X20. A load that fails at [dlopen] raises a [RuntimeError],
    leaves [_lib] unset and removes nothing: the directory it created
    stays, and takes the place of the one remembered before in
    [_temp_dir].  [cleanup] removes only the remembered directory.  So
    the directory of an earlier failed attempt is never removed. *)
Theorem failed_load_keeps_directories (g : LoaderGlobals) (o : O) :
  (forall (dir : string) o1 p o2 o3 e o4,
      _lib g = None ->
      os (mkdtemp "eda-core-") o = (Returns dir, o1) ->
      embedded = Returns p ->
      os (copy2 (path_str p) (temp_lib dir)) o1 = (Returns tt, o2) ->
      os (chmod (temp_lib dir) 493) o2 = (Returns tt, o3) ->
      os (dlopen (temp_lib dir)) o3 = (Raises e, o4) ->
      isinstance_Exception e = true ->
      load_library (g, o)
      = (Raises (RuntimeError ("Failed to load library from " +:+ temp_lib dir +:+ ": "
                               +:+ str_exc e)),
         ({| _lib := None; _temp_dir := Some dir |}, o4),
         [mkdtemp "eda-core-"; copy2 (path_str p) (temp_lib dir);
          chmod (temp_lib dir) 493; dlopen (temp_lib dir)]))
  /\ (forall p, In (rmtree p) (cleanup (g, o)).2 -> _temp_dir g = Some p)
  /\ (forall (dir : string) o1 o2,
        _temp_dir g = Some dir -> dir <> EmptyString ->
        os (os_path_exists dir) o = (Returns true, o1) ->
        os (rmtree dir) o1 = (Returns tt, o2) ->
        cleanup (g, o)
        = (Returns tt, ({| _lib := _lib g; _temp_dir := None |}, o2),
           [os_path_exists dir; rmtree dir])).
Proof.
  split; [|split].
  - intros dir o1 p o2 o3 e o4 Hnone H1 Hp H2 H3 H4 He.
    unfold library.load_library. unfold gbind at 1, get_globals at 1.
    cbn [fst]. rewrite Hnone. unfold gbind at 1.
    rewrite (extract_ok g o dir o1 p o2 o3 H1 Hp H2 H3).
    unfold gbind, gtry, library.gcall, graise. cbn [fst snd]. rewrite H4, He.
    cbn. rewrite Hnone. reflexivity.
  - intros p Hin. pose proof (cleanup_removes_remembered g o) as Hall.
    rewrite Forall_forall in Hall. apply (Hall (rmtree p)); [|reflexivity].
    apply list_elem_of_In. exact Hin.
  - intros dir o1 o2 Hd Hne H1 H2.
    unfold library.cleanup, gbind, get_globals, set_globals, library.gcall, gret.
    cbn [fst snd]. rewrite Hd.
    destruct dir as [|a dir]; [congruence|]. cbn [loader.is_empty].
    change ((g, o).2) with o. change ((g, o).1) with g.
    rewrite H1. cbn. rewrite H2. reflexivity.
Qed.

(** X21. Extraction failures.  On a platform without an embedded
    library, the temporary directory has already been created and is
    remembered but not removed.  When copying the library or making
    it executable raises an [Exception], the directory is removed at
    once and a [RuntimeError] is raised; [_temp_dir] still names the
    removed directory. *)
Theorem extraction_failures (g : LoaderGlobals) (o : O) :
  (forall (dir : string) o1 e,
      os (mkdtemp "eda-core-") o = (Returns dir, o1) ->
      embedded = Raises e ->
      extract_embedded_lib (g, o)
      = (Raises e, ({| _lib := _lib g; _temp_dir := Some dir |}, o1),
         [mkdtemp "eda-core-"]))
  /\ (forall (dir : string) o1 p e o2 o3,
        os (mkdtemp "eda-core-") o = (Returns dir, o1) ->
        embedded = Returns p ->
        os (copy2 (path_str p) (temp_lib dir)) o1 = (Raises e, o2) ->
        isinstance_Exception e = true ->
        os (rmtree dir) o2 = (Returns tt, o3) ->
        extract_embedded_lib (g, o)
        = (Raises (RuntimeError ("Failed to extract embedded library: " +:+ str_exc e)),
           ({| _lib := _lib g; _temp_dir := Some dir |}, o3),
           [mkdtemp "eda-core-"; copy2 (path_str p) (temp_lib dir); rmtree dir]))
  /\ (forall (dir : string) o1 p o2 e o3 o4,
        os (mkdtemp "eda-core-") o = (Returns dir, o1) ->
        embedded = Returns p ->
        os (copy2 (path_str p) (temp_lib dir)) o1 = (Returns tt, o2) ->
        os (chmod (temp_lib dir) 493) o2 = (Raises e, o3) ->
        isinstance_Exception e = true ->
        os (rmtree dir) o3 = (Returns tt, o4) ->
        extract_embedded_lib (g, o)
        = (Raises (RuntimeError ("Failed to extract embedded library: " +:+ str_exc e)),
           ({| _lib := _lib g; _temp_dir := Some dir |}, o4),
           [mkdtemp "eda-core-"; copy2 (path_str p) (temp_lib dir);
            chmod (temp_lib dir) 493; rmtree dir])).
Proof.
  unfold library.extract_embedded_lib, gbind, library.gcall, get_globals, set_globals,
    glift, gtry, gret, graise.
  cbn [fst snd].
  split; [|split].
  - intros dir o1 e H1 Hp. rewrite H1. cbn [fst snd]. rewrite Hp. reflexivity.
  - intros dir o1 p e o2 o3 H1 Hp H2 He H3. rewrite H1. cbn [fst snd].
    rewrite Hp. cbn [fst snd]. rewrite H2, He. cbn [fst snd]. rewrite H3. reflexivity.
  - intros dir o1 p o2 e o3 o4 H1 Hp H2 H3 He H4. rewrite H1. cbn [fst snd].
    rewrite Hp. cbn [fst snd]. rewrite H2. cbn [fst snd]. rewrite H3, He.
    cbn [fst snd]. rewrite H4. reflexivity.
Qed.

End LibraryProperties.

(** * Scenarios *)

(** C1.  On a message that holds one event in its [ce_] headers and
    another as a JSON document in its value, [_parse_cloud_event]
    returns the event of the value: the converter it calls first,
    [from_structured], is the SDK's decoder of the JSON document in
    the value.  The decoder of the headers, [from_binary], would have
    answered with the other event and is not called. *)
Lemma parse_returns_value_document_event :
  _parse_cloud_event sdk_from_structured sdk_from_binary both_encodings_msg no_polls
  = (Ok (Some value_event), no_polls,
     [EFromStructured (to_kafka_message both_encodings_msg (encode_utf8 value_document))])
  /\ sdk_from_binary (to_kafka_message both_encodings_msg (encode_utf8 value_document))
     = Returns header_event
  /\ value_event <> header_event.
Proof.
  split; [vm_compute; reflexivity|]. split; [vm_compute; reflexivity|discriminate].
Qed.


(** Four errors spread over six polls, then the fifth: [start] stops
    at the seventh poll and leaves the good message unread. *)
Lemma five_consecutive_errors_fatal_witness :
  (exists e w'' t,
      start (scripted calm) header_structured nonempty_binary keys_dumps
        simple_consumer 10 storm = (Raise e, w'', t)
      /\ count is_poll t = 7%nat
      /\ In (ERaise (KafkaException {| code := -195; errstr := "broker down" |})) t
      /\ none_of is_handler_call t)
  /\ (exists t,
        iterate 6
          (loop_body (scripted calm) header_structured nonempty_binary keys_dumps
             simple_consumer) 0 storm
        = (Ok (0 + 4), [broker_down; Returns (Some binary_msg)], t)
        /\ count is_poll t = 6%nat)
  /\ (Ok 0 = Ok 0
      \/ exists e, Ok 0 = Raise e /\ isinstance_Exception e = false).
Proof.
  destruct (five_consecutive_errors_fatal (scripted calm) header_structured
              nonempty_binary keys_dumps simple_consumer)
    as (Hfatal & _ & Hbelow & Hreset).
  split; [|split].
  - apply (Hfatal {| kc_conf := [] |} 6%nat 4 storm
             [broker_down; Returns (Some binary_msg)] [Returns (Some binary_msg)]
             (error_msg (-195)) {| code := -195; errstr := "broker down" |} 10%nat);
      [reflexivity | vm_compute; reflexivity | reflexivity | reflexivity
      | cbn; unfold _PARTITION_EOF; lia | lia | lia].
  - apply (Hbelow 6%nat 4 storm [broker_down; Returns (Some binary_msg)] 0);
      [vm_compute; reflexivity | lia].
  - apply (Hreset 4 [Returns (Some binary_msg)] no_polls binary_msg (Ok 0) no_polls
             [ECall (RPoll 100);
              EFromStructured (to_kafka_message binary_msg [Byte.x7b]);
              EFromBinary (to_kafka_message binary_msg [Byte.x7b]);
              ECall (RHandler sample_event)]);
      [reflexivity | reflexivity | vm_compute; reflexivity].
Defined.

(** A producer whose flush raises: [close] stops there, the consumer
    and the delegate are never closed. *)
Lemma close_skips_after_failed_flush :
  close (scripted failing_flush) output_consumer no_polls
  = (Raise (KafkaException {| code := -195; errstr := "flush failed" |}), no_polls,
     [ECall (RFlush (Some 5))])
  /\ ~ all_releases_attempted
         (close (scripted failing_flush) output_consumer no_polls).2.
Proof.
  split; [reflexivity|].
  intros (_ & H & _). cbn in H. destruct H as [H|[]]. discriminate H.
Qed.

Lemma close_releases_in_order_witness :
  close (scripted calm) output_consumer no_polls
  = (Ok tt, no_polls,
     [ECall (RFlush (Some 5)); ELog INFO "Producer flushed" [];
      ECall RConsumerClose; ELog INFO "Consumer closed" [];
      ECall RCoreClose; ELog INFO "Core closed" []])
  /\ close (scripted failing_flush) output_consumer no_polls
     = (Raise (KafkaException {| code := -195; errstr := "flush failed" |}), no_polls,
        [ECall (RFlush (Some 5))]).
Proof.
  split.
  - destruct (close_releases_in_order (scripted calm) output_consumer no_polls
                {| p_conf := [] |} {| kc_conf := [] |} eq_refl eq_refl)
      as (Hall & _).
    apply (Hall no_polls no_polls no_polls); reflexivity.
  - destruct (close_releases_in_order (scripted failing_flush) output_consumer no_polls
                {| p_conf := [] |} {| kc_conf := [] |} eq_refl eq_refl)
      as (_ & Hflush & _).
    apply (Hflush _ no_polls). reflexivity.
Defined.

(** Garbage in the value: both converters fail, the round ends
    without a handler call. *)
Lemma undecodable_message_skipped_witness :
  (exists t1,
      _parse_cloud_event header_structured nonempty_binary garbage_msg no_polls
      = (Ok None, no_polls, t1))
  /\ loop_body (scripted calm) header_structured nonempty_binary keys_dumps
       simple_consumer 3 [Returns (Some garbage_msg)]
     = (Ok 0, no_polls,
        [ECall (RPoll 100);
         EFromStructured (to_kafka_message garbage_msg []);
         EFromBinary (to_kafka_message garbage_msg []);
         ELog WARNING "Failed to parse CloudEvent: Expecting value" []]).
Proof.
  destruct (undecodable_message_skipped (scripted calm) header_structured
              nonempty_binary keys_dumps simple_consumer 3
              [Returns (Some garbage_msg)] no_polls garbage_msg eq_refl eq_refl)
    as (Hfail & Hskip).
  split.
  - apply (Hfail [] (OtherException "MissingRequiredFields" "missing headers")
             (OtherException "JSONDecodeError" "Expecting value"));
      [reflexivity | vm_compute; reflexivity | reflexivity
      | vm_compute; reflexivity | reflexivity].
  - apply (Hskip no_polls
             [EFromStructured (to_kafka_message garbage_msg []);
              EFromBinary (to_kafka_message garbage_msg []);
              ELog WARNING "Failed to parse CloudEvent: Expecting value" []]).
    vm_compute. reflexivity.
Defined.


(** The output example: one event of type "kafka.message", one of
    another type. *)
Lemma routing_iff_handler_output_witness :
  (exists t',
      (_invoke_handler (scripted (with_handler example_handle calm)) keys_dumps
         output_consumer sample_event no_polls).2
      = ECall (RHandler sample_event) :: EJsonDumps (event_dict_of output_event) :: t')
  /\ _invoke_handler (scripted (with_handler example_handle calm)) keys_dumps
       output_consumer other_event no_polls
     = (Ok tt, no_polls, [ECall (RHandler other_event)])
  /\ (_invoke_handler (scripted (with_handler example_handle calm)) keys_dumps
        simple_consumer sample_event no_polls).2
     = [ECall (RHandler sample_event)].
Proof.
  split; [|split].
  - destruct (routing_iff_handler_output (scripted (with_handler example_handle calm))
                keys_dumps output_consumer sample_event no_polls) as (Hout & _).
    destruct (Hout eq_refl ltac:(discriminate) (Returns (Some output_event)) no_polls
                eq_refl) as (_ & Hsome & _).
    destruct (Hsome output_event eq_refl) as (t' & Ht & _).
    exists t'. exact Ht.
  - destruct (routing_iff_handler_output (scripted (with_handler example_handle calm))
                keys_dumps output_consumer other_event no_polls) as (Hout & _).
    destruct (Hout eq_refl ltac:(discriminate) (Returns None) no_polls eq_refl)
      as (_ & _ & Hnone).
    apply Hnone. reflexivity.
  - destruct (routing_iff_handler_output (scripted (with_handler example_handle calm))
                keys_dumps simple_consumer sample_event no_polls) as (_ & Hsimple).
    apply Hsimple. reflexivity.
Defined.

(** Destinations the router does not publish to: DISCARD, HTTP, and a
    kind with value 7 that the enumeration does not know. *)
Lemma route_without_publish_witness :
  _publish_output_event
    (scripted (with_destination (fun _ => Returns (dest_of (Member DISCARD))) calm))
    keys_dumps output_consumer output_event no_polls
  = (Ok tt, no_polls,
     [EJsonDumps (event_dict_of output_event);
      ECall (RGetOutputDestination "specversion,type,source,id");
      ELog INFO "Routing output event"
        [("event_type", PStr "com.example.processed"); ("dest_type", PStr "DISCARD");
         ("dest_target", PStr "somewhere")];
      ELog INFO "Discarding output event: com.example.processed" []])
  /\ _publish_output_event
       (scripted (with_destination (fun _ => Returns (dest_of (Member HTTP))) calm))
       keys_dumps output_consumer output_event no_polls
     = (Ok tt, no_polls,
        [EJsonDumps (event_dict_of output_event);
         ECall (RGetOutputDestination "specversion,type,source,id");
         ELog INFO "Routing output event"
           [("event_type", PStr "com.example.processed"); ("dest_type", PStr "HTTP");
            ("dest_target", PStr "somewhere")];
         ELog WARNING "Destination type HTTP not yet implemented, discarding event" []])
  /\ exists e t,
       _publish_output_event
         (scripted
            (with_destination (fun _ => Returns (dest_of (Foreign 7 (Some "GRPC") "7")))
               calm))
         keys_dumps output_consumer output_event no_polls
       = (Raise e, no_polls, t)
       /\ isinstance_Exception e = true
       /\ none_of is_produce t.
Proof.
  split; [|split].
  - destruct (route_without_publish
                (scripted (with_destination (fun _ => Returns (dest_of (Member DISCARD)))
                             calm))
                keys_dumps output_consumer output_event no_polls no_polls
                {| p_conf := [] |} "specversion,type,source,id" (dest_of (Member DISCARD))
                eq_refl eq_refl eq_refl) as (Hdiscard & _).
    apply Hdiscard. reflexivity.
  - destruct (route_without_publish
                (scripted (with_destination (fun _ => Returns (dest_of (Member HTTP)))
                             calm))
                keys_dumps output_consumer output_event no_polls no_polls
                {| p_conf := [] |} "specversion,type,source,id" (dest_of (Member HTTP))
                eq_refl eq_refl eq_refl) as (_ & Hunsupported & _).
    apply (Hunsupported HTTP); [right; reflexivity | reflexivity].
  - destruct (route_without_publish
                (scripted
                   (with_destination
                      (fun _ => Returns (dest_of (Foreign 7 (Some "GRPC") "7"))) calm))
                keys_dumps output_consumer output_event no_polls no_polls
                {| p_conf := [] |} "specversion,type,source,id"
                (dest_of (Foreign 7 (Some "GRPC") "7"))
                eq_refl eq_refl eq_refl) as (_ & _ & Hforeign).
    destruct (Hforeign 7 (Some "GRPC") "7" eq_refl ltac:(lia) ltac:(lia) ltac:(lia)
                ltac:(lia)) as (e & t & Hrun & He & Hnone & _).
    exists e, t. split; [exact Hrun|]. split; assumption.
Defined.

(** An output event routed to the Kafka topic "out". *)
Lemma kafka_publish_once_witness :
  count is_produce
    (_publish_output_event (scripted calm) keys_dumps output_consumer sample_event
       no_polls).2 = 1%nat
  /\ (_publish_output_event (scripted calm) keys_dumps output_consumer sample_event
        no_polls).1 = (Ok tt, no_polls)
  /\ map fst (event_dict_of sample_event)
     = ["specversion"; "type"; "source"; "id"; "time"; "data"].
Proof.
  destruct (kafka_publish_once (scripted calm) keys_dumps output_consumer sample_event
              no_polls no_polls {| p_conf := [] |}
              "specversion,type,source,id,time,data" (kafka_dest "out")
              eq_refl eq_refl eq_refl eq_refl)
    as (Honce & Hret & Hkeys & _).
  split; [|split].
  - destruct Honce as (r & w' & t' & _ & _ & Hcount). exact Hcount.
  - apply (Hret no_polls no_polls); reflexivity.
  - exact Hkeys.
Defined.

(** A handler that raises, a delegate that asks for a retry and then
    fails to compute the backoff: the round ends normally. *)
Lemma handler_failure_contained_witness :
  exists w' t,
    loop_body (scripted failing_handler) header_structured nonempty_binary keys_dumps
      simple_consumer 2 [Returns (Some binary_msg)]
    = (Ok 0, w',
       ECall (RPoll 100)
       :: [EFromStructured (to_kafka_message binary_msg [Byte.x7b]);
           EFromBinary (to_kafka_message binary_msg [Byte.x7b])]
       ++ ECall (RHandler sample_event)
          :: ELog ERROR "Handler error: boom" [("event_type", PStr "kafka.message")]
          :: ECall (RShouldRetry "boom" 1) :: t)
    /\ t = [ECall (RCalculateBackoff 1);
            ELog ERROR "Error checking retry: backoff unavailable" []].
Proof.
  destruct (handler_failure_contained (scripted failing_handler) header_structured
              nonempty_binary keys_dumps simple_consumer 2
              [Returns (Some binary_msg)] no_polls no_polls no_polls
              binary_msg sample_event
              [EFromStructured (to_kafka_message binary_msg [Byte.x7b]);
               EFromBinary (to_kafka_message binary_msg [Byte.x7b])]
              (OtherException "ValueError" "boom")
              eq_refl eq_refl ltac:(vm_compute; reflexivity) eq_refl eq_refl I eq_refl)
    as (w' & t & Hbody & _ & _ & _ & _ & _ & Hbackoff & _).
  exists w', t. split; [exact Hbody|].
  apply (Hbackoff (RuntimeError "backoff unavailable")); reflexivity.
Defined.

(** The consumer built for the output example never trips over a
    missing producer. *)
Lemma producer_guard_unreachable_witness :
  _producer built_output_consumer <> None
  /\ none_of is_producer_guard
       (start (scripted (with_handler example_handle calm)) header_structured
          nonempty_binary keys_dumps built_output_consumer 5
          [Returns (Some binary_msg)]).2.
Proof.
  destruct (producer_guard_unreachable (scripted (with_handler example_handle calm))
              header_structured nonempty_binary keys_dumps CoreHandle output_handler
              no_polls no_polls built_output_consumer
              (__init__ (scripted (with_handler example_handle calm)) CoreHandle
                 output_handler no_polls).2
              ltac:(vm_compute; reflexivity))
    as (Hprod & Hstart & _).
  split.
  - destruct (Hprod eq_refl) as (p & Hp & _). rewrite Hp. discriminate.
  - apply Hstart.
Defined.

(** * Scenarios for the further properties *)

(** An interrupt at the first poll: the trace of [start] ends with the
    run of [close]. *)
Lemma start_always_closes_witness :
  exists t1 w1 r2 t2,
    close (scripted calm) simple_consumer w1 = (r2, no_polls, t2)
    /\ (start (scripted calm) header_structured nonempty_binary keys_dumps
          simple_consumer 1 no_polls).2
       = ELog INFO "Starting consumer" [] :: t1 ++ t2
    /\ none_of is_release t1.
Proof.
  destruct (start_always_closes (scripted calm) header_structured nonempty_binary
              keys_dumps simple_consumer {| kc_conf := [] |} 1 no_polls no_polls
              (Ok tt)
              (start (scripted calm) header_structured nonempty_binary keys_dumps
                 simple_consumer 1 no_polls).2
              eq_refl ltac:(vm_compute; reflexivity) ltac:(discriminate))
    as (t1 & w1 & r2 & t2 & Hc & Ht & Hn & _).
  exists t1, w1, r2, t2. split; [exact Hc|]. split; [exact Ht|exact Hn].
Defined.

(** An interrupt at the poll after an empty one, and an interrupt in
    the handler of the message after an empty poll. *)
Lemma interrupt_stops_gracefully_witness :
  start (scripted calm) header_structured nonempty_binary keys_dumps
    simple_consumer 2 [Returns None]
  = (Ok tt, no_polls,
     ELog INFO "Starting consumer" []
     :: [ECall (RPoll 100)]
     ++ ECall (RPoll 100) :: ELog INFO "Consumer interrupted" []
     :: [ECall RConsumerClose; ELog INFO "Consumer closed" [];
         ECall RCoreClose; ELog INFO "Core closed" []])
  /\ (start (scripted interrupted_handler) header_structured nonempty_binary keys_dumps
        simple_consumer 2 [Returns None; Returns (Some binary_msg)]).1
     = (Ok tt, no_polls)
  /\ none_of is_retry_query
       (start (scripted interrupted_handler) header_structured nonempty_binary
          keys_dumps simple_consumer 2 [Returns None; Returns (Some binary_msg)]).2.
Proof.
  destruct (interrupt_stops_gracefully (scripted calm) header_structured
              nonempty_binary keys_dumps simple_consumer {| kc_conf := [] |}
              [Returns None] eq_refl) as (Hpoll & _ & _).
  destruct (interrupt_stops_gracefully (scripted interrupted_handler)
              header_structured nonempty_binary keys_dumps simple_consumer
              {| kc_conf := [] |} [Returns None; Returns (Some binary_msg)] eq_refl)
    as (_ & Hhandler & _).
  pose proof (Hhandler 1%nat 0%nat 0 [Returns (Some binary_msg)] [ECall (RPoll 100)]
                binary_msg sample_event no_polls no_polls no_polls no_polls
                [EFromStructured (to_kafka_message binary_msg [Byte.x7b]);
                 EFromBinary (to_kafka_message binary_msg [Byte.x7b])]
                [ECall RConsumerClose; ELog INFO "Consumer closed" [];
                 ECall RCoreClose; ELog INFO "Core closed" []]
                eq_refl eq_refl eq_refl ltac:(vm_compute; reflexivity) eq_refl eq_refl)
    as Hs.
  change (1 + 1)%nat with 2%nat in Hs.
  split; [|split].
  - apply (Hpoll 1%nat 0%nat 0 no_polls [ECall (RPoll 100)] no_polls no_polls);
      reflexivity.
  - rewrite Hs. reflexivity.
  - rewrite Hs. repeat constructor.
Defined.

(** The fifth error in a row ends the round with its exception. *)
Lemma round_exits_witness :
  exists msg error,
    scripted calm (RPoll 100) [broker_down] = (Returns (Some msg), no_polls)
    /\ m_error msg = Some error
    /\ 5 <= 4 + 1
    /\ KafkaException {| code := -195; errstr := "broker down" |} = KafkaException error.
Proof.
  destruct (round_exits (scripted calm) header_structured nonempty_binary keys_dumps
              simple_consumer 4 [broker_down] no_polls
              (Raise (KafkaException {| code := -195; errstr := "broker down" |}))
              [ECall (RPoll 100); ELog ERROR "Consumer error: broker down" [];
               ERaise (KafkaException {| code := -195; errstr := "broker down" |})]
              ltac:(vm_compute; reflexivity)) as (_ & Hcases).
  destruct (Hcases _ eq_refl) as [Hpoll | [(msg & error & Hp & He & _ & Hge & Heq) | Hint]].
  - discriminate Hpoll.
  - exists msg, error. auto.
  - discriminate Hint.
Defined.

(** Six quiet polls with four errors: the counter is 4, within range. *)
Lemma counter_stays_in_range_witness : 0 <= 0 + 4 < max_consecutive_errors.
Proof.
  destruct (iterate_quiet (scripted calm) header_structured nonempty_binary keys_dumps
              simple_consumer 6 storm 0 4 [broker_down; Returns (Some binary_msg)]
              ltac:(vm_compute; reflexivity) ltac:(vm_compute; reflexivity))
    as (t & Hi & _).
  exact (counter_stays_in_range (scripted calm) header_structured nonempty_binary
           keys_dumps simple_consumer 6 0 storm (0 + 4)
           [broker_down; Returns (Some binary_msg)] t
           ltac:(unfold max_consecutive_errors; lia) Hi).
Defined.

(** The publish of the output example went to the Kafka topic "out". *)
Lemma produce_only_for_kafka_witness :
  exists json dest w1,
    _producer output_consumer <> None
    /\ keys_dumps (event_dict_of output_event) = Returns json
    /\ scripted calm (RGetOutputDestination json) no_polls = (Returns dest, w1)
    /\ dest_eqb (d_type dest) KAFKA = true
    /\ "out" = d_target dest.
Proof.
  destruct (produce_only_for_kafka (scripted calm) keys_dumps output_consumer
              output_event no_polls "out"
              (encode_utf8 "specversion,type,source,id") (encode_utf8 "processed-42")
              ltac:(vm_compute; tauto))
    as (json & dest & w1 & Hp & Hj & Hd & Hk & Ht & _).
  exists json, dest, w1. auto.
Defined.

(** One round of the output example on a binary-mode message. *)
Lemma round_accounting_witness :
  count is_poll
    (loop_body (scripted (with_handler example_handle calm)) header_structured
       nonempty_binary keys_dumps output_consumer 0 [Returns (Some binary_msg)]).2
  = 1%nat
  /\ In (ECall (RHandler sample_event))
       (loop_body (scripted (with_handler example_handle calm)) header_structured
          nonempty_binary keys_dumps output_consumer 0 [Returns (Some binary_msg)]).2.
Proof.
  destruct (round_accounting (scripted (with_handler example_handle calm))
              header_structured nonempty_binary keys_dumps output_consumer 0
              [Returns (Some binary_msg)]
              (loop_body (scripted (with_handler example_handle calm)) header_structured
                 nonempty_binary keys_dumps output_consumer 0
                 [Returns (Some binary_msg)]).1.2
              (loop_body (scripted (with_handler example_handle calm)) header_structured
                 nonempty_binary keys_dumps output_consumer 0
                 [Returns (Some binary_msg)]).1.1
              (loop_body (scripted (with_handler example_handle calm)) header_structured
                 nonempty_binary keys_dumps output_consumer 0
                 [Returns (Some binary_msg)]).2
              ltac:(vm_compute; reflexivity))
    as (Hpoll & _ & _ & Hcalled & _).
  split; [exact Hpoll|].
  apply Hcalled. exists binary_msg, no_polls, no_polls.
  exists [EFromStructured (to_kafka_message binary_msg [Byte.x7b]);
          EFromBinary (to_kafka_message binary_msg [Byte.x7b])].
  split; [reflexivity|]. split; [reflexivity|]. vm_compute. reflexivity.
Defined.

(** No configuration: nothing is created.  No subscription: the Kafka
    consumer created just before is left open. *)
Lemma construction_stops_at_first_failure_witness :
  __init__ (scripted no_config) CoreHandle simple_handler no_polls
  = (Raise (RuntimeError "Failed to get Kafka broker"), no_polls,
     [ECall RGetKafkaConfig])
  /\ exists t,
       __init__ subscribe_fails CoreHandle simple_handler no_polls
       = (Raise (KafkaException {| code := 3; errstr := "unknown topic" |}), no_polls, t)
       /\ count is_release t = 0%nat.
Proof.
  split.
  - destruct (construction_stops_at_first_failure (scripted no_config) CoreHandle
                simple_handler no_polls) as (_ & Hconfig & _).
    apply Hconfig. reflexivity.
  - destruct (construction_stops_at_first_failure subscribe_fails CoreHandle
                simple_handler no_polls) as (Hnone & _ & Hsub & _).
    eexists. split.
    + apply (Hsub sample_config no_polls no_polls
               (KafkaException {| code := 3; errstr := "unknown topic" |}) no_polls);
        reflexivity.
    + reflexivity.
Defined.

(** The value 0 denotes [KAFKA]. *)
Lemma DestinationType_value_round_trip_witness : DestinationType_value KAFKA = 0.
Proof.
  destruct DestinationType_value_round_trip as (_ & Hinv & _).
  apply (Hinv 0 KAFKA). reflexivity.
Defined.

(** The scripted library gives the sample configuration, and every
    string it handed out has been freed. *)
Lemma get_kafka_config_frees_strings_witness :
  FFICore.get_kafka_config sample_lib lenient_decode 0%nat
  = (Returns sample_config, 0%nat,
     [eda_get_kafka_broker; eda_free_string (cstr 1 "localhost:9092");
      eda_get_kafka_topic; eda_free_string (cstr 2 "events");
      eda_get_kafka_group; eda_free_string (cstr 3 "g")]).
Proof.
  destruct (get_kafka_config_frees_strings sample_lib lenient_decode 0%nat)
    as (_ & _ & _ & _ & Hall).
  apply (Hall (cstr 1 "localhost:9092") 1%nat "localhost:9092" 0%nat
           (cstr 2 "events") 1%nat "events" 0%nat
           (cstr 3 "g") 1%nat "g" 0%nat);
    reflexivity.
Defined.

(** The destination of the scripted library is freed after the query. *)
Lemma get_output_destination_frees_once_witness :
  exists r,
    FFICore.get_output_destination sample_lib lenient_decode "{}" 0%nat
    = (r, 0%nat,
       [eda_get_output_destination (encode_utf8 "{}");
        eda_free_output_destination out_destination]).
Proof.
  destruct (get_output_destination_frees_once sample_lib lenient_decode "{}" 0%nat)
    as (_ & Hfree).
  apply (Hfree out_destination 1%nat). reflexivity.
Defined.

(** The destination of the scripted library is the Kafka topic "out". *)
Lemma get_output_destination_result_witness :
  (FFICore.get_output_destination sample_lib lenient_decode "{}" 0%nat).1.1
  = Returns (kafka_dest "out").
Proof.
  destruct (get_output_destination_result sample_lib lenient_decode "{}" 0%nat 1%nat
              out_destination eq_refl) as (_ & _ & _ & Hok).
  apply (Hok KAFKA (cstr 5 "out") "out"); reflexivity.
Defined.

(** Linux on x86_64 has an embedded library; Plan 9 has none. *)
Lemma embedded_lib_path_platforms_witness :
  loader.get_embedded_lib_path package_dir posix_str (fun _ => true) "Linux" "x86_64"
  = Returns ["/venv/lib/eda_sdk"; "ffi"; "libs"; "linux_amd64"; "libeda_core.so"]
  /\ exists m, RuntimeError "Unsupported operating system: Plan9" = RuntimeError m.
Proof.
  split.
  - destruct (embedded_lib_path_platforms package_dir posix_str (fun _ => true)
                "Linux" "x86_64") as (Hiff & _).
    apply Hiff. exists "linux_amd64", "libeda_core.so".
    split; [left; reflexivity|]. split; reflexivity.
  - destruct (embedded_lib_path_platforms package_dir posix_str (fun _ => true)
                "Plan9" "x86_64") as (_ & Herr).
    apply Herr. reflexivity.
Defined.

(** A header without blocks gives no definitions. *)
Lemma header_without_blocks_is_empty_witness :
  loader._load_c_definitions id "include/eda_core.h" (Some plain_header)
  = Returns EmptyString.
Proof.
  destruct (header_without_blocks_is_empty id plain_header_lines) as (_ & Hload).
  - unfold plain_header_lines.
    repeat (apply List.Forall_cons; [split; reflexivity|]). apply List.Forall_nil.
  - apply Hload. vm_compute. reflexivity.
Defined.

(** The caller of the scripted start is [/app/main.py]. *)
Lemma caller_directory_first_outside_witness :
  _get_caller_directory dirname app_frames = Some "/app".
Proof.
  destruct (caller_directory_first_outside dirname app_frames) as (Hiff & _).
  apply Hiff.
  exists ["/venv/lib/eda_sdk/run.py"; "/venv/lib/eda_sdk/ffi/run.py"], "/app/main.py", [].
  split; [reflexivity|]. split.
  - repeat (apply List.Forall_cons; [reflexivity|]). apply List.Forall_nil.
  - split; reflexivity.
Defined.

(** A routing file that cannot be loaded stops the start before the
    delegate or Kafka is called; a routing file that loads, followed
    by a delegate without configuration, stops it before any poll. *)
Lemma startup_failures_witness :
  run_with_core (scripted calm) header_structured nonempty_binary keys_dumps
    (app_runtime true (Raises (RuntimeError "Failed to load routing config from /app/routing.yaml"))
       (Returns tt))
    CoreHandle simple_handler 1 no_polls
  = (Raise (RuntimeError
              ("Failed to load routing config: "
               +:+ "Failed to load routing config from /app/routing.yaml")),
     no_polls,
     [ELog INFO ("Loading routing configuration from " +:+ "/app/routing.yaml") [];
      ERaise (RuntimeError
                ("Failed to load routing config: "
                 +:+ "Failed to load routing config from /app/routing.yaml"))])
  /\ run_with_core (scripted no_config) header_structured nonempty_binary keys_dumps
       (app_runtime true (Returns tt) (Returns tt)) CoreHandle simple_handler 1 no_polls
     = (Raise (RuntimeError ("Failed to create consumer: " +:+ "Failed to get Kafka broker")),
        no_polls,
        [ELog INFO ("Loading routing configuration from " +:+ "/app/routing.yaml") []]
        ++ [ECall RGetKafkaConfig]
        ++ [ERaise (RuntimeError ("Failed to create consumer: "
                                  +:+ "Failed to get Kafka broker"))]).
Proof.
  split.
  - destruct (startup_failures (scripted calm) header_structured nonempty_binary
                keys_dumps
                (app_runtime true
                   (Raises (RuntimeError
                              "Failed to load routing config from /app/routing.yaml"))
                   (Returns tt))
                CoreHandle simple_handler 1 no_polls) as (Hload & _ & _ & _).
    apply (Hload "/app"
             (RuntimeError "Failed to load routing config from /app/routing.yaml")
             no_polls); reflexivity.
  - destruct (startup_failures (scripted no_config) header_structured nonempty_binary
                keys_dumps (app_runtime true (Returns tt) (Returns tt))
                CoreHandle simple_handler 1 no_polls) as (_ & _ & Hinit & _).
    apply (Hinit no_polls
             [ELog INFO ("Loading routing configuration from " +:+ "/app/routing.yaml") []]
             (RuntimeError "Failed to get Kafka broker") no_polls
             [ECall RGetKafkaConfig]);
      [split; reflexivity | reflexivity | reflexivity].
Defined.

(** A start with a routing file that is interrupted at the first poll
    closes the delegate twice. *)
Lemma run_closes_delegate_witness :
  count is_core_close
    (run (scripted calm) header_structured nonempty_binary keys_dumps
       (app_runtime true (Returns tt) (Returns tt)) simple_handler 1 no_polls).2
  = 2%nat.
Proof.
  destruct (run_closes_delegate (scripted calm) header_structured nonempty_binary
              keys_dumps (app_runtime true (Returns tt) (Returns tt))
              simple_handler 1 no_polls) as (_ & _ & Htwice).
  eapply (Htwice CoreHandle no_polls); [reflexivity | vm_compute; reflexivity].
Defined.

(** On Linux the first load creates [/tmp/eda-core-] and opens the
    copy in it; loading again changes nothing. *)
Lemma load_library_once_witness :
  gbind (library.load_library (scripted_os true true) "Linux" "x86_64" package_dir
           posix_str (fun _ => true) posix_join)
    (fun _ => library.load_library (scripted_os true true) "Linux" "x86_64" package_dir
                posix_str (fun _ => true) posix_join)
    (fresh_globals, [])
  = (Returns (Handle 1),
     ({| _lib := Some (Handle 1); _temp_dir := Some "/tmp/eda-core-" |},
      ["/tmp/eda-core-"]),
     [mkdtemp "eda-core-";
      copy2 "/venv/lib/eda_sdk/ffi/libs/linux_amd64/libeda_core.so"
        "/tmp/eda-core-/libeda_core.so";
      chmod "/tmp/eda-core-/libeda_core.so" 493;
      dlopen "/tmp/eda-core-/libeda_core.so"]).
Proof.
  destruct (load_library_once (scripted_os true true) "Linux" "x86_64" package_dir
              posix_str (fun _ => true) posix_join fresh_globals [])
    as (_ & Hfirst).
  destruct (Hfirst "/tmp/eda-core-" ["/tmp/eda-core-"]
              ["/venv/lib/eda_sdk"; "ffi"; "libs"; "linux_amd64"; "libeda_core.so"]
              ["/tmp/eda-core-"] ["/tmp/eda-core-"] (Handle 1) ["/tmp/eda-core-"]
              eq_refl eq_refl eq_refl eq_refl eq_refl eq_refl) as (_ & Htwice).
  exact Htwice.
Defined.

(** A library that cannot be opened: the directory of the attempt
    stays and takes the place of the one remembered before. *)
Lemma failed_load_keeps_directories_witness :
  library.load_library (scripted_os true false) "Linux" "x86_64" package_dir
    posix_str (fun _ => true) posix_join
    ({| _lib := None; _temp_dir := Some "/tmp/eda-core-" |}, ["/tmp/eda-core-"])
  = (Raises (RuntimeError ("Failed to load library from "
                           +:+ "/tmp/eda-core-x/libeda_core.so" +:+ ": "
                           +:+ "cannot load library")),
     ({| _lib := None; _temp_dir := Some "/tmp/eda-core-x" |},
      ["/tmp/eda-core-x"; "/tmp/eda-core-"]),
     [mkdtemp "eda-core-";
      copy2 "/venv/lib/eda_sdk/ffi/libs/linux_amd64/libeda_core.so"
        "/tmp/eda-core-x/libeda_core.so";
      chmod "/tmp/eda-core-x/libeda_core.so" 493;
      dlopen "/tmp/eda-core-x/libeda_core.so"]).
Proof.
  destruct (failed_load_keeps_directories (scripted_os true false) "Linux" "x86_64"
              package_dir posix_str (fun _ => true) posix_join
              {| _lib := None; _temp_dir := Some "/tmp/eda-core-" |} ["/tmp/eda-core-"])
    as (Hfail & _ & _).
  apply (Hfail "/tmp/eda-core-x" ["/tmp/eda-core-x"; "/tmp/eda-core-"]
           ["/venv/lib/eda_sdk"; "ffi"; "libs"; "linux_amd64"; "libeda_core.so"]
           ["/tmp/eda-core-x"; "/tmp/eda-core-"] ["/tmp/eda-core-x"; "/tmp/eda-core-"]
           (OtherException "OSError" "cannot load library")
           ["/tmp/eda-core-x"; "/tmp/eda-core-"]);
    reflexivity.
Defined.

(** A copy that fails: the directory is removed at once. *)
Lemma extraction_failures_witness :
  library.extract_embedded_lib (scripted_os false true) "Linux" "x86_64" package_dir
    posix_str (fun _ => true) posix_join (fresh_globals, [])
  = (Raises (RuntimeError ("Failed to extract embedded library: "
                           +:+ "No space left on device")),
     ({| _lib := None; _temp_dir := Some "/tmp/eda-core-" |}, []),
     [mkdtemp "eda-core-";
      copy2 "/venv/lib/eda_sdk/ffi/libs/linux_amd64/libeda_core.so"
        "/tmp/eda-core-/libeda_core.so";
      rmtree "/tmp/eda-core-"]).
Proof.
  destruct (extraction_failures (scripted_os false true) "Linux" "x86_64" package_dir
              posix_str (fun _ => true) posix_join fresh_globals [])
    as (_ & Hcopy & _).
  apply (Hcopy "/tmp/eda-core-" ["/tmp/eda-core-"]
           ["/venv/lib/eda_sdk"; "ffi"; "libs"; "linux_amd64"; "libeda_core.so"]
           (OtherException "OSError" "No space left on device")
           ["/tmp/eda-core-"] []);
    reflexivity.
Defined.
